(** * Placement portal (server.js): verification workflow, notification
      dispatch and report logo resolution

    A shallow embedding of the Express/Mongoose server of the placement
    portal.  A Rocq string stands for a JavaScript string of ASCII
    characters, one [ascii] per code unit: the case mapping and the
    character classes below are those of the ASCII range.  Outside that
    range the runtime maps more ([toLowerCase] turns U+0130 into [i]
    followed by U+0307 and U+212A into [k], [toUpperCase] turns U+00DF into
    [SS]), so a statement whose truth depends on the case of code units
    above 127 carries the hypothesis [JS.isAscii].  Collections are lists of records in insertion order,
    the [companyLogoMap] object of the report routes is a [gmap] with the
    inherited members of [Object.prototype] written out, and a route
    handler is a function from the database and the request to the new
    database, the new session and the response. *)

From stdpp Require Import base strings list gmap.
From Stdlib Require Import Ascii String.

Open Scope string_scope.

(** ** JavaScript string primitives *)
Module JS.

Definition code (c : ascii) : nat := nat_of_ascii c.

Definition isUpper (c : ascii) : bool :=
  (65 <=? code c)%nat && (code c <=? 90)%nat.

Definition isLower (c : ascii) : bool :=
  (97 <=? code c)%nat && (code c <=? 122)%nat.

Definition isDigit (c : ascii) : bool :=
  (48 <=? code c)%nat && (code c <=? 57)%nat.

(** [\s]: tab, line feed, vertical tab, form feed, carriage return, space. *)
Definition isSpace (c : ascii) : bool :=
  ((9 <=? code c)%nat && (code c <=? 13)%nat) || (code c =? 32)%nat.

(** [[a-z0-9]] *)
Definition isLowerAlnum (c : ascii) : bool := isLower c || isDigit c.

(** [[a-z0-9]] under the [i] flag. *)
Definition isAlnumI (c : ascii) : bool :=
  isLower c || isUpper c || isDigit c.

Definition lowerChar (c : ascii) : ascii :=
  if isUpper c then ascii_of_nat (code c + 32) else c.

Fixpoint smap (f : ascii -> ascii) (s : string) : string :=
  match s with
  | EmptyString => EmptyString
  | String c r => String (f c) (smap f r)
  end.

Fixpoint sfilter (p : ascii -> bool) (s : string) : string :=
  match s with
  | EmptyString => EmptyString
  | String c r => if p c then String c (sfilter p r) else sfilter p r
  end.

(** [s.toLowerCase()] and [s.toUpperCase()] of a string of ASCII
    characters: the letters A-Z and a-z are mapped, every other code unit
    is kept. *)
Definition toLowerCase (s : string) : string := smap lowerChar s.

Definition upperChar (c : ascii) : ascii :=
  if isLower c then ascii_of_nat (code c - 32) else c.

Definition toUpperCase (s : string) : string := smap upperChar s.

(** [s.replace(/C/g, '')] and [s.replace(/C+/g, '')] for a character
    class [C]: every code unit of the class is dropped. *)
Definition removeAll (cls : ascii -> bool) (s : string) : string :=
  sfilter (fun c => negb (cls c)) s.

Definition startsWith (s pre : string) : bool := String.prefix pre s.

(** [s.includes(pat)] *)
Fixpoint includes (s pat : string) : bool :=
  String.prefix pat s ||
  match s with
  | EmptyString => false
  | String _ r => includes r pat
  end.

Fixpoint dropn (n : nat) (s : string) : string :=
  match n, s with
  | O, _ => s
  | S _, EmptyString => EmptyString
  | S k, String _ r => dropn k r
  end.

(** [s.replace(pat, rep)] with a string pattern: the first occurrence only. *)
Fixpoint replaceFirst (s pat rep : string) : string :=
  if String.prefix pat s then rep ++ dropn (String.length pat) s
  else match s with
       | EmptyString => EmptyString
       | String c r => String c (replaceFirst r pat rep)
       end.

Fixpoint trimStart (s : string) : string :=
  match s with
  | EmptyString => EmptyString
  | String c r => if isSpace c then trimStart r else s
  end.

Fixpoint trimEnd (s : string) : string :=
  match s with
  | EmptyString => EmptyString
  | String c r =>
      match trimEnd r with
      | EmptyString => if isSpace c then EmptyString else String c EmptyString
      | t => String c t
      end
  end.

Definition trim (s : string) : string := trimEnd (trimStart s).

(** [s.replace(/(a1|a2|...)$/g, '')]: the scan goes left to right and
    takes the first position where one of the alternatives reaches the end
    of the input; everything from there on is dropped.  A second match
    would have to start at the end of the input, where no non-empty
    alternative fits, so the [g] flag adds nothing. *)
Fixpoint removeAtEnd (alts : list string) (s : string) : string :=
  if existsb (String.eqb s) alts then EmptyString
  else match s with
       | EmptyString => EmptyString
       | String c r => String c (removeAtEnd alts r)
       end.

(** Every code unit of the string satisfies [p]. *)
Fixpoint every (p : ascii -> bool) (s : string) : bool :=
  match s with
  | EmptyString => true
  | String c r => p c && every p r
  end.

(** The string holds ASCII characters only. *)
Definition isAscii (s : string) : bool := every (fun c => (code c <? 128)%nat) s.

(** Truthiness of an optional string: [undefined], [null] and [''] are falsy. *)
Definition truthy (o : option string) : bool :=
  match o with
  | Some s => negb (String.eqb s "")
  | None => false
  end.

End JS.

(** ** The name normalizer of the report routes *)

Definition suffixTokens : list string :=
  ["technologies"; "tech"; "solutions"; "pvt"; "ltd"; "limited"; "private";
   "inc"; "llp"].

(** server.js, [normalizeCompanyName] *)
Definition normalizeCompanyName (name : option string) : string :=
  match name with
  | None => ""
  | Some "" => ""
  | Some n =>
      JS.trim
        (JS.removeAtEnd suffixTokens
           (JS.removeAll (fun c => negb (JS.isAlnumI c))
              (JS.removeAll JS.isSpace (JS.toLowerCase n))))
  end.


(** The normalizer of the logo repair script, which has the same name:
    [/\s*(ltd|limited|pvt|private|inc|llp|technologies|tech|solutions)\s*/gi]
    removes every occurrence of a token, with the spaces around it, wherever
    it stands. *)
Definition repairTokens : list string :=
  ["ltd"; "limited"; "pvt"; "private"; "inc"; "llp"; "technologies"; "tech";
   "solutions"].

(** The rest of the input after the first alternative that starts it. *)
Fixpoint afterToken (alts : list string) (s : string) : option string :=
  match alts with
  | [] => None
  | a :: rest =>
      if String.prefix a s then Some (JS.dropn (String.length a) s)
      else afterToken rest s
  end.

(** The scan of the global replace: at each position the spaces are
    skipped and a token is looked for; a match is dropped together with the
    spaces that follow it, otherwise one code unit is kept.  Every step
    consumes input, so a fuel of the length of the input is enough. *)
Fixpoint removeTokens (fuel : nat) (alts : list string) (s : string) : string :=
  match fuel with
  | O => s
  | S k =>
      match s with
      | EmptyString => EmptyString
      | String c r =>
          match afterToken alts (JS.trimStart s) with
          | Some rest => removeTokens k alts (JS.trimStart rest)
          | None => String c (removeTokens k alts r)
          end
      end
  end.

Definition repairNormalizeCompanyName (name : option string) : string :=
  match name with
  | None => ""
  | Some "" => ""
  | Some n =>
      JS.trim
        (JS.removeAll (fun c => negb (JS.isAlnumI c))
           (removeTokens (String.length n) repairTokens (JS.toLowerCase n)))
  end.

(** ** Values of a parsed request body *)

(** What [express.json()] hands to a handler in a body field: a missing
    field is [JUndefined]; [JObject] stands for a plain object. *)
Inductive jsval (number : Type) : Type :=
| JUndefined
| JNull
| JBool (b : bool)
| JNum (n : number)
| JStr (s : string)
| JObject.

Arguments JUndefined {number}.
Arguments JNull {number}.
Arguments JBool {number} b.
Arguments JNum {number} n.
Arguments JStr {number} s.
Arguments JObject {number}.

(** Mongoose document identifiers. *)
Definition ObjectId : Type := nat.

(** The three values of the [verificationStatus] enum. *)
Inductive status : Type := verified | pending | rejected.

#[global] Instance status_eq_dec : EqDecision status.
Proof. solve_decision. Defined.

Definition statusString (s : status) : string :=
  match s with
  | verified => "verified"
  | pending => "pending"
  | rejected => "rejected"
  end.

(** The HTML bodies of the mails, one constructor per template literal of
    server.js with the values interpolated into it. *)
Inductive mailHtml : Type :=
| TestHtml
| SubmissionAlertHtml (userName userId company salary : string)
| WelcomeHtml (name id : string)
| DeletionNoticeHtml (id : string)
| VerifiedHtml (studentName company salary : string)
| RevisionHtml (studentName company : string)
| ReminderHtml (studentName company salary : string).

Record Email : Type := mkEmail {
  mailTo : option string;
  mailSubject : string;
  mailBody : mailHtml
}.

(** ** What the server takes from its libraries and its environment

    The number type of the runtime, Mongoose's casts, bcrypt, the
    Cloudinary upload, the Gmail call and [process.env.EMAIL_USER] are
    not part of server.js; every statement below holds for all of them. *)
Class Platform : Type := {
  number : Type;
  numberToString : number -> string;
  (** [n || 0]: [0] and [NaN] are falsy *)
  numberTruthy : number -> bool;
  zero : number;
  fromNat : nat -> number;
  parseFloat : jsval number -> number;
  (** cast of an [_id] filter value; [None] is Mongoose's CastError *)
  castObjectId : jsval number -> option ObjectId;
  (** cast to the schema type String; [None] is a validation error,
      [Some None] an absent field *)
  castString : jsval number -> option (option string);
  (** cast to the schema type Number; [None] is a validation error *)
  castNumber : number -> option number;
  (** [new RegExp(`^${source}$`, 'i')] for a [source] that holds other
      characters than letters and digits, which the pattern language may
      read as operators: the test of the compiled pattern on a string, or
      [None] when the constructor throws a SyntaxError *)
  regExp : string -> option (string -> bool);
  bcryptHash : string -> string;
  (** [bcrypt.compare(data, hash)]; [None] when it rejects its arguments *)
  bcryptCompare : jsval number -> string -> option bool;
  (** [uploadToCloudinary(buffer, folder, publicId)]: the [secure_url], or
      [None] when the upload is rejected *)
  uploadToCloudinary : string -> string -> string -> option string;
  (** [gmail.users.messages.send]: [false] when the call throws *)
  gmailSend : Email -> bool;
  (** [express.static] finds a file for the rest of the path under the
      directory mounted at the first segment *)
  staticFile : string -> list string -> bool;
  EMAIL_USER : option string;
  ADMIN_PASSWORD : option string
}.

Abbreviation value := (jsval number).

(** ** Schemas *)

Module Student.
Record t `{Platform} : Type := mk {
  _id : ObjectId;
  sno : option number;
  id : string;
  name : option string;
  company : option string;
  salary : option number;
  photo : option string;
  logo : option string;
  password : string;
  passwordChanged : bool;
  verificationStatus : status
}.
Arguments mk {_}.
End Student.

Module Placement.
Record t `{Platform} : Type := mk {
  _id : ObjectId;
  studentId : string;
  name : option string;
  company : option string;
  salary : option number;
  photo : option string;
  logo : option string;
  isOriginal : bool;
  verificationStatus : status
}.
Arguments mk {_}.
End Placement.

Module Company.
Record t : Type := mk {
  _id : ObjectId;
  name : string;
  logo : option string
}.
End Company.

Module Notification.
Record t : Type := mk {
  _id : ObjectId;
  recipient : string;
  title : string;
  message : string;
  type : string;
  read : bool
}.
End Notification.

Module ActivityLog.
Record t : Type := mk {
  user : string;
  role : string;
  action : string;
  details : string;
  ip : string
}.
End ActivityLog.

(** [req.session.user] *)
Record SessionUser : Type := mkUser {
  userId : string;
  userName : option string;
  userRole : string;
  userPasswordChanged : bool;
  userPhoto : option string
}.

(** The collections, the mails handed to [sendEmail] so far (each with the
    outcome of the Gmail call), and the source of fresh [_id]s. *)
Record World `{Platform} : Type := mkWorld {
  students : list Student.t;
  placements : list Placement.t;
  companies : list Company.t;
  notifications : list Notification.t;
  activityLogs : list ActivityLog.t;
  outbox : list (Email * bool);
  nextId : ObjectId
}.
Arguments mkWorld {_}.

(** ** Requests and responses *)

Inductive Method : Type := GET | HEAD | POST | PUT | DELETE | PATCH | OPTIONS.

#[global] Instance Method_eq_dec : EqDecision Method.
Proof. solve_decision. Defined.

(** A request as the handlers see it: the path split at its slashes (a
    trailing slash is dropped, as routing is not strict), the session
    restored by [express-session], the parsed body, the buffer of
    the file accepted by [multer], the address used by [logActivity] and
    the value of [Date.now() + '-' + Math.round(Math.random() * 1E9)] for
    this request. *)
Record Request `{Platform} : Type := mkRequest {
  method : Method;
  path : list string;
  session : option SessionUser;
  body : string -> value;
  file : option string;
  ip : string;
  uniqueSuffix : string
}.
Arguments mkRequest {_}.

(** What a [catch] block can receive. *)
Inductive exn : Type :=
| CastError
| ValidationError
| DuplicateKeyError
| TypeError
| SyntaxError
| UploadError.

(** The JSON documents sent by the handlers. *)
Inductive payload `{Platform} : Type :=
| Success
| SuccessFlag (success : bool)
| SuccessRole (role : string)
| SuccessPlacement (placement : Placement.t)
| SuccessPhoto (photo : string)
| SuccessCompany (company : Company.t)
| SuccessCount (count total : nat) (message : option string)
| Failure (message : string)
| Error (error : string)
| ErrorOf (error : exn)
| RouteNotFound.

(** Read-only routes answer with data computed from the collections; the
    data itself is outside this development and [Served] stands for it. *)
Inductive response `{Platform} : Type :=
| Json (code : nat) (doc : payload)
| Text (code : nat) (text : string)
| EmptyStatus (code : nat)
| Redirect (location : string)
| Served.

(** ** Handlers as state transformers with exceptions *)

Definition M `{Platform} (A : Type) : Type := World -> (exn + A) * World.

Definition ret `{Platform} {A} (a : A) : M A := fun w => (inr a, w).

Definition bind `{Platform} {A B} (m : M A) (k : A -> M B) : M B :=
  fun w => match m w with
           | (inr a, w') => k a w'
           | (inl e, w') => (inl e, w')
           end.

Definition throw `{Platform} {A} (e : exn) : M A := fun w => (inl e, w).

(** [try { m } catch (e) { h e }]: the writes made before the exception stay. *)
Definition tryCatch `{Platform} {A} (m : M A) (h : exn -> M A) : M A :=
  fun w => match m w with
           | (inr a, w') => (inr a, w')
           | (inl e, w') => h e w'
           end.

Definition get `{Platform} : M World := fun w => (inr w, w).

Definition modify `{Platform} (f : World -> World) : M unit :=
  fun w => (inr tt, f w).

(** [await x] where [x] is [None] when the awaited promise rejects. *)
Definition orThrow `{Platform} {A} (e : exn) (o : option A) : M A :=
  match o with
  | Some a => ret a
  | None => throw e
  end.

Declare Scope js_scope.
Delimit Scope js_scope with js.
Notation "'let*' x := m 'in' k" := (bind m (fun x => k))
  (at level 10, x name, m at level 100, k at level 200) : js_scope.
Notation "m ;; k" := (bind m (fun _ => k))
  (at level 100, k at level 200, right associativity) : js_scope.
Open Scope js_scope.

(** ** The Mongoose calls of server.js *)

Section Store.
Context `{Platform}.

Definition setStudents (f : list Student.t -> list Student.t) (w : World) : World :=
  mkWorld (f (students w)) (placements w) (companies w) (notifications w)
          (activityLogs w) (outbox w) (nextId w).

Definition setPlacements (f : list Placement.t -> list Placement.t) (w : World) : World :=
  mkWorld (students w) (f (placements w)) (companies w) (notifications w)
          (activityLogs w) (outbox w) (nextId w).

Definition setCompanies (f : list Company.t -> list Company.t) (w : World) : World :=
  mkWorld (students w) (placements w) (f (companies w)) (notifications w)
          (activityLogs w) (outbox w) (nextId w).

Definition setNotifications (f : list Notification.t -> list Notification.t) (w : World) : World :=
  mkWorld (students w) (placements w) (companies w) (f (notifications w))
          (activityLogs w) (outbox w) (nextId w).

Definition setActivityLogs (f : list ActivityLog.t -> list ActivityLog.t) (w : World) : World :=
  mkWorld (students w) (placements w) (companies w) (notifications w)
          (f (activityLogs w)) (outbox w) (nextId w).

Definition setOutbox (f : list (Email * bool) -> list (Email * bool)) (w : World) : World :=
  mkWorld (students w) (placements w) (companies w) (notifications w)
          (activityLogs w) (f (outbox w)) (nextId w).

(** A new document takes the next [_id]. *)
Definition freshId : M ObjectId :=
  fun w => (inr (nextId w),
            mkWorld (students w) (placements w) (companies w) (notifications w)
                    (activityLogs w) (outbox w) (S (nextId w))).

(** Update of the first element that satisfies [p]; the element as it was
    before the update is returned, as [findOneAndUpdate] and
    [findByIdAndUpdate] do without the [new] option. *)
Fixpoint updateFirst {A} (p : A -> bool) (f : A -> A) (l : list A) : option A * list A :=
  match l with
  | [] => (None, [])
  | x :: r =>
      if p x then (Some x, f x :: r)
      else let '(o, r') := updateFirst p f r in (o, x :: r')
  end.

(** Removal of the first element that satisfies [p]. *)
Fixpoint removeFirst {A} (p : A -> bool) (l : list A) : option A * list A :=
  match l with
  | [] => (None, [])
  | x :: r =>
      if p x then (Some x, r)
      else let '(o, r') := removeFirst p r in (o, x :: r')
  end.

(** [updateMany]: every element that satisfies [p] is updated. *)
Definition updateAll {A} (p : A -> bool) (f : A -> A) (l : list A) : list A :=
  map (fun x => if p x then f x else x) l.

(** An identifier made of letters and digits, as the roll numbers are. *)
Definition plainId (id : string) : bool := JS.every JS.isAlnumI id.

(** The test of [/^pattern$/i] for a pattern made of letters and digits:
    equality up to case. *)
Definition idMatches (pattern id : string) : bool :=
  String.eqb (JS.toLowerCase pattern) (JS.toLowerCase id).

(** [new RegExp(`^${pattern}$`, 'i')], the pattern put into the source as
    it is, without escaping: letters and digits stand for themselves, and
    any other source is read by the pattern language of the platform; the
    constructor may throw. *)
Definition idRegExp (pattern : string) : option (string -> bool) :=
  if plainId pattern then Some (idMatches pattern) else regExp pattern.

(** The filters [{ _id: oid }] of [findById...] and [{ id: sid }]. *)
Definition Student_byId (oid : ObjectId) (s : Student.t) : bool :=
  Nat.eqb (Student._id s) oid.

Definition Placement_byId (oid : ObjectId) (p : Placement.t) : bool :=
  Nat.eqb (Placement._id p) oid.

Definition Notification_byId (oid : ObjectId) (n : Notification.t) : bool :=
  Nat.eqb (Notification._id n) oid.

Definition Company_byId (oid : ObjectId) (c : Company.t) : bool :=
  Nat.eqb (Company._id c) oid.

Definition Student_idIs (sid : string) (s : Student.t) : bool :=
  String.eqb (Student.id s) sid.

Definition Student_findOne (p : Student.t -> bool) : M (option Student.t) :=
  fun w => (inr (List.find p (students w)), w).

Definition Student_findOneAndUpdate (p : Student.t -> bool) (f : Student.t -> Student.t)
  : M (option Student.t) :=
  fun w => let '(o, l) := updateFirst p f (students w) in
           (inr o, setStudents (fun _ => l) w).

Definition Student_findByIdAndUpdate (id : value) (f : Student.t -> Student.t)
  : M (option Student.t) :=
  let* oid := orThrow CastError (castObjectId id) in
  Student_findOneAndUpdate (Student_byId oid) f.

Definition Student_findOneAndDelete (p : Student.t -> bool) : M (option Student.t) :=
  fun w => let '(o, l) := removeFirst p (students w) in
           (inr o, setStudents (fun _ => l) w).

Definition Student_updateMany (p : Student.t -> bool) (f : Student.t -> Student.t) : M unit :=
  modify (setStudents (updateAll p f)).

Definition Placement_findByIdAndUpdate (id : value) (f : Placement.t -> Placement.t)
  : M (option Placement.t) :=
  let* oid := orThrow CastError (castObjectId id) in
  fun w => let '(o, l) := updateFirst (Placement_byId oid) f (placements w) in
           (inr o, setPlacements (fun _ => l) w).

(** [deleteOne]: the number of documents removed, [0] or [1]. *)
Definition Placement_deleteOne (p : Placement.t -> bool) : M nat :=
  fun w => let '(o, l) := removeFirst p (placements w) in
           (inr (match o with Some _ => 1 | None => 0 end), setPlacements (fun _ => l) w).

Definition Placement_deleteMany (p : Placement.t -> bool) : M unit :=
  modify (setPlacements (List.filter (fun x => negb (p x)))).

Definition Notification_findByIdAndUpdate (id : value) (f : Notification.t -> Notification.t)
  : M (option Notification.t) :=
  let* oid := orThrow CastError (castObjectId id) in
  fun w => let '(o, l) := updateFirst (Notification_byId oid) f (notifications w) in
           (inr o, setNotifications (fun _ => l) w).

Definition Notification_updateMany (p : Notification.t -> bool) (f : Notification.t -> Notification.t)
  : M unit :=
  modify (setNotifications (updateAll p f)).

(** [Notification.create({ recipient, title, message, type })]; [read]
    takes its schema default. *)
Definition Notification_create (recipient title message type : string) : M Notification.t :=
  let* oid := freshId in
  let n := Notification.mk oid recipient title message type false in
  modify (setNotifications (fun l => (l ++ [n])%list)) ;;
  ret n.

Definition ActivityLog_create (l : ActivityLog.t) : M unit :=
  modify (setActivityLogs (fun ls => (ls ++ [l])%list)).

End Store.

(** ** Helpers of server.js *)

Section Handlers.
Context `{Platform}.

(** Conversion inside a template literal. *)
Definition toStr (v : value) : string :=
  match v with
  | JUndefined => "undefined"
  | JNull => "null"
  | JBool true => "true"
  | JBool false => "false"
  | JNum n => numberToString n
  | JStr s => s
  | JObject => "[object Object]"
  end.

Definition optStr (o : option string) : string :=
  match o with
  | Some s => s
  | None => "undefined"
  end.

Definition optNum (o : option number) : string :=
  match o with
  | Some n => numberToString n
  | None => "undefined"
  end.

Definition valueTruthy (v : value) : bool :=
  match v with
  | JUndefined | JNull => false
  | JBool b => b
  | JNum n => numberTruthy n
  | JStr s => negb (String.eqb s "")
  | JObject => true
  end.

(** [v === s] for a string literal [s] *)
Definition isStr (v : value) (s : string) : bool :=
  match v with
  | JStr t => String.eqb t s
  | _ => false
  end.

(** [sendEmail(to, subject, html)]: the Gmail call is made and its failure
    is caught inside; the promise resolves to [true] or [false]. *)
Definition sendEmail (to : option string) (subject : string) (html : mailHtml) : M bool :=
  fun w => let e := mkEmail to subject html in
           (inr (gmailSend e), setOutbox (fun l => (l ++ [(e, gmailSend e)])%list) w).

(** The address computed in [createNotification]. *)
Definition notificationEmail (recipient : string) : option string :=
  if String.eqb recipient "admin" then EMAIL_USER
  else Some (JS.toLowerCase recipient ++ "@gniindia.org").

(** [createNotification(recipient, title, message, type)]: the record is
    saved and the address is computed; the function ends there
    ("We only send email for specific high-priority events, logic will be
    in trigger points"). *)
Definition createNotification (recipient title message type : string) : M unit :=
  tryCatch
    (Notification_create recipient title message type ;;
     let email := notificationEmail recipient in
     ret tt)
    (fun _ => ret tt).

(** The entry written by [logActivity(req, action, details)]. *)
Definition logEntry (req : Request) (action details : string) : ActivityLog.t :=
  let user :=
    match session req with
    | Some u => optStr (userName u) ++ " (" ++ userId u ++ ")"
    | None => "Anonymous"
    end in
  let role :=
    match session req with
    | Some u => if String.eqb (userRole u) "" then "guest" else userRole u
    | None => "guest"
    end in
  ActivityLog.mk user role action details (ip req).

Definition logActivity (req : Request) (action details : string) : M unit :=
  tryCatch (ActivityLog_create (logEntry req action details)) (fun _ => ret tt).

(** The outcome of a handler: the session it leaves and what it sends. *)
Definition Outcome : Type := option SessionUser * response.

Definition Handler : Type := Request -> M Outcome.

Definition send (req : Request) (r : response) : M Outcome := ret (session req, r).

(** [catch (error) { res.status(500).json({ error: error.message }) }] *)
Definition catch500 (req : Request) (m : M Outcome) : M Outcome :=
  tryCatch m (fun e => send req (Json 500 (ErrorOf e))).

Definition hasRole (req : Request) (role : string) : bool :=
  match session req with
  | Some u => String.eqb (userRole u) role
  | None => false
  end.

Definition requireLogin (next : Handler) : Handler := fun req =>
  match session req with
  | Some _ => next req
  | None => send req (Redirect "/login")
  end.

(** [req.path.startsWith('/api/')] *)
Definition isApiPath (req : Request) : bool :=
  match path req with
  | s :: _ :: _ => String.eqb s "api"
  | _ => false
  end.

Definition requireAdmin (next : Handler) : Handler := fun req =>
  if hasRole req "admin" then next req
  else if isApiPath req
       then send req (Json 401 (Error "Unauthorized - Admin login required"))
       else send req (Redirect "/login").

Definition requireStudent (next : Handler) : Handler := fun req =>
  if hasRole req "student" then next req
  else send req (Redirect "/login").

(** The session user of a request that passed one of the guards. *)
Definition sessionUser (req : Request) : SessionUser :=
  match session req with
  | Some u => u
  | None => mkUser "" None "" false None
  end.

Definition Student_withStatus (st : status) (s : Student.t) : Student.t :=
  Student.mk (Student._id s) (Student.sno s) (Student.id s) (Student.name s)
             (Student.company s) (Student.salary s) (Student.photo s)
             (Student.logo s) (Student.password s) (Student.passwordChanged s) st.

Definition Student_withPhoto (ph : option string) (s : Student.t) : Student.t :=
  Student.mk (Student._id s) (Student.sno s) (Student.id s) (Student.name s)
             (Student.company s) (Student.salary s) ph
             (Student.logo s) (Student.password s) (Student.passwordChanged s)
             (Student.verificationStatus s).

Definition Student_withPassword (pw : string) (changed : bool) (s : Student.t) : Student.t :=
  Student.mk (Student._id s) (Student.sno s) (Student.id s) (Student.name s)
             (Student.company s) (Student.salary s) (Student.photo s)
             (Student.logo s) pw changed (Student.verificationStatus s).

Definition Student_withDetails (nm co : option string) (sal : option number)
    (s : Student.t) : Student.t :=
  Student.mk (Student._id s) (Student.sno s) (Student.id s) nm co sal
             (Student.photo s) (Student.logo s) (Student.password s)
             (Student.passwordChanged s) (Student.verificationStatus s).

Definition Placement_withStatus (st : status) (p : Placement.t) : Placement.t :=
  Placement.mk (Placement._id p) (Placement.studentId p) (Placement.name p)
               (Placement.company p) (Placement.salary p) (Placement.photo p)
               (Placement.logo p) (Placement.isOriginal p) st.

Definition Notification_withRead (b : bool) (n : Notification.t) : Notification.t :=
  Notification.mk (Notification._id n) (Notification.recipient n)
                  (Notification.title n) (Notification.message n)
                  (Notification.type n) b.

End Handlers.

(** ** Route handlers *)

Section Routes.
Context `{Platform}.

(** [Placement.create({...})]: the fields are cast to their schema types,
    and the document is stored when every cast succeeds. *)
Definition Placement_create (studentId : string) (name : option string)
    (company : value) (salary : number) (logo : option (option string))
    (photo : option string) (st : status) (isOriginal : bool) : M Placement.t :=
  let* co := orThrow ValidationError (castString company) in
  let* sal := orThrow ValidationError (castNumber salary) in
  let* lg := orThrow ValidationError logo in
  let* oid := freshId in
  let p := Placement.mk oid studentId name co (Some sal) photo lg isOriginal st in
  modify (setPlacements (fun l => (l ++ [p])%list)) ;;
  ret p.

(** POST /api/notifications/read *)
Definition postNotificationsRead : Handler := fun req =>
  catch500 req
    match session req with
    | None => send req (Json 401 (Error "Unauthorized"))
    | Some u =>
        let recipient := if String.eqb (userRole u) "admin" then "admin" else userId u in
        (if valueTruthy (body req "id")
         then Notification_findByIdAndUpdate (body req "id") (Notification_withRead true) ;;
              ret tt
         else Notification_updateMany
                (fun n => String.eqb (Notification.recipient n) recipient
                          && negb (Notification.read n))
                (Notification_withRead true)) ;;
        send req (Json 200 Success)
    end.

(** POST /api/placements *)
Definition postPlacements : Handler := requireStudent (fun req =>
  catch500 req
    (let company := body req "company" in
     let salary := body req "salary" in
     let logo := body req "logo" in
     let u := sessionUser req in
     let* re := orThrow SyntaxError (idRegExp (userId u)) in
     let* student := Student_findOne (fun s => re (Student.id s)) in
     match student with
     | Some st =>
         if JS.truthy (Student.photo st) then
           let* newPlacement :=
             Placement_create (userId u) (Student.name st) company (parseFloat salary)
               (if valueTruthy logo then castString logo else Some (Student.logo st))
               (Student.photo st) pending false in
           createNotification "admin" "New Placement Submission"
             (optStr (userName u) ++ " (" ++ userId u ++ ") submitted placement at "
                ++ toStr company) "info" ;;
           sendEmail EMAIL_USER "🔔 New Submission - GNITC Special Batch"
             (SubmissionAlertHtml (optStr (userName u)) (userId u) (toStr company)
                (toStr salary)) ;;
           logActivity req "ADD_PLACEMENT" ("Added placement at " ++ toStr company) ;;
           send req (Json 200 (SuccessPlacement newPlacement))
         else send req (Json 400 (Error "Please upload your photo first"))
     | None => send req (Json 400 (Error "Please upload your photo first"))
     end)).

(** DELETE /api/placements/:id *)
Definition deletePlacement (id : string) : Handler := requireStudent (fun req =>
  catch500 req
    (let* oid := orThrow CastError (castObjectId (JStr id)) in
     let* deletedCount :=
       Placement_deleteOne
         (fun p => Placement_byId oid p
                   && String.eqb (Placement.studentId p) (userId (sessionUser req))
                   && negb (Placement.isOriginal p)) in
     send req (Json 200 (SuccessFlag (0 <? deletedCount)%nat)))).

(** POST /api/upload-photo *)
Definition postUploadPhoto : Handler := requireStudent (fun req =>
  catch500 req
    match file req with
    | None => send req (Json 400 (Error "No file uploaded"))
    | Some buffer =>
        let u := sessionUser req in
        let* photoUrl :=
          orThrow UploadError (uploadToCloudinary buffer "student_photos" (userId u)) in
        let* re := orThrow SyntaxError (idRegExp (userId u)) in
        Student_findOneAndUpdate
          (fun s => re (Student.id s))
          (fun s => Student_withStatus pending (Student_withPhoto (Some photoUrl) s)) ;;
        logActivity req "UPLOAD_PHOTO" "Student uploaded new photo (Cloudinary)" ;;
        ret (Some (mkUser (userId u) (userName u) (userRole u) (userPasswordChanged u)
                     (Some photoUrl)),
             Json 200 (SuccessPhoto photoUrl))
    end).

(** The status chosen by POST /api/admin/verify. *)
Definition verifyStatus (action : value) : status :=
  if isStr action "approve" then verified else rejected.

(** POST /api/admin/verify.  [p.studentId] is a required field, so the
    filter [{ id: p.studentId || p.id }] is [{ id: p.studentId }]. *)
Definition postAdminVerify : Handler := requireAdmin (fun req =>
  catch500 req
    (let type := body req "type" in
     let id := body req "id" in
     let action := body req "action" in
     let st := verifyStatus action in
     (if isStr type "placement" then
        let* found := Placement_findByIdAndUpdate id (Placement_withStatus st) in
        match found with
        | Some p =>
            let* student :=
              Student_findOne (Student_idIs (Placement.studentId p)) in
            match student with
            | Some s =>
                let title :=
                  if decide (st = verified) then "✅ Official Record: VERIFIED"
                  else "⚠️ Record Needs Revision" in
                let message :=
                  if decide (st = verified)
                  then "Great news! Your placement at " ++ optStr (Placement.company p)
                       ++ " has been verified and officially recorded."
                  else "Your placement at " ++ optStr (Placement.company p)
                       ++ " was not approved. Please check details and resubmit." in
                let emailHtml :=
                  if decide (st = verified)
                  then VerifiedHtml (optStr (Student.name s)) (optStr (Placement.company p))
                         (optNum (Placement.salary p))
                  else RevisionHtml (optStr (Student.name s)) (optStr (Placement.company p)) in
                createNotification (Student.id s) title message
                  (if decide (st = verified) then "success" else "warning") ;;
                let emailTo := JS.toLowerCase (Student.id s) ++ "@gniindia.org" in
                sendEmail (Some emailTo) title emailHtml ;;
                ret tt
            | None => ret tt
            end
        | None => ret tt
        end
      else if isStr type "original" then
        let* found := Student_findByIdAndUpdate id (Student_withStatus st) in
        match found with
        | Some s =>
            createNotification (Student.id s) "Profile Status Update"
              ("Your profile verification status is now: "
                 ++ JS.toUpperCase (statusString st)) "info"
        | None => ret tt
        end
      else ret tt) ;;
     logActivity req "VERIFY" (toStr action ++ " " ++ toStr type ++ " " ++ toStr id) ;;
     send req (Json 200 Success))).

(** The activity-log entry written at the end of POST /api/admin/verify. *)
Definition verifyEntry (req : Request) : ActivityLog.t :=
  logEntry req "VERIFY"
    (toStr (body req "action") ++ " " ++ toStr (body req "type") ++ " "
       ++ toStr (body req "id")).

(** The [id] of a verification request names a record of the collection
    chosen by its [type]. *)
Definition resolves (req : Request) (w : World) : bool :=
  match castObjectId (body req "id") with
  | Some oid =>
      if isStr (body req "type") "placement"
      then bool_decide (is_Some (List.find (Placement_byId oid) (placements w)))
      else if isStr (body req "type") "original"
           then bool_decide (is_Some (List.find (Student_byId oid) (students w)))
           else false
  | None => false
  end.

End Routes.

Section MoreRoutes.
Context `{Platform}.

Definition withSession (u : option SessionUser) (req : Request) : Request :=
  mkRequest (method req) (path req) u (body req) (file req) (ip req)
            (uniqueSuffix req).

(** [process.env.ADMIN_PASSWORD || 'admin@123'] *)
Definition ADMIN_PLAIN : string :=
  if JS.truthy ADMIN_PASSWORD then optStr ADMIN_PASSWORD else "admin@123".

(** GET /api/test-email *)
Definition getTestEmail : Handler := fun req =>
  catch500 req
    (let* result :=
       sendEmail (Some "gni.hrnotify@gmail.com")
         "Test Email from GNITC Portal (Gmail API)" TestHtml in
     if (result : bool)
     then send req (Text 200 "Email Sent Successfully via Gmail API! Check logs.")
     else send req (Text 500 "Email Failed. Check server logs.")).

(** POST /api/login *)
Definition postLogin : Handler := fun req =>
  catch500 req
    (let username := body req "username" in
     let password := body req "password" in
     let failed :=
       logActivity req "LOGIN_FAIL" ("Failed login attempt for: " ++ toStr username) ;;
       send req (Json 200 (Failure "Invalid credentials")) in
     match username with
     | JStr name =>
         let upperUsername := JS.toUpperCase name in
         if String.eqb upperUsername "ADMIN001" && isStr password ADMIN_PLAIN then
           let user := mkUser "ADMIN001" (Some "Administrator") "admin" false None in
           logActivity (withSession (Some user) req) "LOGIN" "Admin logged in" ;;
           ret (Some user, Json 200 (SuccessRole "admin"))
         else
           let* re := orThrow SyntaxError (idRegExp upperUsername) in
           let* student := Student_findOne (fun s => re (Student.id s)) in
           match student with
           | Some s =>
               let* matched :=
                 orThrow TypeError (bcryptCompare password (Student.password s)) in
               if (matched : bool) then
                 let user := mkUser (Student.id s) (Student.name s) "student"
                               (Student.passwordChanged s) None in
                 logActivity (withSession (Some user) req) "LOGIN"
                   ("Student logged in: " ++ Student.id s) ;;
                 ret (Some user, Json 200 (SuccessRole "student"))
               else failed
           | None => failed
           end
     | _ => throw TypeError
     end).

(** POST /api/change-password *)
Definition postChangePassword : Handler := requireStudent (fun req =>
  catch500 req
    (let newPassword := body req "newPassword" in
     let u := sessionUser req in
     let tooShort := send req (Json 400 (Error "Password must be at least 6 characters")) in
     if negb (valueTruthy newPassword) then tooShort
     else match newPassword with
          | JStr pw =>
              if (String.length pw <? 6)%nat then tooShort
              else
                let hashedPassword := bcryptHash pw in
                let* re := orThrow SyntaxError (idRegExp (userId u)) in
                Student_findOneAndUpdate
                  (fun s => re (Student.id s))
                  (Student_withPassword hashedPassword true) ;;
                logActivity req "PASSWORD_CHANGE" "Student changed password" ;;
                ret (Some (mkUser (userId u) (userName u) (userRole u) true (userPhoto u)),
                     Json 200 Success)
          | _ => throw TypeError
          end)).

(** GET /logout *)
Definition getLogout : Handler := fun req => ret (None, Redirect "/login").

(** [new Student({...}).save()] in POST /api/students/create: [id] is
    unique, [verificationStatus] and [passwordChanged] take their defaults. *)
Definition Student_saveNew (id : string) (name : option (option string))
    (password : string) : M Student.t :=
  let* nm := orThrow ValidationError name in
  let* w := get in
  if existsb (Student_idIs id) (students w)
  then throw DuplicateKeyError
  else
    let* oid := freshId in
    let s := Student.mk oid (Some (fromNat (List.length (students w) + 1))) id nm
               (Some "") (Some zero) (Some "") (Some "") password false verified in
    modify (setStudents (fun l => (l ++ [s])%list)) ;;
    ret s.

(** POST /api/students/create *)
Definition postStudentsCreate : Handler := requireAdmin (fun req =>
  catch500 req
    (let id := body req "id" in
     let name := body req "name" in
     if negb (valueTruthy id) then send req (Json 400 (Error "Student ID is required"))
     else
       let* re := orThrow SyntaxError (idRegExp (toStr id)) in
       let* existingStudent := Student_findOne (fun s => re (Student.id s)) in
       match existingStudent with
       | Some _ => send req (Json 400 (Error "Student ID already exists"))
       | None =>
           let hashedPassword := bcryptHash "Welcome@123" in
           match id with
           | JStr sid =>
               Student_saveNew (JS.toUpperCase sid)
                 (if valueTruthy name then castString name else Some (Some "Student"))
                 hashedPassword ;;
               logActivity req "CREATE_STUDENT"
                 ("Created student: " ++ sid ++ " (" ++ toStr name ++ ")") ;;
               sendEmail (Some (JS.toLowerCase sid ++ "@gniindia.org"))
                 "🌟 Exclusive Access: GNITC Special Batch Portal"
                 (WelcomeHtml (toStr name) sid) ;;
               send req (Json 200 Success)
           | _ => throw TypeError
           end
       end)).

(** A field of an update document: an [undefined] field is left out of
    the update, any other value is cast and replaces the stored one. *)
Definition updateField (v : value) : option (option string -> option string) :=
  match v with
  | JUndefined => Some (fun old => old)
  | _ => match castString v with
         | Some x => Some (fun _ => x)
         | None => None
         end
  end.

(** PUT /api/students/:id *)
Definition putStudent (id : string) : Handler := requireAdmin (fun req =>
  catch500 req
    (let name := body req "name" in
     let company := body req "company" in
     let salary := body req "salary" in
     let sal := if numberTruthy (parseFloat salary) then parseFloat salary else zero in
     let* re := orThrow SyntaxError (idRegExp id) in
     let* setName := orThrow CastError (updateField name) in
     let* setCompany := orThrow CastError (updateField company) in
     let* sal' := orThrow CastError (castNumber sal) in
     Student_findOneAndUpdate
       (fun s => re (Student.id s))
       (fun s => Student_withDetails (setName (Student.name s))
                   (setCompany (Student.company s)) (Some sal') s) ;;
     logActivity req "UPDATE_STUDENT" ("Admin updated student: " ++ id) ;;
     send req (Json 200 Success))).

(** DELETE /api/students/:id; the removal of the photo file is outside
    the collections. *)
Definition deleteStudent (id : string) : Handler := requireAdmin (fun req =>
  catch500 req
    (let* re := orThrow SyntaxError (idRegExp id) in
     Student_findOneAndDelete (fun s => re (Student.id s)) ;;
     Placement_deleteMany (fun p => re (Placement.studentId p)) ;;
     sendEmail (Some (JS.toLowerCase id ++ "@gniindia.org"))
       "Account Deleted - GNITC Special Batch" (DeletionNoticeHtml id) ;;
     logActivity req "DELETE_STUDENT" ("Deleted student: " ++ id) ;;
     send req (Json 200 Success))).

(** The loop of POST /api/admin/send-pending-reminders. *)
Fixpoint sendReminders (pendingPlacements : list Placement.t) (sentCount : nat) : M nat :=
  match pendingPlacements with
  | [] => ret sentCount
  | p :: rest =>
      let* student :=
        Student_findOne (Student_idIs (Placement.studentId p)) in
      match student with
      | None => sendReminders rest sentCount
      | Some s =>
          sendEmail (Some (JS.toLowerCase (Student.id s) ++ "@gniindia.org"))
            "⏳ Reminder: Your Placement is Pending Verification"
            (ReminderHtml (optStr (Student.name s)) (optStr (Placement.company p))
               (optNum (Placement.salary p))) ;;
          sendReminders rest (S sentCount)
      end
  end.

(** POST /api/admin/send-pending-reminders *)
Definition postSendPendingReminders : Handler := requireAdmin (fun req =>
  catch500 req
    (let* w := get in
     let pendingPlacements :=
       List.filter
         (fun p => bool_decide (Placement.verificationStatus p = pending)
                   && negb (Placement.isOriginal p))
         (placements w) in
     match pendingPlacements with
     | [] => send req (Json 200 (SuccessCount 0 0 (Some "No pending placements found")))
     | _ =>
         let* sentCount := sendReminders pendingPlacements 0 in
         logActivity req "SEND_REMINDERS"
           ("Sent " ++ numberToString (fromNat sentCount)
              ++ " pending verification reminders") ;;
         send req (Json 200 (SuccessCount sentCount (List.length pendingPlacements) None))
     end)).

(** POST /api/companies *)
Definition postCompanies : Handler := requireAdmin (fun req =>
  catch500 req
    (let name := body req "name" in
     if negb (valueTruthy name) then send req (Json 400 (Error "Company Name is required"))
     else
       let* logoUrl :=
         match file req with
         | Some buffer =>
             orThrow UploadError
               (uploadToCloudinary buffer "company_logos" ("company-" ++ uniqueSuffix req))
         | None => ret ""
         end in
       let* nm := orThrow ValidationError (castString name) in
       match nm with
       | None | Some "" => throw ValidationError
       | Some n =>
           let* w := get in
           if existsb (fun c => String.eqb (Company.name c) n) (companies w)
           then throw DuplicateKeyError
           else
             let* oid := freshId in
             let newCompany := Company.mk oid n (Some logoUrl) in
             modify (setCompanies (fun l => (l ++ [newCompany])%list)) ;;
             logActivity req "ADD_COMPANY" ("Added company: " ++ toStr name) ;;
             send req (Json 200 (SuccessCompany newCompany))
       end)).

(** DELETE /api/companies/:id; the removal of the logo file is outside
    the collections. *)
Definition deleteCompany (id : string) : Handler := requireAdmin (fun req =>
  catch500 req
    (let* oid := orThrow CastError (castObjectId (JStr id)) in
     let* w := get in
     match List.find (Company_byId oid) (companies w) with
     | None => send req (Json 404 (Error "Not found"))
     | Some company =>
         modify (setCompanies (fun l => snd (removeFirst (Company_byId oid) l))) ;;
         logActivity req "DELETE_COMPANY" ("Deleted company: " ++ Company.name company) ;;
         send req (Json 200 Success)
     end)).

End MoreRoutes.

(** ** The application: middleware and routes in registration order *)

Section App.
Context `{Platform}.

(** Routes that only read.  The guards are those of server.js; whatever
    the handler behind them sends (its data, or the 500 of its catch
    block) is [Served]: these routes write nothing, and no statement
    below is about their answers. *)
Definition readOnly : Handler := fun req => send req Served.

Definition getHealthz : Handler := readOnly.

Definition getNotifications : Handler := fun req =>
  match session req with
  | None => send req (Json 401 (Error "Unauthorized"))
  | Some _ => send req Served
  end.

Definition getFavicon : Handler := fun req => send req (EmptyStatus 204).

Definition getRoot : Handler := fun req =>
  match session req with
  | Some u => if String.eqb (userRole u) "admin" then send req (Redirect "/admin")
              else send req (Redirect "/student")
  | None => send req (Redirect "/login")
  end.

Definition getLogin : Handler := fun req =>
  match session req with
  | Some u => if String.eqb (userRole u) "admin" then send req (Redirect "/admin")
              else send req (Redirect "/student")
  | None => send req Served
  end.

(** A segment of a route path: a literal or a named parameter. *)
Inductive segment : Type :=
| Lit (s : string)
| Param.

(** Express matches literals without regard to case, and a parameter
    against any non-empty segment; the captured parameters are returned. *)
Fixpoint matchPath (pat : list segment) (p : list string) : option (list string) :=
  match pat, p with
  | [], [] => Some []
  | Lit s :: pat', x :: p' =>
      if String.eqb (JS.toLowerCase x) (JS.toLowerCase s) then matchPath pat' p' else None
  | Param :: pat', x :: p' =>
      if String.eqb x "" then None
      else match matchPath pat' p' with
           | Some ps => Some (x :: ps)
           | None => None
           end
  | _, _ => None
  end.

(** One [app.get]/[app.post]/[app.put]/[app.delete] or [app.use] call. *)
Inductive layer : Type :=
| Route (m : Method) (pat : list segment) (h : list string -> Handler)
| Static (mount : string).

Definition plain (h : Handler) : list string -> Handler := fun _ => h.

Definition withId (h : string -> Handler) : list string -> Handler := fun ps =>
  match ps with
  | id :: _ => h id
  | [] => h ""
  end.

(** The stack built by server.js after the CORS middleware, top to bottom. *)
Definition layers : list layer :=
  [ Route GET [Lit "healthz"] (plain getHealthz);
    Route GET [Lit "api"; Lit "test-email"] (plain getTestEmail);
    Route GET [Lit "api"; Lit "notifications"] (plain getNotifications);
    Route POST [Lit "api"; Lit "notifications"; Lit "read"] (plain postNotificationsRead);
    Static "logos";
    Static "styles.css";
    Route GET [Lit "favicon.ico"] (plain getFavicon);
    Route GET [] (plain getRoot);
    Route GET [Lit "login"] (plain getLogin);
    Route POST [Lit "api"; Lit "login"] (plain postLogin);
    Route POST [Lit "api"; Lit "change-password"] (plain postChangePassword);
    Route GET [Lit "logout"] (plain getLogout);
    Route GET [Lit "api"; Lit "auth"; Lit "status"] (plain readOnly);
    Route GET [Lit "api"; Lit "admin"; Lit "logs"] (plain (requireAdmin readOnly));
    Route GET [Lit "api"; Lit "me"] (plain (requireLogin readOnly));
    Route GET [Lit "api"; Lit "placements"] (plain (requireAdmin readOnly));
    Route GET [Lit "api"; Lit "my-profile"] (plain (requireStudent readOnly));
    Route POST [Lit "api"; Lit "placements"] (plain postPlacements);
    Route DELETE [Lit "api"; Lit "placements"; Param] (withId deletePlacement);
    Route POST [Lit "api"; Lit "upload-photo"] (plain postUploadPhoto);
    Route GET [Lit "api"; Lit "photo"; Param] (plain readOnly);
    Route GET [Lit "api"; Lit "logos"; Param] (plain readOnly);
    Route GET [Lit "photo"; Param] (plain (requireLogin readOnly));
    Route POST [Lit "api"; Lit "students"; Lit "create"] (plain postStudentsCreate);
    Route PUT [Lit "api"; Lit "students"; Param] (withId putStudent);
    Route DELETE [Lit "api"; Lit "students"; Param] (withId deleteStudent);
    Route POST [Lit "api"; Lit "admin"; Lit "verify"] (plain postAdminVerify);
    Route POST [Lit "api"; Lit "admin"; Lit "send-pending-reminders"]
          (plain postSendPendingReminders);
    Route GET [Lit "api"; Lit "admin"; Lit "students"] (plain (requireAdmin readOnly));
    Route GET [Lit "api"; Lit "companies"] (plain (requireLogin readOnly));
    Route POST [Lit "api"; Lit "companies"] (plain postCompanies);
    Route DELETE [Lit "api"; Lit "companies"; Param] (withId deleteCompany);
    Route GET [Lit "api"; Lit "logos"] (plain (requireLogin readOnly));
    Route GET [Lit "download"; Lit "excel"] (plain (requireAdmin readOnly));
    Route GET [Lit "download"; Lit "word"] (plain (requireAdmin readOnly));
    Route GET [Lit "preview"; Lit "word"] (plain (requireAdmin readOnly)) ].

(** A HEAD request is answered by the GET route of the path. *)
Definition methodMatches (routeMethod m : Method) : bool :=
  bool_decide (routeMethod = m) || (bool_decide (routeMethod = GET) && bool_decide (m = HEAD)).

(** The layer that answers the request, if any: the first route whose
    method and path match, or a static mount that has the file. *)
Fixpoint dispatch (ls : list layer) (req : Request) : option (M Outcome) :=
  match ls with
  | [] => None
  | Route m pat h :: rest =>
      if methodMatches m (method req) then
        match matchPath pat (path req) with
        | Some ps => Some (h ps req)
        | None => dispatch rest req
        end
      else dispatch rest req
  | Static mount :: rest =>
      match path req with
      | x :: sub =>
          if (bool_decide (method req = GET) || bool_decide (method req = HEAD))
             && String.eqb (JS.toLowerCase x) mount && staticFile mount sub
          then Some (send req Served)
          else dispatch rest req
      | [] => dispatch rest req
      end
  end.

(** The 404 handler registered last. *)
Definition notFound : Handler := fun req => send req (Json 404 RouteNotFound).

(** The server on one request: the CORS middleware answers OPTIONS, then
    the layers, then the 404 handler. *)
Definition serve (req : Request) : M Outcome :=
  if bool_decide (method req = OPTIONS) then send req (EmptyStatus 200)
  else match dispatch layers req with
       | Some m => m
       | None => notFound req
       end.

(** ** Startup passes *)

(** [{ $or: [{ photo: null }, { photo: '' }] }]: the field is null,
    missing or empty. *)
Definition photoMissing (s : Student.t) : bool :=
  match Student.photo s with
  | None => true
  | Some ph => String.eqb ph ""
  end.

Definition checkStudentVerification : M unit :=
  tryCatch (Student_updateMany photoMissing (Student_withStatus pending))
           (fun _ => ret tt).

Definition migratePasswords : M unit :=
  tryCatch
    (Student_updateMany
       (fun s => negb (String.eqb (Student.password s) "")
                 && (String.length (Student.password s) <? 50)%nat)
       (fun s => Student_withPassword (bcryptHash (Student.password s))
                   (Student.passwordChanged s) s))
    (fun _ => ret tt).

(** What happens to the collections over the life of the server: a request
    is served, or the process starts and runs its passes.  The passes are
    started one after the other without being awaited; [migratePasswords]
    writes the [password] field only and [checkStudentVerification] the
    [verificationStatus] field only, so they are taken in sequence.
    [syncCompanies] reconciles the Company collection with the logos
    directory and writes nothing else; it is left out. *)
Inductive event : Type :=
| Served_request (req : Request)
| Startup.

Definition step (e : event) (w : World) : World :=
  match e with
  | Served_request req => snd (serve req w)
  | Startup => snd ((migratePasswords ;; checkStudentVerification) w)
  end.

Definition run (es : list event) (w : World) : World :=
  fold_left (fun w e => step e w) es w.

(** ** The state of one Student record along a run *)

(** The source of fresh [_id]s is ahead of every Student record. *)
Definition freshIds (w : World) : Prop :=
  Forall (fun s => Student._id s < nextId w) (students w).



(** Every Student record with the [_id] [oid] is pending, in a world whose
    fresh [_id]s lie beyond [oid]. *)
Definition pendingAt (oid : ObjectId) (w : World) : Prop :=
  freshIds w
  /\ oid < nextId w
  /\ forall s, In s (students w) -> Student._id s = oid ->
               Student.verificationStatus s = pending.

(** The computation keeps the record [oid] pending. *)
Definition keeps (oid : ObjectId) {A} (m : M A) : Prop :=
  forall w, pendingAt oid w -> pendingAt oid (snd (m w)).


End App.

(** ** Report assembly: the logo of a row *)

(** Members that every object literal inherits from [Object.prototype]. *)
Definition objectPrototypeMembers : list string :=
  ["constructor"; "__defineGetter__"; "__defineSetter__"; "hasOwnProperty";
   "__lookupGetter__"; "__lookupSetter__"; "isPrototypeOf";
   "propertyIsEnumerable"; "toString"; "valueOf"; "__proto__"; "toLocaleString"].

(** What [obj[key]] evaluates to on an object built by assignments: an own
    property (whose value may be [undefined]), an inherited function, or
    [undefined]. *)
Inductive member : Type :=
| Own (v : option string)
| Inherited
| Missing.

Definition getMember (obj : gmap string (option string)) (key : string) : member :=
  match obj !! key with
  | Some v => Own v
  | None => if existsb (String.eqb key) objectPrototypeMembers then Inherited else Missing
  end.

(** [companies.forEach(c => { companyLogoMap[normalizeCompanyName(c.name)] = c.logo })];
    a later company with the same key overwrites an earlier one. *)
Definition companyLogoMap (cs : list Company.t) : gmap string (option string) :=
  fold_left
    (fun m c => <[normalizeCompanyName (Some (Company.name c)) := Company.logo c]> m)
    cs ∅.

(** The fields of a row ([s] in the report routes) that the logo depends on;
    a row is a Student or a Placement document. *)
Record Row : Type := mkRow {
  rowCompany : option string;
  rowLogo : option string
}.

Definition rowOfStudent `{Platform} (s : Student.t) : Row :=
  mkRow (Student.company s) (Student.logo s).

Definition rowOfPlacement `{Platform} (p : Placement.t) : Row :=
  mkRow (Placement.company p) (Placement.logo p).

(** The value of [logoUrl] after the registry lookup: a string (empty when
    there is none) or the inherited function. *)
Inductive looked : Type :=
| Url (u : string)
| NotAString.

Definition registryLookup (m : gmap string (option string)) (s : Row) : looked :=
  let companyName := normalizeCompanyName (rowCompany s) in
  if String.eqb companyName "" then Url ""
  else match getMember m companyName with
       | Own v => if JS.truthy v then Url (optStr v) else Url ""
       | Inherited => NotAString
       | Missing => Url ""
       end.

(** GET /download/word and GET /preview/word, from [let logoUrl = ''] to
    the first use of [logoUrl] as a string, which raises a TypeError on
    the inherited function. *)
Definition resolveLogoUrl (m : gmap string (option string)) (s : Row) : exn + string :=
  match registryLookup m s with
  | NotAString => inl TypeError
  | Url u =>
      if String.eqb u "" then
        match rowLogo s with
        | Some l =>
            if negb (String.eqb l "") && JS.includes l "cloudinary.com"
            then inr l else inr ""
        | None => inr ""
        end
      else inr u
  end.

(** The same resolution written as the three steps of the report: (a) the
    logo of the registry entry under the normalized name, when there is
    one; (b) otherwise the row's own logo, when it holds 'cloudinary.com';
    (c) otherwise none. *)
Definition registryLogo (m : gmap string (option string)) (s : Row) : option string :=
  let companyName := normalizeCompanyName (rowCompany s) in
  if String.eqb companyName "" then None
  else match m !! companyName with
       | Some (Some u) => if String.eqb u "" then None else Some u
       | _ => None
       end.

Definition logoBySteps (m : gmap string (option string)) (s : Row) : string :=
  match registryLogo m s with
  | Some u => u
  | None =>
      match rowLogo s with
      | Some l => if JS.includes l "cloudinary.com" then l else ""
      | None => ""
      end
  end.

(** The test for a remote URL used by [fetchImageToBase64] and
    [syncCompanies]. *)
Definition isRemoteUrl (s : string) : bool := JS.startsWith s "http".

(** The resolution in the words of the specification: step (b) takes the
    row's own logo when it is a fully-qualified remote URL. *)
Definition logoAsSpecified (m : gmap string (option string)) (s : Row) : string :=
  match registryLogo m s with
  | Some u => u
  | None =>
      match rowLogo s with
      | Some l => if isRemoteUrl l then l else ""
      | None => ""
      end
  end.

(** GET /download/word: the delivery format is forced to JPEG. *)
Definition forceJpeg (logoUrl : string) : string :=
  if JS.includes logoUrl "cloudinary.com" then
    if negb (JS.includes logoUrl "f_jpg") then
      if JS.includes logoUrl "/f_png/" then JS.replaceFirst logoUrl "/f_png/" "/f_jpg/"
      else if JS.includes logoUrl "/upload/"
           then JS.replaceFirst logoUrl "/upload/" "/upload/f_jpg/"
           else logoUrl
    else logoUrl
  else logoUrl.

(** ** A concrete platform and sample data *)

(** Numbers as integers, identifiers cast from decimal digit strings,
    every field cast accepted when it is a string, mail delivery failing. *)
Definition digitValue (c : ascii) : nat := JS.code c - 48.

Fixpoint parseDigits (s : string) (acc : nat) : option nat :=
  match s with
  | EmptyString => Some acc
  | String c r => if JS.isDigit c then parseDigits r (10 * acc + digitValue c) else None
  end.

Definition sampleCastObjectId (v : jsval Z) : option ObjectId :=
  match v with
  | JStr EmptyString => None
  | JStr s => parseDigits s 0
  | _ => None
  end.

Definition sampleCastString (v : jsval Z) : option (option string) :=
  match v with
  | JStr s => Some (Some s)
  | JUndefined | JNull => Some None
  | _ => None
  end.

Definition sampleParseFloat (v : jsval Z) : Z :=
  match v with
  | JNum n => n
  | _ => 0%Z
  end.

(** The patterns of the sample platform: ordinary characters, compared
    without regard to case, and [.], which stands for any character but a
    line terminator; its engine knows no other operator and refuses a
    source that holds one. *)
Definition isSyntaxCharacter (c : ascii) : bool :=
  JS.includes "\^$.|?*+()[]{}" (String c EmptyString).

Fixpoint sampleTest (pattern s : string) : bool :=
  match pattern, s with
  | EmptyString, EmptyString => true
  | String p pr, String c r =>
      (if Ascii.eqb p "." then negb ((JS.code c =? 10)%nat || (JS.code c =? 13)%nat)
       else Ascii.eqb (JS.lowerChar p) (JS.lowerChar c))
      && sampleTest pr r
  | _, _ => false
  end.

Definition sampleRegExp (source : string) : option (string -> bool) :=
  if JS.every (fun c => Ascii.eqb c "." || negb (isSyntaxCharacter c)) source
  then Some (sampleTest source) else None.

Definition samplePlatform : Platform := {|
  number := Z;
  numberToString := fun _ => "0";
  numberTruthy := fun n => negb (Z.eqb n 0);
  zero := 0%Z;
  fromNat := Z.of_nat;
  parseFloat := sampleParseFloat;
  castObjectId := sampleCastObjectId;
  castString := sampleCastString;
  castNumber := fun n => Some n;
  regExp := sampleRegExp;
  bcryptHash := fun s => "$2a$10$" ++ s;
  bcryptCompare := fun v h => match v with
                              | JStr s => Some (String.eqb ("$2a$10$" ++ s) h)
                              | _ => None
                              end;
  uploadToCloudinary := fun _ folder publicId =>
    Some ("https://res.cloudinary.com/demo/image/upload/" ++ folder ++ "/" ++ publicId);
  gmailSend := fun _ => false;
  staticFile := fun _ _ => false;
  EMAIL_USER := Some "gni.hrnotify@gmail.com";
  ADMIN_PASSWORD := None
|}.

Section Samples.
#[local] Existing Instance samplePlatform.

Definition bodyOf (fields : list (string * jsval Z)) : string -> jsval Z :=
  fun k => match List.find (fun kv => String.eqb (fst kv) k) fields with
           | Some kv => snd kv
           | None => JUndefined
           end.

Definition adminUser : SessionUser :=
  mkUser "ADMIN001" (Some "Administrator") "admin" false None.

Definition ashaUser : SessionUser :=
  mkUser "S001" (Some "Asha") "student" false None.

Definition raviUser : SessionUser :=
  mkUser "S002" (Some "Ravi") "student" false None.

Definition ashaPhoto : string :=
  "https://res.cloudinary.com/demo/image/upload/student_photos/S001.jpg".

Definition googleLogo : string :=
  "https://res.cloudinary.com/demo/image/upload/company_logos/google.png".

(** S001 has a photo, S002 has none. *)
Definition asha : Student.t :=
  Student.mk 1 (Some 1%Z) "S001" (Some "Asha") (Some "") (Some 0%Z)
             (Some ashaPhoto) (Some "") "$2a$10$Welcome@123" false verified.

Definition ravi : Student.t :=
  Student.mk 2 (Some 2%Z) "S002" (Some "Ravi") (Some "") (Some 0%Z)
             (Some "") (Some "") "$2a$10$Welcome@123" false verified.

(** A verified placement of S001, a pending one, and a pending placement
    whose [studentId] names no Student record. *)
Definition ashaGoogle : Placement.t :=
  Placement.mk 10 "S001" (Some "Asha") (Some "Google Pvt Ltd") (Some 12%Z)
               (Some ashaPhoto) (Some "") false verified.

Definition ashaInfosys : Placement.t :=
  Placement.mk 11 "S001" (Some "Asha") (Some "Infosys") (Some 7%Z)
               (Some ashaPhoto) (Some "") false pending.

Definition orphanPlacement : Placement.t :=
  Placement.mk 12 "S404" (Some "Nobody") (Some "Wipro") (Some 5%Z)
               None None false pending.

Definition google : Company.t := Company.mk 20 "Google" (Some googleLogo).

Definition welcomeNote : Notification.t :=
  Notification.mk 30 "S001" "Welcome" "Your account is ready" "info" false.

Definition sampleWorld : World :=
  mkWorld [asha; ravi] [ashaGoogle; ashaInfosys; orphanPlacement] [google]
          [welcomeNote] [] [] 100.

Definition request (m : Method) (p : list string) (u : option SessionUser)
    (fields : list (string * jsval Z)) : Request :=
  mkRequest m p u (bodyOf fields) None "10.0.0.1" "1700000000000-1".

(** The admin approves or rejects by [_id]. *)
Definition verifyRequest (type id action : jsval Z) : Request :=
  request POST ["api"; "admin"; "verify"] (Some adminUser)
    [("type", type); ("id", id); ("action", action)].

(** What the student client sends from its edit form. *)
Definition editRequest : Request :=
  request PUT ["api"; "placements"; "10"] (Some ashaUser)
    [("company", JStr "Google"); ("salary", JNum 14%Z); ("logo", JStr googleLogo)].

Definition submitRequest (u : SessionUser) : Request :=
  request POST ["api"; "placements"] (Some u)
    [("company", JStr "TCS"); ("salary", JNum 4%Z)].

Definition readRequest (id : jsval Z) : Request :=
  request POST ["api"; "notifications"; "read"] (Some ashaUser) [("id", id)].

Definition uploadRequest (u : SessionUser) : Request :=
  mkRequest POST ["api"; "upload-photo"] (Some u) (bodyOf []) (Some "JPEG")
            "10.0.0.1" "1700000000000-1".



(** What follows the upload of S002: a submission, a restart, the approval
    of a placement and the approval of the record of S001. *)
Definition afterUpload : list event :=
  [ Served_request (submitRequest raviUser);
    Startup;
    Served_request (verifyRequest (JStr "placement") (JStr "11") (JStr "approve"));
    Served_request (verifyRequest (JStr "original") (JStr "1") (JStr "approve")) ].

End Samples.

(** * Further parts of the code *)

(** ** Canonical keys *)

(** The letters and digits of a name, in lower case: what is left of it
    before the suffix pattern is applied. *)
Definition lettersAndDigits (name : string) : string :=
  JS.removeAll (fun c => negb (JS.isAlnumI c)) (JS.toLowerCase name).

(** ** The dashboard's logo lookup (dashboard.component.ts)

    [normalize] inside [getCompanyLogo]: the same chain as the server's
    normalizer, with [/[^a-z0-9]/g] and the suffix pattern without the [i]
    flag. *)
Definition dashboardNormalize (name : string) : string :=
  JS.trim
    (JS.removeAtEnd suffixTokens
       (JS.removeAll (fun c => negb (JS.isLowerAlnum c))
          (JS.removeAll JS.isSpace (JS.toLowerCase name)))).

(** [getCompanyLogo(companyName)] over the companies fetched from the
    server: the first company with the same key, else the first company
    whose key contains the searched key or is contained in it; its logo is
    returned when it is a Cloudinary address. *)
Definition getCompanyLogo (companies : list Company.t) (companyName : string)
  : option string :=
  if String.eqb companyName "" then None
  else
    let normalizedSearch := dashboardNormalize companyName in
    let company :=
      match List.find
              (fun c => String.eqb (dashboardNormalize (Company.name c)) normalizedSearch)
              companies with
      | Some c => Some c
      | None =>
          List.find
            (fun c =>
               let normalizedCompany := dashboardNormalize (Company.name c) in
               JS.includes normalizedCompany normalizedSearch
               || JS.includes normalizedSearch normalizedCompany)
            companies
      end in
    match company with
    | Some c =>
        match Company.logo c with
        | Some l =>
            if negb (String.eqb l "") && JS.includes l "cloudinary.com"
            then Some l else None
        | None => None
        end
    | None => None
    end.

(** [getStudentPhoto] of the dashboard and [getPhotoUrl] of the student
    page: a stored address is used as it is, a stored file name is served by
    the API. *)
Definition getPhotoUrl (photo : option string) : string :=
  match photo with
  | None => ""
  | Some "" => ""
  | Some p =>
      if JS.startsWith p "http" then p
      else "https://sb-cse-gnitc-api.onrender.com/api/photo/" ++ p
  end.

(** ** The notification feed (GET /api/notifications) *)

(** [req.session.user.role === 'admin' ? 'admin' : req.session.user.id] *)
Definition recipientOf (u : SessionUser) : string :=
  if String.eqb (userRole u) "admin" then "admin" else userId u.

Section Feed.
Context `{Platform}.

(** [Notification.countDocuments({ recipient, read: false })] *)
Definition unreadCount (recipient : string) (w : World) : nat :=
  List.length
    (List.filter
       (fun n => String.eqb (Notification.recipient n) recipient
                 && negb (Notification.read n))
       (notifications w)).

(** The filter of POST /api/admin/send-pending-reminders. *)
Definition awaitingVerification (p : Placement.t) : bool :=
  bool_decide (Placement.verificationStatus p = pending)
  && negb (Placement.isOriginal p).

(** The mail of POST /api/admin/send-pending-reminders for a placement and
    its owner. *)
Definition reminderMail (s : Student.t) (p : Placement.t) : Email :=
  mkEmail (Some (JS.toLowerCase (Student.id s) ++ "@gniindia.org"))
    "⏳ Reminder: Your Placement is Pending Verification"
    (ReminderHtml (optStr (Student.name s)) (optStr (Placement.company p))
       (optNum (Placement.salary p))).

(** The mail of DELETE /api/students/:id. *)
Definition deletionMail (id : string) : Email :=
  mkEmail (Some (JS.toLowerCase id ++ "@gniindia.org"))
    "Account Deleted - GNITC Special Batch" (DeletionNoticeHtml id).

(** The record saved by POST /api/students/create for the id [sid] and
    the name [nm]. *)
Definition createdStudent (w : World) (sid : string) (nm : option string) : Student.t :=
  Student.mk (nextId w) (Some (fromNat (List.length (students w) + 1)))
    (JS.toUpperCase sid) nm (Some "") (Some zero) (Some "") (Some "")
    (bcryptHash "Welcome@123") false verified.

(** The welcome mail and the activity-log entry of POST
    /api/students/create. *)
Definition welcomeMail (sid name : string) : Email :=
  mkEmail (Some (JS.toLowerCase sid ++ "@gniindia.org"))
    "🌟 Exclusive Access: GNITC Special Batch Portal" (WelcomeHtml name sid).

Definition createdEntry (req : Request) (sid name : string) : ActivityLog.t :=
  logEntry req "CREATE_STUDENT" ("Created student: " ++ sid ++ " (" ++ name ++ ")").

End Feed.

(** ** What a run of the server keeps

    Relations between the state before and the state after some events. *)

Section Evolution.
Context `{Platform}.

(** Every state reached by the computation is related to the one it
    started from. *)
Definition respects (R : World -> World -> Prop) {A} (m : M A) : Prop :=
  forall w, R w (snd (m w)).

(** The same notification, possibly marked as read since. *)
Definition readLater (n n' : Notification.t) : Prop :=
  n' = n \/ n' = Notification_withRead true n.

(** The activity log and the mails handed to the mailer are extended at
    the end; the notifications are kept in place, at most marked as read,
    and new ones are added at the end. *)
Definition grows (w w' : World) : Prop :=
  (exists l, activityLogs w' = (activityLogs w ++ l)%list)
  /\ (exists l, outbox w' = (outbox w ++ l)%list)
  /\ (exists old new, notifications w' = (old ++ new)%list
                      /\ Forall2 readLater (notifications w) old).

(** An event that is not a request of a session with the admin role. *)
Definition notByAdmin (e : event) : bool :=
  match e with
  | Served_request req => negb (hasRole req "admin")
  | Startup => true
  end.

(** The same Student record, with the status it had or [pending]. *)
Definition sameOrPending (s s' : Student.t) : Prop :=
  Student._id s' = Student._id s
  /\ Student.id s' = Student.id s
  /\ (Student.verificationStatus s' = Student.verificationStatus s
      \/ Student.verificationStatus s' = pending).

(** No Student record is added or removed and none changes its status
    other than to [pending]; every Placement is one that was there,
    unchanged, or is pending. *)
Definition statusKept (w w' : World) : Prop :=
  Forall2 sameOrPending (students w) (students w')
  /\ (forall p, In p (placements w') ->
        In p (placements w) \/ Placement.verificationStatus p = pending).

(** No two Student records have the same id up to case. *)
Definition uniqueIds (w : World) : Prop :=
  NoDup (map (fun s => JS.toLowerCase (Student.id s)) (students w)).

Definition keepsUnique (w w' : World) : Prop := uniqueIds w -> uniqueIds w'.

(** The request reaches the handler of POST /api/students/create: it
    matches the route and its session has the admin role. *)
Definition isCreation (req : Request) : bool :=
  methodMatches POST (method req)
  && bool_decide (is_Some (matchPath [Lit "api"; Lit "students"; Lit "create"] (path req)))
  && hasRole req "admin".

(** An event that is not the creation of a student under an id that holds
    other characters than letters and digits (such an id is read as a
    pattern by the test for an existing record). *)
Definition createsPlainId (e : event) : bool :=
  match e with
  | Served_request req => implb (isCreation req) (plainId (toStr (body req "id")))
  | Startup => true
  end.

(** The same Student record up to [name], [company] and [salary]. *)
Definition sameButDetails (s s' : Student.t) : Prop :=
  Student_withDetails (Student.name s) (Student.company s) (Student.salary s) s' = s.

(** The Placements are as they were and so are the Student records, up
    to their names, companies and salaries. *)
Definition detailsOnly (w w' : World) : Prop :=
  placements w' = placements w
  /\ Forall2 sameButDetails (students w) (students w').

End Evolution.

(** ** The admin dashboard's table (placement.service.ts)

    The rows sent by GET /api/placements ([interface Student]) are grouped
    by student. *)

Module ClientRow.
Record t `{Platform} : Type := mk {
  _id : string;
  studentId : string;
  name : option string;
  company : option string;
  salary : number;
  photo : option string;
  logo : option string;
  isOriginal : bool;
  verificationStatus : status
}.
Arguments mk {_}.
End ClientRow.

(** An element of [GroupedStudent.placements]. *)
Module GroupedPlacement.
Record t `{Platform} : Type := mk {
  _id : string;
  company : string;
  salary : number;
  status : status;
  isOriginal : bool;
  logo : option string
}.
Arguments mk {_}.
End GroupedPlacement.

Module GroupedStudent.
Record t `{Platform} : Type := mk {
  studentId : string;
  name : option string;
  photo : option string;
  placements : list GroupedPlacement.t;
  companies : list string;
  maxPackage : number;
  hasPending : bool
}.
Arguments mk {_}.
End GroupedStudent.

Section PlacementService.
Context `{Platform}.

(** [a > b] on the numbers of the runtime. *)
Variable gt : number -> number -> bool.

(** The group created for an id that the map does not hold yet. *)
Definition newGroup (id : string) (p : ClientRow.t) : GroupedStudent.t :=
  GroupedStudent.mk id (ClientRow.name p) (ClientRow.photo p) [] [] zero false.

(** The object pushed to [group.placements] for a row with the company [c]. *)
Definition groupedPlacement (c : string) (p : ClientRow.t) : GroupedPlacement.t :=
  GroupedPlacement.mk (ClientRow._id p) c (ClientRow.salary p)
    (ClientRow.verificationStatus p) (ClientRow.isOriginal p) (ClientRow.logo p).

(** The body of the [forEach] after [groups.get(id)]: the photo is taken
    when the group has none, and a row with a company is added to the
    placements, the companies, the highest package and the pending flag. *)
Definition addRow (p : ClientRow.t) (group : GroupedStudent.t) : GroupedStudent.t :=
  let photo :=
    if negb (JS.truthy (GroupedStudent.photo group)) && JS.truthy (ClientRow.photo p)
    then ClientRow.photo p else GroupedStudent.photo group in
  if JS.truthy (ClientRow.company p) then
    let c := optStr (ClientRow.company p) in
    GroupedStudent.mk (GroupedStudent.studentId group) (GroupedStudent.name group) photo
      (GroupedStudent.placements group ++ [groupedPlacement c p])%list
      (if existsb (String.eqb c) (GroupedStudent.companies group)
       then GroupedStudent.companies group
       else (GroupedStudent.companies group ++ [c])%list)
      (if gt (ClientRow.salary p) (GroupedStudent.maxPackage group)
       then ClientRow.salary p else GroupedStudent.maxPackage group)
      (if decide (ClientRow.verificationStatus p = pending)
       then true else GroupedStudent.hasPending group)
  else
    GroupedStudent.mk (GroupedStudent.studentId group) (GroupedStudent.name group) photo
      (GroupedStudent.placements group) (GroupedStudent.companies group)
      (GroupedStudent.maxPackage group) (GroupedStudent.hasPending group).

(** The [Map] of [groupPlacements], in insertion order. *)
Definition Groups : Type := list (string * GroupedStudent.t).

Definition hasKey (id : string) (kv : string * GroupedStudent.t) : bool :=
  String.eqb (fst kv) id.

(** One turn of the [forEach]. *)
Definition groupRow (groups : Groups) (p : ClientRow.t) : Groups :=
  let id := JS.toUpperCase (ClientRow.studentId p) in
  let groups :=
    if existsb (hasKey id) groups then groups
    else (groups ++ [(id, newGroup id p)])%list in
  snd (updateFirst (hasKey id) (fun kv => (fst kv, addRow p (snd kv))) groups).

(** [groupPlacements(placements)]: the value set to [groupedStudents]. *)
Definition groupPlacements (placements : list ClientRow.t) : list GroupedStudent.t :=
  map snd (fold_left groupRow placements []).

(** [getVerifiedCount()] of the dashboard, over [allStudents()]. *)
Definition getVerifiedCount (allStudents : list GroupedStudent.t) : nat :=
  List.length (List.filter (fun s => negb (GroupedStudent.hasPending s)) allStudents).

(** The rows that [groupPlacements] adds to the placements of the group
    [id]: those of that student, up to case, that have a company. *)
Definition counted (id : string) (p : ClientRow.t) : bool :=
  String.eqb (JS.toUpperCase (ClientRow.studentId p)) id
  && JS.truthy (ClientRow.company p).

Definition isPending (p : ClientRow.t) : bool :=
  bool_decide (ClientRow.verificationStatus p = pending).

End PlacementService.

(** ** More sample data *)

(** A platform whose hashes have the length of bcrypt's: [padTo 53]
    stands for the salt and the digest. *)
Fixpoint padTo (n : nat) (s : string) : string :=
  match n with
  | 0 => ""
  | S n' =>
      match s with
      | EmptyString => String "." (padTo n' "")
      | String c r => String c (padTo n' r)
      end
  end.

Definition bcryptLikePlatform : Platform := {|
  number := Z;
  numberToString := fun _ => "0";
  numberTruthy := fun n => negb (Z.eqb n 0);
  zero := 0%Z;
  fromNat := Z.of_nat;
  parseFloat := sampleParseFloat;
  castObjectId := sampleCastObjectId;
  castString := sampleCastString;
  castNumber := fun n => Some n;
  regExp := sampleRegExp;
  bcryptHash := fun s => "$2a$10$" ++ padTo 53 s;
  bcryptCompare := fun v h => match v with
                              | JStr s => Some (String.eqb ("$2a$10$" ++ padTo 53 s) h)
                              | _ => None
                              end;
  uploadToCloudinary := fun _ folder publicId =>
    Some ("https://res.cloudinary.com/demo/image/upload/" ++ folder ++ "/" ++ publicId);
  gmailSend := fun _ => false;
  staticFile := fun _ _ => false;
  EMAIL_USER := Some "gni.hrnotify@gmail.com";
  ADMIN_PASSWORD := None
|}.

Section LegacySamples.
#[local] Existing Instance bcryptLikePlatform.

(** A record imported with its password in clear and without a photo. *)
Definition legacyStudent : Student.t :=
  Student.mk 3 (Some 3%Z) "S003" (Some "Meera") (Some "Wipro") (Some 5%Z)
             None None "Welcome@123" false verified.

Definition legacyWorld : World :=
  mkWorld [legacyStudent] [] [] [] [] [] 100.

End LegacySamples.

Section MoreSamples.
#[local] Existing Instance samplePlatform.

Definition loginRequest (name pw : string) : Request :=
  request POST ["api"; "login"] None [("username", JStr name); ("password", JStr pw)].

Definition changePasswordRequest (u : SessionUser) (pw : string) : Request :=
  request POST ["api"; "change-password"] (Some u) [("newPassword", JStr pw)].

Definition deleteStudentRequest (id : string) : Request :=
  request DELETE ["api"; "students"; id] (Some adminUser) [].

Definition remindersRequest : Request :=
  request POST ["api"; "admin"; "send-pending-reminders"] (Some adminUser) [].

Definition createStudentRequest (id name : string) : Request :=
  request POST ["api"; "students"; "create"] (Some adminUser)
    [("id", JStr id); ("name", JStr name)].

(** What students and anonymous callers may send, with a restart. *)
Definition studentEvents : list event :=
  [ Served_request (submitRequest ashaUser);
    Served_request (uploadRequest raviUser);
    Startup;
    Served_request (changePasswordRequest ashaUser "s3cret!!");
    Served_request (request POST ["api"; "admin"; "verify"] (Some ashaUser)
                      [("type", JStr "placement"); ("id", JStr "11");
                       ("action", JStr "approve")]);
    Served_request (loginRequest "s001" "s3cret!!") ].

(** An admin creates S003 twice, in two cases, then the server restarts. *)
Definition adminEvents : list event :=
  [ Served_request (createStudentRequest "s003" "Meera");
    Served_request (createStudentRequest "S003" "Meera");
    Startup;
    Served_request (deleteStudentRequest "s002") ].

(** Rows of GET /api/placements: two of S001, written in two cases, and
    the original record of S002, which has no company. *)
Definition tableRows : list ClientRow.t :=
  [ ClientRow.mk "10" "S001" (Some "Asha") (Some "Google Pvt Ltd") 12%Z
                 (Some ashaPhoto) None false verified;
    ClientRow.mk "2" "S002" (Some "Ravi") (Some "") 0%Z None None true verified;
    ClientRow.mk "11" "s001" (Some "Asha") (Some "Infosys") 7%Z
                 (Some ashaPhoto) None false pending ].

Definition ashaGroup : GroupedStudent.t :=
  GroupedStudent.mk "S001" (Some "Asha") (Some ashaPhoto)
    [ GroupedPlacement.mk "10" "Google Pvt Ltd" 12%Z verified false None;
      GroupedPlacement.mk "11" "Infosys" 7%Z pending false None ]
    ["Google Pvt Ltd"; "Infosys"] 12%Z true.

(** Rows none of which is pending: a rejected placement and a verified one. *)
Definition settledRows : list ClientRow.t :=
  [ ClientRow.mk "12" "S001" (Some "Asha") (Some "Wipro") 5%Z
                 (Some ashaPhoto) None false rejected;
    ClientRow.mk "13" "S002" (Some "Ravi") (Some "TCS") 4%Z None None false verified ].

End MoreSamples.

(** * Properties *)

Section Properties.
Context `{Platform}.

(** ** Running the helpers *)

Lemma bind_run {A B} (m : M A) (k : A -> M B) w :
  bind m k w = match m w with
               | (inr a, w') => k a w'
               | (inl e, w') => (inl e, w')
               end.
Proof. reflexivity. Qed.

Lemma createNotification_run recipient title message type w :
  createNotification recipient title message type w =
  (inr tt,
   mkWorld (students w) (placements w) (companies w)
     (notifications w ++ [Notification.mk (nextId w) recipient title message type false])%list
     (activityLogs w) (outbox w) (S (nextId w))).
Proof. reflexivity. Qed.

(** ** Lists updated in place *)

Lemma updateFirst_None {A} (p : A -> bool) (f : A -> A) l :
  List.find p l = None -> updateFirst p f l = (None, l).
Proof.
  induction l as [|x r IH]; simpl; [reflexivity|].
  destruct (p x); [discriminate|]. intros Hr. rewrite (IH Hr). reflexivity.
Qed.


Lemma find_updated {A} (p : A -> bool) (f : A -> A) l x :
  List.find p l = Some x -> p (f x) = true ->
  List.find p (snd (updateFirst p f l)) = Some (f x).
Proof.
  revert x. induction l as [|y r IH]; simpl; [discriminate|].
  intros x. destruct (p y) eqn:Hy.
  - intros [= ->] Hfx. simpl. rewrite Hfx. reflexivity.
  - intros Hr Hfx. specialize (IH _ Hr Hfx).
    destruct (updateFirst p f r) as [o r']. simpl in *. rewrite Hy. exact IH.
Qed.

Lemma updateFirst_fst {A} (p : A -> bool) (f : A -> A) l :
  fst (updateFirst p f l) = List.find p l.
Proof.
  induction l as [|y r IH]; simpl; [reflexivity|].
  destruct (p y); [reflexivity|].
  destruct (updateFirst p f r). simpl in *. exact IH.
Qed.

(** ** POST /api/admin/verify, case by case *)

Lemma Placement_findByIdAndUpdate_run id oid f w :
  castObjectId id = Some oid ->
  Placement_findByIdAndUpdate id f w =
  (inr (List.find (Placement_byId oid) (placements w)),
   setPlacements (fun _ => snd (updateFirst (Placement_byId oid) f (placements w))) w).
Proof.
  intros Hc. unfold Placement_findByIdAndUpdate, bind, orThrow. rewrite Hc. simpl.
  rewrite <- (updateFirst_fst _ f).
  destruct (updateFirst _ f (placements w)). reflexivity.
Qed.

Lemma Student_findByIdAndUpdate_run id oid f w :
  castObjectId id = Some oid ->
  Student_findByIdAndUpdate id f w =
  (inr (List.find (Student_byId oid) (students w)),
   setStudents (fun _ => snd (updateFirst (Student_byId oid) f (students w))) w).
Proof.
  intros Hc. unfold Student_findByIdAndUpdate, Student_findOneAndUpdate, bind, orThrow.
  rewrite Hc. simpl. rewrite <- (updateFirst_fst _ f).
  destruct (updateFirst _ f (students w)). reflexivity.
Qed.

Lemma verify_placement_found req w oid p :
  hasRole req "admin" = true ->
  body req "type" = JStr "placement" ->
  castObjectId (body req "id") = Some oid ->
  List.find (Placement_byId oid) (placements w) = Some p ->
  let st := verifyStatus (body req "action") in
  let placements' := snd (updateFirst (Placement_byId oid) (Placement_withStatus st) (placements w)) in
  postAdminVerify req w =
  match List.find (Student_idIs (Placement.studentId p)) (students w) with
  | Some s =>
      let title := if decide (st = verified) then "✅ Official Record: VERIFIED"
                   else "⚠️ Record Needs Revision" in
      let e := mkEmail (Some (JS.toLowerCase (Student.id s) ++ "@gniindia.org")) title
                 (if decide (st = verified)
                  then VerifiedHtml (optStr (Student.name s)) (optStr (Placement.company p))
                         (optNum (Placement.salary p))
                  else RevisionHtml (optStr (Student.name s)) (optStr (Placement.company p))) in
      (inr (session req, Json 200 Success),
       mkWorld (students w) placements' (companies w)
         (notifications w ++
            [Notification.mk (nextId w) (Student.id s) title
               (if decide (st = verified)
                then "Great news! Your placement at " ++ optStr (Placement.company p)
                     ++ " has been verified and officially recorded."
                else "Your placement at " ++ optStr (Placement.company p)
                     ++ " was not approved. Please check details and resubmit.")
               (if decide (st = verified) then "success" else "warning") false])%list
         (activityLogs w ++ [verifyEntry req])%list
         (outbox w ++ [(e, gmailSend e)])%list (S (nextId w)))
  | None =>
      (inr (session req, Json 200 Success),
       mkWorld (students w) placements' (companies w) (notifications w)
         (activityLogs w ++ [verifyEntry req])%list (outbox w) (nextId w))
  end.
Proof.
  intros Hadmin Htype Hcast Hp st placements'.
  unfold postAdminVerify, requireAdmin. rewrite Hadmin.
  unfold catch500, tryCatch. rewrite !bind_run. rewrite Htype.
  cbn [isStr String.eqb Ascii.eqb Bool.eqb].
  rewrite bind_run, (Placement_findByIdAndUpdate_run _ oid _ _ Hcast), Hp.
  rewrite bind_run. unfold Student_findOne. cbn [students setPlacements].
  unfold verifyEntry. rewrite Htype.
  destruct (List.find _ (students w)); reflexivity.
Qed.

Lemma verify_placement_missing req w oid :
  hasRole req "admin" = true ->
  body req "type" = JStr "placement" ->
  castObjectId (body req "id") = Some oid ->
  List.find (Placement_byId oid) (placements w) = None ->
  postAdminVerify req w =
  (inr (session req, Json 200 Success), setActivityLogs (fun l => (l ++ [verifyEntry req])%list) w).
Proof.
  intros Hadmin Htype Hcast Hp.
  unfold postAdminVerify, requireAdmin. rewrite Hadmin.
  unfold catch500, tryCatch. rewrite !bind_run. rewrite Htype.
  cbn [isStr String.eqb Ascii.eqb Bool.eqb].
  rewrite bind_run, (Placement_findByIdAndUpdate_run _ oid _ _ Hcast), Hp.
  rewrite (updateFirst_None _ _ _ Hp). unfold verifyEntry. rewrite Htype.
  destruct w; reflexivity.
Qed.

Lemma verify_original_found req w oid s :
  hasRole req "admin" = true ->
  body req "type" = JStr "original" ->
  castObjectId (body req "id") = Some oid ->
  List.find (Student_byId oid) (students w) = Some s ->
  let st := verifyStatus (body req "action") in
  postAdminVerify req w =
  (inr (session req, Json 200 Success),
   mkWorld (snd (updateFirst (Student_byId oid) (Student_withStatus st) (students w)))
     (placements w) (companies w)
     (notifications w ++
        [Notification.mk (nextId w) (Student.id s) "Profile Status Update"
           ("Your profile verification status is now: " ++ JS.toUpperCase (statusString st))
           "info" false])%list
     (activityLogs w ++ [verifyEntry req])%list (outbox w) (S (nextId w))).
Proof.
  intros Hadmin Htype Hcast Hs st.
  unfold postAdminVerify, requireAdmin. rewrite Hadmin.
  unfold catch500, tryCatch. rewrite !bind_run. rewrite Htype.
  cbn [isStr String.eqb Ascii.eqb Bool.eqb].
  rewrite bind_run, (Student_findByIdAndUpdate_run _ oid _ _ Hcast), Hs.
  unfold verifyEntry. rewrite Htype. reflexivity.
Qed.

Lemma verify_original_missing req w oid :
  hasRole req "admin" = true ->
  body req "type" = JStr "original" ->
  castObjectId (body req "id") = Some oid ->
  List.find (Student_byId oid) (students w) = None ->
  postAdminVerify req w =
  (inr (session req, Json 200 Success), setActivityLogs (fun l => (l ++ [verifyEntry req])%list) w).
Proof.
  intros Hadmin Htype Hcast Hs.
  unfold postAdminVerify, requireAdmin. rewrite Hadmin.
  unfold catch500, tryCatch. rewrite !bind_run. rewrite Htype.
  cbn [isStr String.eqb Ascii.eqb Bool.eqb].
  rewrite bind_run, (Student_findByIdAndUpdate_run _ oid _ _ Hcast), Hs.
  rewrite (updateFirst_None _ _ _ Hs). unfold verifyEntry. rewrite Htype.
  destruct w; reflexivity.
Qed.

Lemma verify_malformed_id req w :
  hasRole req "admin" = true ->
  body req "type" = JStr "placement" \/ body req "type" = JStr "original" ->
  castObjectId (body req "id") = None ->
  postAdminVerify req w = (inr (session req, Json 500 (ErrorOf CastError)), w).
Proof.
  intros Hadmin Htype Hcast.
  unfold postAdminVerify, requireAdmin. rewrite Hadmin.
  unfold catch500, tryCatch. rewrite !bind_run.
  destruct Htype as [Htype|Htype]; rewrite Htype;
    cbn [isStr String.eqb Ascii.eqb Bool.eqb]; rewrite bind_run.
  - unfold Placement_findByIdAndUpdate. rewrite bind_run, Hcast. reflexivity.
  - unfold Student_findByIdAndUpdate. rewrite bind_run, Hcast. reflexivity.
Qed.


(** ** Walking the stack of layers *)

Lemma dispatch_skip_method m pat h rest req :
  methodMatches m (method req) = false ->
  dispatch (Route m pat h :: rest) req = dispatch rest req.
Proof. intros Hm. simpl. rewrite Hm. reflexivity. Qed.

Lemma dispatch_skip_path m pat h rest req :
  matchPath pat (path req) = None ->
  dispatch (Route m pat h :: rest) req = dispatch rest req.
Proof. intros Hp. simpl. rewrite Hp. destruct (methodMatches _ _); reflexivity. Qed.

Lemma dispatch_hit m pat h rest req ps :
  methodMatches m (method req) = true ->
  matchPath pat (path req) = Some ps ->
  dispatch (Route m pat h :: rest) req = Some (h ps req).
Proof. intros Hm Hp. simpl. rewrite Hm, Hp. reflexivity. Qed.

Lemma dispatch_skip_static mount rest req :
  match path req with
  | x :: _ => String.eqb (JS.toLowerCase x) mount
  | [] => false
  end = false ->
  dispatch (Static mount :: rest) req = dispatch rest req.
Proof.
  intros Hp. simpl. destruct (path req) as [|x sub]; [reflexivity|].
  rewrite Hp. rewrite andb_false_r. reflexivity.
Qed.

Ltac skip_layer Hm Hp :=
  first
    [ rewrite dispatch_skip_method by (rewrite Hm; reflexivity)
    | rewrite dispatch_skip_path by (rewrite Hp; reflexivity)
    | rewrite dispatch_skip_static by (rewrite Hp; reflexivity) ].

Ltac route_to Hm Hp :=
  unfold serve; rewrite Hm; cbn [bool_decide decide_rel];
  unfold layers; repeat skip_layer Hm Hp;
  rewrite (dispatch_hit _ _ _ _ _ []) by (rewrite ?Hm, ?Hp; reflexivity);
  reflexivity.

(** The routes of the handlers studied below. *)
Lemma serve_verify req :
  method req = POST -> path req = ["api"; "admin"; "verify"] ->
  serve req = postAdminVerify req.
Proof. intros Hm Hp. route_to Hm Hp. Qed.

Lemma serve_submit req :
  method req = POST -> path req = ["api"; "placements"] ->
  serve req = postPlacements req.
Proof. intros Hm Hp. route_to Hm Hp. Qed.

Lemma serve_upload req :
  method req = POST -> path req = ["api"; "upload-photo"] ->
  serve req = postUploadPhoto req.
Proof. intros Hm Hp. route_to Hm Hp. Qed.

Lemma serve_read req :
  method req = POST -> path req = ["api"; "notifications"; "read"] ->
  serve req = postNotificationsRead req.
Proof. intros Hm Hp. route_to Hm Hp. Qed.

Lemma serve_put_placement req id :
  method req = PUT -> path req = ["api"; "placements"; id] ->
  serve req = notFound req.
Proof.
  intros Hm Hp. unfold serve. rewrite Hm. cbn [bool_decide decide_rel].
  unfold layers. repeat skip_layer Hm Hp. reflexivity.
Qed.

Lemma isStr_true (v : value) s : isStr v s = true -> v = JStr s.
Proof.
  destruct v; simpl; try discriminate.
  intros E. apply String.eqb_eq in E. congruence.
Qed.

Lemma verify_other_type req w :
  hasRole req "admin" = true ->
  isStr (body req "type") "placement" = false ->
  isStr (body req "type") "original" = false ->
  postAdminVerify req w =
  (inr (session req, Json 200 Success),
   setActivityLogs (fun l => (l ++ [verifyEntry req])%list) w).
Proof.
  intros Hadmin Hp Ho. unfold postAdminVerify, requireAdmin. rewrite Hadmin.
  unfold catch500, tryCatch. rewrite !bind_run, Hp, Ho. reflexivity.
Qed.

Lemma byId_withStatus_placement oid st p :
  Placement_byId oid (Placement_withStatus st p) = Placement_byId oid p.
Proof. reflexivity. Qed.

Lemma byId_withStatus_student oid st s :
  Student_byId oid (Student_withStatus st s) = Student_byId oid s.
Proof. reflexivity. Qed.

Lemma find_true {A} (p : A -> bool) l x : List.find p l = Some x -> p x = true.
Proof. intros Hf. apply List.find_some in Hf. tauto. Qed.

Lemma verify_response req w oid :
  hasRole req "admin" = true ->
  castObjectId (body req "id") = Some oid ->
  fst (postAdminVerify req w) = inr (session req, Json 200 Success).
Proof.
  intros Hadmin Hcast.
  destruct (isStr (body req "type") "placement") eqn:Ep.
  - apply isStr_true in Ep.
    destruct (List.find (Placement_byId oid) (placements w)) as [p|] eqn:Ef.
    + rewrite (verify_placement_found req w oid p Hadmin Ep Hcast Ef).
      destruct (List.find _ (students w)); reflexivity.
    + rewrite (verify_placement_missing req w oid Hadmin Ep Hcast Ef). reflexivity.
  - destruct (isStr (body req "type") "original") eqn:Eo.
    + apply isStr_true in Eo.
      destruct (List.find (Student_byId oid) (students w)) as [s|] eqn:Ef.
      * rewrite (verify_original_found req w oid s Hadmin Eo Hcast Ef). reflexivity.
      * rewrite (verify_original_missing req w oid Hadmin Eo Hcast Ef). reflexivity.
    + rewrite (verify_other_type req w Hadmin Ep Eo). reflexivity.
Qed.

Lemma verify_placement_status req w oid p :
  hasRole req "admin" = true ->
  body req "type" = JStr "placement" ->
  castObjectId (body req "id") = Some oid ->
  List.find (Placement_byId oid) (placements w) = Some p ->
  List.find (Placement_byId oid) (placements (snd (postAdminVerify req w)))
  = Some (Placement_withStatus (verifyStatus (body req "action")) p).
Proof.
  intros Hadmin Htype Hcast Hf.
  rewrite (verify_placement_found req w oid p Hadmin Htype Hcast Hf).
  assert (Hupd := find_updated (Placement_byId oid)
                    (Placement_withStatus (verifyStatus (body req "action")))
                    (placements w) p Hf (find_true _ _ _ Hf)).
  destruct (List.find _ (students w)); exact Hupd.
Qed.

Lemma verify_original_status req w oid s :
  hasRole req "admin" = true ->
  body req "type" = JStr "original" ->
  castObjectId (body req "id") = Some oid ->
  List.find (Student_byId oid) (students w) = Some s ->
  List.find (Student_byId oid) (students (snd (postAdminVerify req w)))
  = Some (Student_withStatus (verifyStatus (body req "action")) s).
Proof.
  intros Hadmin Htype Hcast Hf.
  rewrite (verify_original_found req w oid s Hadmin Htype Hcast Hf).
  exact (find_updated (Student_byId oid)
           (Student_withStatus (verifyStatus (body req "action")))
           (students w) s Hf (find_true _ _ _ Hf)).
Qed.

Lemma verifyStatus_approve (action : value) :
  verifyStatus action = verified <-> action = JStr "approve".
Proof.
  unfold verifyStatus. split.
  - destruct (isStr action "approve") eqn:E; [|discriminate].
    intros _. exact (isStr_true _ _ E).
  - intros ->. reflexivity.
Qed.

Lemma verifyStatus_other (action : value) :
  action <> JStr "approve" -> verifyStatus action = rejected.
Proof.
  intros Hne. unfold verifyStatus.
  destruct (isStr action "approve") eqn:E; [|reflexivity].
  apply isStr_true in E. contradiction.
Qed.

(** ** The claims about the verification operation *)

(** C10.  In POST /api/admin/verify the target status is [verified]
    exactly when the [action] field is the string 'approve'; every other
    value of the field (another string, a number, null, a missing field)
    gives [rejected].  The record named by the request, a Placement or a
    Student, ends with that status in its [verificationStatus] field, its
    other fields as they were, and the handler answers
    [{ success: true }] whatever the action is: no branch rejects an
    action. *)
Theorem verify_action_decides_status (req : Request) (w : World) (oid : ObjectId) :
  hasRole req "admin" = true ->
  castObjectId (body req "id") = Some oid ->
  let action := body req "action" in
  let out := postAdminVerify req w in
  (verifyStatus action = verified <-> action = JStr "approve")
  /\ (action <> JStr "approve" -> verifyStatus action = rejected)
  /\ fst out = inr (session req, Json 200 Success)
  /\ (forall p, body req "type" = JStr "placement" ->
        List.find (Placement_byId oid) (placements w) = Some p ->
        exists p',
          List.find (Placement_byId oid) (placements (snd out)) = Some p'
          /\ Placement.verificationStatus p' = verifyStatus action
          /\ p' = Placement.mk (Placement._id p) (Placement.studentId p) (Placement.name p)
                    (Placement.company p) (Placement.salary p) (Placement.photo p)
                    (Placement.logo p) (Placement.isOriginal p) (verifyStatus action))
  /\ (forall s, body req "type" = JStr "original" ->
        List.find (Student_byId oid) (students w) = Some s ->
        exists s',
          List.find (Student_byId oid) (students (snd out)) = Some s'
          /\ Student.verificationStatus s' = verifyStatus action
          /\ s' = Student.mk (Student._id s) (Student.sno s) (Student.id s) (Student.name s)
                    (Student.company s) (Student.salary s) (Student.photo s)
                    (Student.logo s) (Student.password s) (Student.passwordChanged s)
                    (verifyStatus action)).
Proof.
  intros Hadmin Hcast action out. subst action out.
  split; [apply verifyStatus_approve|].
  split; [apply verifyStatus_other|].
  split; [exact (verify_response req w oid Hadmin Hcast)|].
  split.
  - intros p Htype Hf. eexists. split; [|split; [|reflexivity]].
    + exact (verify_placement_status req w oid p Hadmin Htype Hcast Hf).
    + reflexivity.
  - intros s Htype Hf. eexists. split; [|split; [|reflexivity]].
    + exact (verify_original_status req w oid s Hadmin Htype Hcast Hf).
    + reflexivity.
Qed.

(** C2, as amended.  When the [id] of a verification request names no
    record of the collection chosen by [type], no Student and no Placement
    is changed, no Notification is created and no mail is attempted.  If
    the identifier is well formed the handler writes its VERIFY entry to
    the activity log and answers [{ success: true }]; only an identifier
    that cannot be cast makes it answer with an error (status 500), and
    then nothing is written. *)
Theorem verify_unresolved_id (req : Request) (w : World) :
  hasRole req "admin" = true ->
  body req "type" = JStr "placement" \/ body req "type" = JStr "original" ->
  resolves req w = false ->
  let out := postAdminVerify req w in
  students (snd out) = students w
  /\ placements (snd out) = placements w
  /\ notifications (snd out) = notifications w
  /\ outbox (snd out) = outbox w
  /\ match castObjectId (body req "id") with
     | Some _ =>
         out = (inr (session req, Json 200 Success),
                setActivityLogs (fun l => (l ++ [verifyEntry req])%list) w)
     | None => out = (inr (session req, Json 500 (ErrorOf CastError)), w)
     end.
Proof.
  intros Hadmin Htype Hres out. subst out. unfold resolves in Hres.
  destruct (castObjectId (body req "id")) as [oid|] eqn:Hcast.
  - assert (Hout : postAdminVerify req w =
                   (inr (session req, Json 200 Success),
                    setActivityLogs (fun l => (l ++ [verifyEntry req])%list) w)).
    { destruct Htype as [Htype|Htype]; rewrite Htype in Hres; simpl in Hres.
      - apply verify_placement_missing with (oid := oid); try assumption.
        destruct (List.find _ (placements w)); [|reflexivity].
        apply bool_decide_eq_false in Hres. exfalso. apply Hres. eauto.
      - apply verify_original_missing with (oid := oid); try assumption.
        destruct (List.find _ (students w)); [|reflexivity].
        apply bool_decide_eq_false in Hres. exfalso. apply Hres. eauto. }
    rewrite Hout. repeat split.
  - rewrite (verify_malformed_id req w Hadmin Htype Hcast). repeat split.
Qed.

(** C3, as amended.  When an admin approves an existing pending
    Placement, its [verificationStatus] becomes [verified] (the record is
    otherwise as it was) and the handler answers
    [{ success: true }], whatever the Gmail call returns.  If a Student
    record carries the placement's [studentId], exactly one Notification is
    created, addressed to that student, of type 'success' and unread, and
    exactly one mail is attempted, to the student's address; if no Student
    record carries it, no Notification is created and no mail is attempted. *)
Theorem approve_pending_placement (req : Request) (w : World) (oid : ObjectId)
    (p : Placement.t) :
  hasRole req "admin" = true ->
  body req "type" = JStr "placement" ->
  body req "action" = JStr "approve" ->
  castObjectId (body req "id") = Some oid ->
  List.find (Placement_byId oid) (placements w) = Some p ->
  Placement.verificationStatus p = pending ->
  let out := postAdminVerify req w in
  fst out = inr (session req, Json 200 Success)
  /\ (exists p',
        List.find (Placement_byId oid) (placements (snd out)) = Some p'
        /\ Placement.verificationStatus p' = verified
        /\ p' = Placement.mk (Placement._id p) (Placement.studentId p) (Placement.name p)
                  (Placement.company p) (Placement.salary p) (Placement.photo p)
                  (Placement.logo p) (Placement.isOriginal p) verified)
  /\ match List.find (Student_idIs (Placement.studentId p)) (students w) with
     | Some s =>
         exists n e,
           notifications (snd out) = (notifications w ++ [n])%list
           /\ Notification.recipient n = Student.id s
           /\ Student.id s = Placement.studentId p
           /\ Notification.type n = "success"
           /\ Notification.read n = false
           /\ outbox (snd out) = (outbox w ++ [(e, gmailSend e)])%list
           /\ mailTo e = Some (JS.toLowerCase (Student.id s) ++ "@gniindia.org")
     | None =>
         notifications (snd out) = notifications w /\ outbox (snd out) = outbox w
     end.
Proof.
  intros Hadmin Htype Haction Hcast Hf Hpending out. subst out.
  split; [exact (verify_response req w oid Hadmin Hcast)|].
  split.
  { eexists. split; [|split; [|reflexivity]].
    - rewrite (verify_placement_status req w oid p Hadmin Htype Hcast Hf), Haction.
      reflexivity.
    - reflexivity. }
  rewrite (verify_placement_found req w oid p Hadmin Htype Hcast Hf), Haction.
  destruct (List.find _ (students w)) as [s|] eqn:Hs.
  - do 2 eexists. cbn [snd notifications outbox].
    split; [reflexivity|]. split; [reflexivity|].
    split; [apply find_true in Hs; apply String.eqb_eq in Hs; exact Hs|].
    split; [reflexivity|]. split; [reflexivity|]. split; reflexivity.
  - split; reflexivity.
Qed.

(** ** The notification dispatcher *)

(** C5, as amended.  Every call of the dispatcher persists one unread
    Notification with the given recipient, title, message and type, and
    returns normally.  The dispatcher computes the address (for 'admin'
    the configured one, otherwise the recipient in lower case at
    gniindia.org) and attempts no mail itself: the outbox is left as it
    was, and so are the Student and Placement collections. *)
Theorem createNotification_persists (recipient title message type : string) (w : World) :
  let out := createNotification recipient title message type w in
  fst out = inr tt
  /\ notifications (snd out)
     = (notifications w ++ [Notification.mk (nextId w) recipient title message type false])%list
  /\ outbox (snd out) = outbox w
  /\ students (snd out) = students w
  /\ placements (snd out) = placements w
  /\ notificationEmail "admin" = EMAIL_USER
  /\ (recipient <> "admin" ->
      notificationEmail recipient = Some (JS.toLowerCase recipient ++ "@gniindia.org")).
Proof.
  cbv zeta. rewrite createNotification_run. cbn [fst snd notifications outbox students placements].
  repeat split.
  intros Hne. unfold notificationEmail.
  destruct (String.eqb_spec recipient "admin"); [contradiction|reflexivity].
Qed.

(** ** Placement submission *)

Lemma idRegExp_plain pattern :
  plainId pattern = true -> idRegExp pattern = Some (idMatches pattern).
Proof. intros Hp. unfold idRegExp. rewrite Hp. reflexivity. Qed.





(** ** Marking notifications as read *)

Lemma updateFirst_twice {A} (p : A -> bool) (f : A -> A) l :
  (forall x, p (f x) = p x) -> (forall x, f (f x) = f x) ->
  snd (updateFirst p f (snd (updateFirst p f l))) = snd (updateFirst p f l).
Proof.
  intros Hp Hf. induction l as [|y r IH]; simpl; [reflexivity|].
  destruct (p y) eqn:Hy.
  - simpl. rewrite Hp, Hy. simpl. rewrite Hf. reflexivity.
  - destruct (updateFirst p f r) as [o r'] eqn:Hr. simpl in *. rewrite Hy.
    destruct (updateFirst p f r') as [o' r''] eqn:Hr'. simpl in *. rewrite IH.
    reflexivity.
Qed.

Lemma postNotificationsRead_one req w u oid :
  session req = Some u ->
  valueTruthy (body req "id") = true ->
  castObjectId (body req "id") = Some oid ->
  postNotificationsRead req w =
  (inr (session req, Json 200 Success),
   setNotifications
     (fun _ => snd (updateFirst (Notification_byId oid) (Notification_withRead true)
                      (notifications w))) w).
Proof.
  intros Hs Hid Hcast. unfold postNotificationsRead, catch500, tryCatch.
  rewrite Hs. cbv zeta. rewrite Hid. rewrite !bind_run.
  unfold Notification_findByIdAndUpdate. rewrite bind_run, Hcast. cbn [orThrow ret].
  destruct (updateFirst _ _ (notifications w)). unfold send. rewrite Hs. reflexivity.
Qed.

(** C9.  For a logged-in caller, two calls of POST /api/notifications/read
    with the same notification id both answer [{ success: true }]; the
    notification has [read = true] after the first call and after the
    second, and the second call changes nothing. *)
Theorem markAsRead_idempotent (req : Request) (w : World) (u : SessionUser)
    (oid : ObjectId) (n : Notification.t) :
  session req = Some u ->
  valueTruthy (body req "id") = true ->
  castObjectId (body req "id") = Some oid ->
  List.find (Notification_byId oid) (notifications w) = Some n ->
  let first := postNotificationsRead req w in
  let second := postNotificationsRead req (snd first) in
  fst first = inr (session req, Json 200 Success)
  /\ fst second = inr (session req, Json 200 Success)
  /\ List.find (Notification_byId oid) (notifications (snd first))
     = Some (Notification_withRead true n)
  /\ List.find (Notification_byId oid) (notifications (snd second))
     = Some (Notification_withRead true n)
  /\ Notification.read (Notification_withRead true n) = true
  /\ snd second = snd first.
Proof.
  intros Hs Hid Hcast Hn first second. subst second first.
  rewrite (postNotificationsRead_one req w u oid Hs Hid Hcast). cbn [fst snd].
  rewrite (postNotificationsRead_one req _ u oid Hs Hid Hcast). cbn [fst snd notifications setNotifications].
  rewrite updateFirst_twice by reflexivity.
  assert (Hfound := find_updated (Notification_byId oid) (Notification_withRead true)
                      (notifications w) n Hn (find_true _ _ _ Hn)).
  repeat split; try assumption.
Qed.

(** ** The edit request of the student client *)

(** C1, on the code.  The README lists PUT /api/placements/:id ("Edit
    placement (Resets to Pending)") and the student client sends that
    request from its edit form, but server.js registers no such route: the
    request falls through every layer to the 404 handler and the
    collections are left as they were, so a verified or rejected placement
    keeps its status. *)
Theorem edit_request_not_routed (req : Request) (w : World) (id : string) :
  method req = PUT ->
  path req = ["api"; "placements"; id] ->
  serve req w = (inr (session req, Json 404 RouteNotFound), w).
Proof.
  intros Hm Hp. rewrite (serve_put_placement req id Hm Hp). reflexivity.
Qed.

(** ** Report assembly *)

Lemma lowerChar_class c :
  negb (JS.isAlnumI (JS.lowerChar c)) || JS.isLowerAlnum (JS.lowerChar c) = true.
Proof. destruct c as [[] [] [] [] [] [] [] []]; reflexivity. Qed.

Lemma every_smap p f s : (forall c, p (f c) = true) -> JS.every p (JS.smap f s) = true.
Proof. intros Hf. induction s as [|c r IH]; simpl; [reflexivity|]. rewrite Hf, IH. reflexivity. Qed.

Lemma every_sfilter_keeps p q s :
  JS.every q s = true -> JS.every q (JS.sfilter p s) = true.
Proof.
  induction s as [|c r IH]; simpl; [reflexivity|].
  intros Hq. apply andb_true_iff in Hq as [Hc Hr].
  destruct (p c); simpl; [rewrite Hc|]; auto.
Qed.

Lemma every_sfilter p s : JS.every p (JS.sfilter p s) = true.
Proof.
  induction s as [|c r IH]; simpl; [reflexivity|].
  destruct (p c) eqn:Hc; simpl; [rewrite Hc|]; auto.
Qed.

Lemma every_and p q s :
  JS.every p s = true -> JS.every q s = true ->
  JS.every (fun c => p c && q c) s = true.
Proof.
  induction s as [|c r IH]; simpl; [reflexivity|].
  intros Hp Hq. apply andb_true_iff in Hp as [Hp1 Hp2].
  apply andb_true_iff in Hq as [Hq1 Hq2]. rewrite Hp1, Hq1, IH; auto.
Qed.

Lemma every_weaken (p q : ascii -> bool) s :
  (forall c, p c = true -> q c = true) -> JS.every p s = true -> JS.every q s = true.
Proof.
  intros Hpq. induction s as [|c r IH]; simpl; [reflexivity|].
  intros Hp. apply andb_true_iff in Hp as [Hp1 Hp2]. rewrite (Hpq _ Hp1), IH; auto.
Qed.

Lemma every_removeAtEnd p alts s :
  JS.every p s = true -> JS.every p (JS.removeAtEnd alts s) = true.
Proof.
  induction s as [|c r IH]; simpl.
  - destruct (existsb _ alts); reflexivity.
  - intros Hp. apply andb_true_iff in Hp as [Hc Hr].
    destruct (existsb _ alts); simpl; [reflexivity|]. rewrite Hc, IH; auto.
Qed.

Lemma every_trimStart p s : JS.every p s = true -> JS.every p (JS.trimStart s) = true.
Proof.
  induction s as [|c r IH]; simpl; [reflexivity|].
  intros Hp. destruct (JS.isSpace c); [|exact Hp].
  apply andb_true_iff in Hp as [_ Hr]. auto.
Qed.

Lemma every_trimEnd p s : JS.every p s = true -> JS.every p (JS.trimEnd s) = true.
Proof.
  induction s as [|c r IH]; simpl; [reflexivity|].
  intros Hp. apply andb_true_iff in Hp as [Hc Hr]. specialize (IH Hr).
  destruct (JS.trimEnd r) as [|c' r'].
  - destruct (JS.isSpace c); simpl; [reflexivity|]. rewrite Hc. reflexivity.
  - change (JS.every p (String c (String c' r')) = true). simpl in *. rewrite Hc. exact IH.
Qed.

(** A canonical key is made of lower-case letters and digits. *)
Lemma normalizeCompanyName_chars name :
  JS.every JS.isLowerAlnum (normalizeCompanyName name) = true.
Proof.
  destruct name as [n|]; [|reflexivity].
  unfold normalizeCompanyName. destruct n as [|c0 r0]; [reflexivity|].
  set (n := String c0 r0).
  apply every_trimEnd, every_trimStart, every_removeAtEnd.
  apply every_weaken with
    (p := fun c => negb (negb (JS.isAlnumI c))
                   && (negb (JS.isAlnumI c) || JS.isLowerAlnum c)).
  { intros c Hc. apply andb_true_iff in Hc as [Ha Hb].
    destruct (JS.isAlnumI c); [exact Hb|discriminate]. }
  apply every_and.
  - apply every_sfilter.
  - unfold JS.removeAll. do 2 apply every_sfilter_keeps.
    apply every_smap. exact lowerChar_class.
Qed.

(** Among the members inherited from [Object.prototype] only
    [constructor] can be a canonical key. *)
Lemma inherited_key name :
  existsb (String.eqb (normalizeCompanyName name)) objectPrototypeMembers = true ->
  normalizeCompanyName name = "constructor".
Proof.
  intros Hex. pose proof (normalizeCompanyName_chars name) as Hch.
  apply existsb_exists in Hex as (k & Hin & Hk). apply String.eqb_eq in Hk.
  rewrite Hk in *. clear Hk.
  simpl in Hin.
  repeat (destruct Hin as [<-|Hin]; [first [reflexivity | discriminate Hch]|]).
  contradiction.
Qed.

(** The registry map holds, under a key, the logo of the last company
    whose name has that key. *)
Lemma companyLogoMap_fold cs (m : gmap string (option string)) k :
  fold_left
    (fun m c => <[normalizeCompanyName (Some (Company.name c)) := Company.logo c]> m)
    cs m !! k
  = match last (List.filter
                  (fun c => String.eqb (normalizeCompanyName (Some (Company.name c))) k) cs) with
    | Some c => Some (Company.logo c)
    | None => m !! k
    end.
Proof.
  revert m. induction cs as [|c cs IH]; intros m; [reflexivity|].
  cbn [fold_left List.filter]. rewrite IH.
  destruct (String.eqb_spec (normalizeCompanyName (Some (Company.name c))) k) as [Hk|Hk].
  - destruct (List.filter _ cs) as [|c' r] eqn:Hf.
    + change (last [c]) with (Some c). cbv beta iota. rewrite Hk. apply lookup_insert_eq.
    + change (last (c :: c' :: r)) with (last (c' :: r)).
      destruct (last (c' :: r)) eqn:Hl; [reflexivity|].
      apply last_None in Hl. discriminate Hl.
  - destruct (last (List.filter _ cs)); [reflexivity|].
    apply lookup_insert_ne. exact Hk.
Qed.

Lemma companyLogoMap_lookup cs k :
  companyLogoMap cs !! k
  = option_map Company.logo
      (last (List.filter
               (fun c => String.eqb (normalizeCompanyName (Some (Company.name c))) k) cs)).
Proof.
  unfold companyLogoMap. rewrite companyLogoMap_fold.
  destruct (last _); [reflexivity|]. apply lookup_empty.
Qed.

(** C6, as amended.  For every report row the logo is (a) the logo of
    the Company registry entry under the normalized company name when the
    name normalizes to a non-empty key and that entry carries a non-empty
    logo; (b) otherwise the row's own stored logo exactly when it contains
    'cloudinary.com', whether or not it is a fully-qualified URL; (c)
    otherwise none.  (A name whose key is 'constructor' and has no registry
    entry is excluded: the lookup then yields an inherited function and the
    export fails.) *)
Theorem logo_resolution (cs : list Company.t) (s : Row) :
  (normalizeCompanyName (rowCompany s) = "constructor" ->
   is_Some (companyLogoMap cs !! "constructor")) ->
  resolveLogoUrl (companyLogoMap cs) s = inr (logoBySteps (companyLogoMap cs) s).
Proof.
  intros Hctor. unfold resolveLogoUrl, logoBySteps, registryLookup, registryLogo, getMember.
  set (m := companyLogoMap cs) in *. set (key := normalizeCompanyName (rowCompany s)) in *.
  cbv zeta.
  assert (Hfb : forall l : string,
             (if negb (String.eqb l "") && JS.includes l "cloudinary.com"
              then @inr exn string l else inr "")
             = inr (if JS.includes l "cloudinary.com" then l else "")).
  { intros l. destruct l as [|c r]; [reflexivity|].
    change (negb (String.eqb (String c r) "")) with true.
    rewrite andb_true_l. destruct (JS.includes _ _); reflexivity. }
  destruct (String.eqb key "") eqn:Hkey.
  - simpl. destruct (rowLogo s) as [l|]; [apply Hfb|reflexivity].
  - 
    destruct (m !! key) as [[u|]|] eqn:Hm.
    + simpl. destruct (String.eqb u "") eqn:Hu.
      * simpl. destruct (rowLogo s) as [l|]; [apply Hfb|reflexivity].
      * simpl. rewrite Hu. reflexivity.
    + simpl. destruct (rowLogo s) as [l|]; [apply Hfb|reflexivity].
    + destruct (existsb (String.eqb key) objectPrototypeMembers) eqn:Hex.
      * apply inherited_key in Hex. fold key in Hex.
        destruct (Hctor Hex) as [v Hv]. rewrite Hex in Hm. rewrite Hm in Hv. discriminate.
      * simpl. destruct (rowLogo s) as [l|]; [apply Hfb|reflexivity].
Qed.

(** ** What keeps a Student record pending *)









(** A computation that leaves the Student collection alone and does not
    move the source of [_id]s backwards. *)
Lemma keeps_students_same oid {A} (m : M A) :
  (forall w, students (snd (m w)) = students w /\ nextId w <= nextId (snd (m w))) ->
  keeps oid m.
Proof.
  intros Hm w (Hfresh & Hoid & Hp). destruct (Hm w) as [Hs Hn].
  unfold pendingAt, freshIds. rewrite Hs. repeat split.
  - eapply Forall_impl; [exact Hfresh|]. simpl. intros s Hlt. lia.
  - lia.
  - exact Hp.
Qed.





Lemma keeps_modify_activityLogs oid f : keeps oid (modify (setActivityLogs f)).
Proof. apply keeps_students_same. intros w. simpl. split; [reflexivity|lia]. Qed.










Lemma In_removeFirst {A} (p : A -> bool) l y :
  In y (snd (removeFirst p l)) -> In y l.
Proof.
  induction l as [|x r IH]; simpl; [tauto|].
  destruct (p x).
  - simpl. auto.
  - destruct (removeFirst p r) as [o r']. simpl in *. intros [<-|Hy]; auto.
Qed.











































(** ** The startup sweep and the photo upload *)





Lemma find_app_none {A} (p : A -> bool) l1 l2 :
  (forall x, In x l1 -> p x = false) -> List.find p (l1 ++ l2)%list = List.find p l2.
Proof.
  induction l1 as [|y r IH]; simpl; [reflexivity|]. intros Hl.
  rewrite (Hl y) by auto. apply IH. auto.
Qed.




(** * Further properties *)

(** ** Canonical keys *)

Lemma sfilter_app p a b :
  JS.sfilter p (a ++ b) = JS.sfilter p a ++ JS.sfilter p b.
Proof.
  induction a as [|c r IH]; simpl; [reflexivity|].
  destruct (p c); simpl; rewrite IH; reflexivity.
Qed.

Lemma smap_app f a b : JS.smap f (a ++ b) = JS.smap f a ++ JS.smap f b.
Proof. induction a as [|c r IH]; simpl; [reflexivity|]. rewrite IH. reflexivity. Qed.

Lemma sfilter_sfilter_weaker (p q : ascii -> bool) s :
  (forall c, q c = true -> p c = true) ->
  JS.sfilter q (JS.sfilter p s) = JS.sfilter q s.
Proof.
  intros Hqp. induction s as [|c r IH]; simpl; [reflexivity|].
  destruct (p c) eqn:Hp; simpl.
  - rewrite IH. reflexivity.
  - destruct (q c) eqn:Hq; [|exact IH]. rewrite (Hqp c Hq) in Hp. discriminate.
Qed.

Lemma space_not_alnum c : negb (negb (JS.isAlnumI c)) = true -> negb (JS.isSpace c) = true.
Proof. destruct c as [[] [] [] [] [] [] [] []]; vm_compute; congruence. Qed.

Lemma trimStart_nospace s :
  JS.every (fun c => negb (JS.isSpace c)) s = true -> JS.trimStart s = s.
Proof.
  destruct s as [|c r]; simpl; [reflexivity|].
  intros Hs. apply andb_true_iff in Hs as [Hc _].
  destruct (JS.isSpace c); [discriminate|reflexivity].
Qed.

Lemma trimEnd_nospace s :
  JS.every (fun c => negb (JS.isSpace c)) s = true -> JS.trimEnd s = s.
Proof.
  induction s as [|c r IH]; simpl; [reflexivity|].
  intros Hs. apply andb_true_iff in Hs as [Hc Hr]. rewrite (IH Hr).
  destruct r; [|reflexivity]. destruct (JS.isSpace c); [discriminate|reflexivity].
Qed.

Lemma trim_nospace s :
  JS.every (fun c => negb (JS.isSpace c)) s = true -> JS.trim s = s.
Proof. intros Hs. unfold JS.trim. rewrite (trimStart_nospace s Hs). apply trimEnd_nospace, Hs. Qed.

Lemma lowerAlnum_nospace c : JS.isLowerAlnum c = true -> negb (JS.isSpace c) = true.
Proof. destruct c as [[] [] [] [] [] [] [] []]; vm_compute; congruence. Qed.

Lemma alnum_nospace c : JS.isAlnumI c = true -> negb (JS.isSpace c) = true.
Proof. destruct c as [[] [] [] [] [] [] [] []]; vm_compute; congruence. Qed.

Lemma lettersAndDigits_alnum n : JS.every JS.isAlnumI (lettersAndDigits n) = true.
Proof.
  unfold lettersAndDigits, JS.removeAll.
  eapply every_weaken; [|apply every_sfilter]. simpl. intros c Hc.
  destruct (JS.isAlnumI c); [reflexivity|discriminate].
Qed.

(** The normalizer as one filter followed by the suffix pattern. *)
Lemma normalize_as_filter n :
  normalizeCompanyName (Some n) = JS.removeAtEnd suffixTokens (lettersAndDigits n).
Proof.
  destruct n as [|c0 r0]; [reflexivity|].
  set (n := String c0 r0). unfold normalizeCompanyName. fold n.
  assert (Hf : JS.removeAll (fun c => negb (JS.isAlnumI c))
                 (JS.removeAll JS.isSpace (JS.toLowerCase n)) = lettersAndDigits n).
  { unfold lettersAndDigits, JS.removeAll. apply sfilter_sfilter_weaker.
    intros c. apply space_not_alnum. }
  rewrite Hf. apply trim_nospace. apply every_removeAtEnd.
  eapply every_weaken; [|apply lettersAndDigits_alnum]. exact alnum_nospace.
Qed.

Lemma dropn_app x t : JS.dropn (String.length x) (x ++ t) = t.
Proof. induction x as [|c r IH]; simpl; [destruct t; reflexivity|exact IH]. Qed.

Lemma length_app_string x t :
  String.length (x ++ t) = String.length x + String.length t.
Proof. induction x as [|c r IH]; simpl; [reflexivity|]. rewrite IH. reflexivity. Qed.

(** No suffix token ends with another one. *)
Lemma tokens_not_nested :
  forallb
    (fun a =>
       forallb
         (fun t =>
            (String.length a <=? String.length t)%nat
            || negb (String.eqb (JS.dropn (String.length a - String.length t) a) t))
         suffixTokens)
    suffixTokens = true.
Proof. vm_compute. reflexivity. Qed.

Lemma removeAtEnd_unfold alts s :
  JS.removeAtEnd alts s
  = if existsb (String.eqb s) alts then ""
    else match s with
         | EmptyString => EmptyString
         | String c r => String c (JS.removeAtEnd alts r)
         end.
Proof. destruct s; reflexivity. Qed.

Lemma removeAtEnd_token k t :
  In t suffixTokens -> JS.removeAtEnd suffixTokens (k ++ t) = k.
Proof.
  intros Ht. induction k as [|c r IH].
  - change ("" ++ t) with t. rewrite removeAtEnd_unfold.
    assert (Hex : existsb (String.eqb t) suffixTokens = true).
    { apply existsb_exists. exists t. split; [exact Ht|apply String.eqb_refl]. }
    rewrite Hex. reflexivity.
  - change (String c r ++ t) with (String c (r ++ t)). rewrite removeAtEnd_unfold.
    destruct (existsb (String.eqb (String c (r ++ t))) suffixTokens) eqn:Hex.
    + exfalso. apply existsb_exists in Hex as (a & Ha & Heq).
      apply String.eqb_eq in Heq.
      pose proof tokens_not_nested as Hnn.
      rewrite forallb_forall in Hnn. specialize (Hnn a Ha).
      rewrite forallb_forall in Hnn. specialize (Hnn t Ht).
      assert (Hlen : String.length a = S (String.length r) + String.length t).
      { rewrite <- Heq. simpl. rewrite length_app_string. reflexivity. }
      apply orb_true_iff in Hnn as [Hle|Hne].
      * apply Nat.leb_le in Hle. lia.
      * replace (String.length a - String.length t) with (String.length (String c r)) in Hne
          by (simpl; lia).
        rewrite <- Heq in Hne.
        change (String c (r ++ t)) with (String c r ++ t) in Hne.
        rewrite dropn_app, String.eqb_refl in Hne. discriminate.
    + rewrite IH. reflexivity.
Qed.

Lemma lettersAndDigits_app a b :
  lettersAndDigits (a ++ b) = lettersAndDigits a ++ lettersAndDigits b.
Proof.
  unfold lettersAndDigits, JS.removeAll, JS.toLowerCase.
  rewrite smap_app, sfilter_app. reflexivity.
Qed.

Lemma lettersAndDigits_token t : In t suffixTokens -> lettersAndDigits t = t.
Proof.
  simpl. intros Ht.
  repeat (destruct Ht as [<-|Ht]; [vm_compute; reflexivity|]). contradiction.
Qed.

(** X2.  When a name is followed by one suffix token, the key is exactly
    the letters and digits of the name: that token is removed and nothing
    else, even if the name itself ends with another token. *)
Theorem normalize_strips_last_token_only (n t : string) :
  In t suffixTokens ->
  normalizeCompanyName (Some (n ++ " " ++ t)) = lettersAndDigits n.
Proof.
  intros Ht. rewrite normalize_as_filter, !lettersAndDigits_app.
  rewrite (lettersAndDigits_token t Ht).
  change (lettersAndDigits " ") with "". apply removeAtEnd_token, Ht.
Qed.

Lemma length_sfilter p s : String.length (JS.sfilter p s) <= String.length s.
Proof.
  induction s as [|c r IH]; simpl; [lia|]. destruct (p c); simpl; lia.
Qed.

Lemma length_smap f s : String.length (JS.smap f s) = String.length s.
Proof. induction s as [|c r IH]; simpl; [reflexivity|]. rewrite IH. reflexivity. Qed.

Lemma length_removeAtEnd alts s :
  String.length (JS.removeAtEnd alts s) <= String.length s.
Proof.
  induction s as [|c r IH]; simpl.
  - destruct (existsb _ alts); simpl; lia.
  - destruct (existsb _ alts); simpl; lia.
Qed.

(** X3.  A key is made of the characters a-z and 0-9 only, is never longer
    than the name, and a missing or empty name has the empty key. *)
Theorem canonical_key_shape (name : option string) :
  JS.every JS.isLowerAlnum (normalizeCompanyName name) = true
  /\ String.length (normalizeCompanyName name)
     <= String.length (match name with Some n => n | None => "" end)
  /\ (JS.truthy name = false -> normalizeCompanyName name = "").
Proof.
  split; [apply normalizeCompanyName_chars|]. split.
  - destruct name as [n|]; [|simpl; lia]. rewrite normalize_as_filter.
    etransitivity; [apply length_removeAtEnd|].
    unfold lettersAndDigits, JS.removeAll.
    etransitivity; [apply length_sfilter|].
    unfold JS.toLowerCase. rewrite length_smap. lia.
  - destruct name as [[|c r]|]; simpl; congruence.
Qed.

(** ** The registry map and the logo of a report row *)

Lemma last_In {A} (l : list A) x : last l = Some x -> In x l.
Proof.
  induction l as [|y r IH]; [discriminate|].
  destruct r as [|z r']; [intros [= ->]; left; reflexivity|].
  intros Hl. right. apply IH. exact Hl.
Qed.

(** X4.  In the map built from the registry a key holds the logo of the
    last company of that key: a later company overwrites an earlier one
    with the same key, and a key is absent exactly when no company has it. *)
Theorem registry_last_entry_wins (cs : list Company.t) (k : string) :
  let sameKey := fun c => String.eqb (normalizeCompanyName (Some (Company.name c))) k in
  companyLogoMap cs !! k = option_map Company.logo (last (List.filter sameKey cs))
  /\ (companyLogoMap cs !! k = None <-> forall c, In c cs -> sameKey c = false).
Proof.
  intros sameKey. split; [apply companyLogoMap_lookup|].
  rewrite companyLogoMap_lookup. fold sameKey. split.
  - intros Hnone c Hc. destruct (sameKey c) eqn:Hk; [|reflexivity].
    assert (Hin : In c (List.filter sameKey cs)) by (apply filter_In; auto).
    destruct (List.filter sameKey cs) as [|y r] eqn:Hf; [contradiction|].
    destruct (last (y :: r)) eqn:Hl; [discriminate|].
    apply last_None in Hl. discriminate.
  - intros Hall. destruct (last (List.filter sameKey cs)) as [c|] eqn:Hl; [|reflexivity].
    apply last_In, filter_In in Hl as [Hc Hk]. rewrite (Hall c Hc) in Hk. discriminate.
Qed.

(** X5.  A logo resolved for a report row is never invented: it is the
    logo of a registry company whose name has the key of the row's company,
    or the row's own stored logo, which then contains 'cloudinary.com'. *)
Theorem resolved_logo_provenance (cs : list Company.t) (s : Row) (u : string) :
  resolveLogoUrl (companyLogoMap cs) s = inr u ->
  u <> "" ->
  (exists c, In c cs
             /\ normalizeCompanyName (Some (Company.name c))
                = normalizeCompanyName (rowCompany s)
             /\ Company.logo c = Some u)
  \/ (rowLogo s = Some u /\ JS.includes u "cloudinary.com" = true).
Proof.
  intros Hres Hu. unfold resolveLogoUrl, registryLookup, getMember in Hres.
  set (key := normalizeCompanyName (rowCompany s)) in *.
  assert (Hfall : match rowLogo s with
                  | Some l => if negb (String.eqb l "") && JS.includes l "cloudinary.com"
                              then @inr exn string l else inr ""
                  | None => inr ""
                  end = inr u ->
                  rowLogo s = Some u /\ JS.includes u "cloudinary.com" = true).
  { destruct (rowLogo s) as [l|]; [|intros [= <-]; contradiction].
    destruct (negb (String.eqb l "") && JS.includes l "cloudinary.com") eqn:Hc;
      [|intros [= <-]; contradiction].
    intros [= <-]. apply andb_true_iff in Hc as [_ Hc]. auto. }
  destruct (String.eqb key "") eqn:Hkey; [right; apply Hfall; exact Hres|].
  destruct (companyLogoMap cs !! key) as [[v|]|] eqn:Hm.
  - simpl in Hres. destruct (String.eqb v "") eqn:Hv.
    + right. apply Hfall. exact Hres.
    + simpl in Hres. rewrite Hv in Hres. injection Hres as <-.
      left. rewrite companyLogoMap_lookup in Hm.
      destruct (last _) as [c|] eqn:Hl; [|discriminate].
      apply last_In, filter_In in Hl as [Hc Hk]. apply String.eqb_eq in Hk.
      exists c. simpl in Hm. injection Hm as Hm. auto.
  - right. apply Hfall. exact Hres.
  - destruct (existsb (String.eqb key) objectPrototypeMembers); [discriminate|].
    right. apply Hfall. exact Hres.
Qed.

(** ** The JPEG form of a Cloudinary address *)

Lemma includes_unfold s pat :
  JS.includes s pat
  = String.prefix pat s
    || match s with
       | EmptyString => false
       | String _ r => JS.includes r pat
       end.
Proof. destruct s; reflexivity. Qed.

Lemma includes_app_r s a pat :
  JS.includes s pat = true -> JS.includes (a ++ s) pat = true.
Proof.
  intros Hs. induction a as [|c r IH]; [exact Hs|].
  change (String c r ++ s) with (String c (r ++ s)).
  rewrite includes_unfold, IH. apply orb_true_r.
Qed.

Lemma prefix_app_l pre rest : String.prefix pre (pre ++ rest) = true.
Proof.
  induction pre as [|c r IH]; simpl; [destruct rest; reflexivity|].
  destruct (ascii_dec c c); [exact IH|contradiction].
Qed.

Lemma prefix_app_self s : String.prefix s s = true.
Proof.
  induction s as [|c r IH]; [reflexivity|]. simpl.
  destruct (ascii_dec c c); [exact IH|contradiction].
Qed.

Lemma prefix_app_more pat s rest :
  String.prefix pat s = true -> String.prefix pat (s ++ rest) = true.
Proof.
  revert s. induction pat as [|c r IH]; intros s; [intros _; destruct (s ++ rest); reflexivity|].
  destruct s as [|d q]; [discriminate|].
  change (String d q ++ rest) with (String d (q ++ rest)). simpl.
  destruct (ascii_dec c d); [apply IH|discriminate].
Qed.

Lemma includes_app_l s rest pat :
  JS.includes s pat = true -> JS.includes (s ++ rest) pat = true.
Proof.
  induction s as [|c r IH].
  - rewrite includes_unfold, orb_false_r. intros Hp.
    rewrite includes_unfold, (prefix_app_more pat "" rest Hp). reflexivity.
  - rewrite includes_unfold. intros Hs.
    change (String c r ++ rest) with (String c (r ++ rest)). rewrite includes_unfold.
    apply orb_true_iff in Hs as [Hp|Hr].
    + pose proof (prefix_app_more pat (String c r) rest Hp) as Hp'.
      change (String c r ++ rest) with (String c (r ++ rest)) in Hp'.
      rewrite Hp'. reflexivity.
    + rewrite (IH Hr). apply orb_true_r.
Qed.

Lemma replaceFirst_unfold s pat rep :
  JS.replaceFirst s pat rep
  = if String.prefix pat s then rep ++ JS.dropn (String.length pat) s
    else match s with
         | EmptyString => EmptyString
         | String c r => String c (JS.replaceFirst r pat rep)
         end.
Proof. destruct s; reflexivity. Qed.

(** After the replacement of an occurrence, what the replacement text
    contains is contained in the result. *)
Lemma includes_replaceFirst s pat rep x :
  JS.includes s pat = true -> JS.includes rep x = true ->
  JS.includes (JS.replaceFirst s pat rep) x = true.
Proof.
  intros Hs Hrep. induction s as [|c r IH]; rewrite replaceFirst_unfold.
  - rewrite includes_unfold, orb_false_r in Hs. rewrite Hs.
    apply includes_app_l, Hrep.
  - rewrite includes_unfold in Hs.
    destruct (String.prefix pat (String c r)) eqn:Hp; [apply includes_app_l, Hrep|].
    simpl in Hs. rewrite includes_unfold, (IH Hs). apply orb_true_r.
Qed.

(** X6.  For a Cloudinary address that has an [/f_png/] or an [/upload/]
    segment, the address used by the Word export asks for JPEG: it
    contains [f_jpg].  Forcing the format twice is the same as forcing it
    once, and an address that is not a Cloudinary one is left as it is. *)
Theorem forceJpeg_requests_jpeg (u : string) :
  (JS.includes u "cloudinary.com" = true ->
   JS.includes u "/f_png/" = true \/ JS.includes u "/upload/" = true ->
   JS.includes (forceJpeg u) "f_jpg" = true)
  /\ forceJpeg (forceJpeg u) = forceJpeg u
  /\ (JS.includes u "cloudinary.com" = false -> forceJpeg u = u).
Proof.
  assert (Hfix : forall v, JS.includes v "f_jpg" = true -> forceJpeg v = v).
  { intros v Hv. unfold forceJpeg. rewrite Hv. simpl.
    destruct (JS.includes v "cloudinary.com"); reflexivity. }
  split; [|split].
  - intros Hc Hseg. unfold forceJpeg. rewrite Hc.
    destruct (JS.includes u "f_jpg") eqn:Hj; [exact Hj|]. simpl.
    destruct (JS.includes u "/f_png/") eqn:Hpng.
    + apply includes_replaceFirst; [exact Hpng|reflexivity].
    + destruct Hseg as [Hseg|Hseg]; [discriminate|]. rewrite Hseg.
      apply includes_replaceFirst; [exact Hseg|reflexivity].
  - assert (Hcases : forceJpeg u = u \/ JS.includes (forceJpeg u) "f_jpg" = true).
    { unfold forceJpeg.
      destruct (JS.includes u "cloudinary.com"); [|left; reflexivity].
      destruct (JS.includes u "f_jpg") eqn:Hj; simpl; [left; reflexivity|].
      destruct (JS.includes u "/f_png/") eqn:Hpng.
      { right. apply includes_replaceFirst; [exact Hpng|reflexivity]. }
      destruct (JS.includes u "/upload/") eqn:Hup; [|left; reflexivity].
      right. apply includes_replaceFirst; [exact Hup|reflexivity]. }
    destruct Hcases as [E|E]; [rewrite E; exact E|apply Hfix, E].
  - intros Hc. unfold forceJpeg. rewrite Hc. reflexivity.
Qed.

(** ** The dashboard's logo lookup *)

Lemma lower_not_upper c : JS.isLowerAlnum (JS.lowerChar c) = JS.isAlnumI (JS.lowerChar c).
Proof. destruct c as [[] [] [] [] [] [] [] []]; reflexivity. Qed.

Lemma sfilter_ext_every (p q : ascii -> bool) (r : ascii -> bool) s :
  JS.every r s = true -> (forall c, r c = true -> p c = q c) ->
  JS.sfilter p s = JS.sfilter q s.
Proof.
  intros Hr Hpq. induction s as [|c t IH]; simpl; [reflexivity|].
  simpl in Hr. apply andb_true_iff in Hr as [Hc Ht].
  rewrite (Hpq c Hc), (IH Ht). reflexivity.
Qed.

(** X7.  The normalizer written inside the dashboard's [getCompanyLogo]
    and the normalizer of the server give every name the same key. *)
Theorem dashboard_and_server_keys_agree (name : string) :
  dashboardNormalize name = normalizeCompanyName (Some name).
Proof.
  unfold dashboardNormalize, normalizeCompanyName.
  destruct name as [|c0 r0]; [reflexivity|]. set (n := String c0 r0).
  do 2 f_equal. unfold JS.removeAll.
  apply sfilter_ext_every
    with (r := fun c => JS.isLowerAlnum c || negb (JS.isAlnumI c)).
  - apply every_sfilter_keeps. unfold JS.toLowerCase. apply every_smap.
    intros c. rewrite lower_not_upper. destruct (JS.isAlnumI _); reflexivity.
  - intros c Hc. destruct (JS.isLowerAlnum c) eqn:Hl.
    + assert (Ha : JS.isAlnumI c = true).
      { unfold JS.isLowerAlnum, JS.isAlnumI in *.
        apply orb_true_iff in Hl as [Hl|Hl]; rewrite Hl; simpl;
          [reflexivity|apply orb_true_r]. }
      rewrite Ha. reflexivity.
    + simpl in Hc. destruct (JS.isAlnumI c); [discriminate|reflexivity].
Qed.

Lemma find_none_all {A} (p : A -> bool) l :
  (forall x, In x l -> p x = false) -> List.find p l = None.
Proof.
  induction l as [|y r IH]; simpl; [reflexivity|]. intros Hl.
  rewrite (Hl y) by auto. apply IH. auto.
Qed.

(** X8.  A logo returned by the dashboard's lookup is the Cloudinary logo
    of a registry company whose key contains the searched key or is
    contained in it (in particular, has the same key); no logo is returned
    for an empty name. *)
Theorem getCompanyLogo_provenance (cs : list Company.t) (name u : string) :
  getCompanyLogo cs name = Some u ->
  name <> ""
  /\ exists c,
       In c cs
       /\ Company.logo c = Some u
       /\ JS.includes u "cloudinary.com" = true
       /\ (JS.includes (dashboardNormalize (Company.name c)) (dashboardNormalize name) = true
           \/ JS.includes (dashboardNormalize name) (dashboardNormalize (Company.name c)) = true).
Proof.
  unfold getCompanyLogo. destruct (String.eqb_spec name "") as [->|Hne]; [discriminate|].
  cbv zeta. intros Hres. split; [exact Hne|].
  set (k := dashboardNormalize name) in *.
  assert (Hpick : forall c, In c cs ->
            (JS.includes (dashboardNormalize (Company.name c)) k = true
             \/ JS.includes k (dashboardNormalize (Company.name c)) = true) ->
            match Company.logo c with
            | Some l => if negb (String.eqb l "") && JS.includes l "cloudinary.com"
                        then Some l else None
            | None => None
            end = Some u ->
            exists c, In c cs /\ Company.logo c = Some u
                      /\ JS.includes u "cloudinary.com" = true
                      /\ (JS.includes (dashboardNormalize (Company.name c)) k = true
                          \/ JS.includes k (dashboardNormalize (Company.name c)) = true)).
  { intros c Hc Hk Hl. exists c. destruct (Company.logo c) as [l|]; [|discriminate].
    destruct (negb (String.eqb l "") && JS.includes l "cloudinary.com") eqn:Hcl; [|discriminate].
    injection Hl as <-. apply andb_true_iff in Hcl as [_ Hcl]. auto. }
  destruct (List.find _ cs) as [c|] eqn:Hexact.
  - apply List.find_some in Hexact as [Hc Hk]. apply String.eqb_eq in Hk.
    apply (Hpick c Hc); [|exact Hres]. left. rewrite Hk.
    rewrite includes_unfold, prefix_app_self. reflexivity.
  - destruct (List.find (fun c => _ || _) cs) as [c|] eqn:Hcontains; [|discriminate Hres].
    apply List.find_some in Hcontains as [Hc Hk]. cbv zeta in Hk.
    apply (Hpick c Hc); [|exact Hres]. apply orb_true_iff in Hk. exact Hk.
Qed.

(** X9.  The dashboard's lookup does not guard against an empty key: for a
    non-empty name whose key is empty (a bare suffix such as "Ltd."), when
    no registry company has the empty key, the first company of the
    registry is taken, whatever its name. *)
Theorem getCompanyLogo_empty_key (c : Company.t) (cs : list Company.t) (name : string) :
  name <> "" ->
  dashboardNormalize name = "" ->
  (forall c', In c' (c :: cs) -> dashboardNormalize (Company.name c') <> "") ->
  getCompanyLogo (c :: cs) name
  = match Company.logo c with
    | Some l => if negb (String.eqb l "") && JS.includes l "cloudinary.com"
                then Some l else None
    | None => None
    end.
Proof.
  intros Hne Hk Hnone. unfold getCompanyLogo.
  destruct (String.eqb_spec name ""); [contradiction|]. cbv zeta. rewrite Hk.
  assert (Hexact : List.find (fun c0 => String.eqb (dashboardNormalize (Company.name c0)) "")
                     (c :: cs) = None).
  { apply find_none_all. intros c' Hc'. apply String.eqb_neq, Hnone, Hc'. }
  rewrite Hexact. simpl.
  assert (Hany : JS.includes (dashboardNormalize (Company.name c)) "" = true).
  { rewrite includes_unfold. destruct (dashboardNormalize (Company.name c)); reflexivity. }
  rewrite Hany. reflexivity.
Qed.

(** ** Deleting records *)

Lemma removeFirst_spec {A} (p : A -> bool) l :
  (removeFirst p l = (None, l) /\ List.find p l = None)
  \/ exists x l1 l2,
       removeFirst p l = (Some x, (l1 ++ l2)%list)
       /\ l = (l1 ++ x :: l2)%list /\ p x = true /\ List.find p l1 = None.
Proof.
  induction l as [|y r IH]; simpl; [left; auto|].
  destruct (p y) eqn:Hy.
  - right. exists y, [], r. auto.
  - destruct IH as [[Hr Hn]|(x & l1 & l2 & Hr & -> & Hx & Hn)]; rewrite Hr.
    + left. auto.
    + right. exists x, (y :: l1), l2. simpl. rewrite Hy. auto.
Qed.

Lemma deletePlacement_run id req w :
  snd (deletePlacement id req w) = w
  \/ exists oid,
       hasRole req "student" = true
       /\ castObjectId (JStr id) = Some oid
       /\ snd (deletePlacement id req w)
          = setPlacements
              (fun _ => snd (removeFirst
                               (fun p => Placement_byId oid p
                                         && String.eqb (Placement.studentId p)
                                              (userId (sessionUser req))
                                         && negb (Placement.isOriginal p))
                               (placements w))) w.
Proof.
  unfold deletePlacement, requireStudent.
  destruct (hasRole req "student") eqn:Hrole; [|left; reflexivity].
  unfold catch500, tryCatch. rewrite bind_run.
  destruct (castObjectId (JStr id)) as [oid|] eqn:Hc; [|left; reflexivity].
  right. exists oid. split; [reflexivity|]. split; [reflexivity|].
  cbn [orThrow ret]. rewrite bind_run. unfold Placement_deleteOne.
  destruct (removeFirst _ (placements w)) as [o l]. reflexivity.
Qed.

(** X10.  DELETE /api/placements/:id removes at most one Placement, and
    only one that the request names by its [_id], that belongs to the
    logged-in student and that is not an original record; the Student
    collection is not touched.  Without a student session, or for a
    placement of somebody else, nothing is removed. *)
Theorem deletePlacement_only_own (id : string) (req : Request) (w : World) :
  let w' := snd (deletePlacement id req w) in
  students w' = students w
  /\ (forall p, In p (placements w') -> In p (placements w))
  /\ (forall p, In p (placements w) -> ~ In p (placements w') ->
        hasRole req "student" = true
        /\ castObjectId (JStr id) = Some (Placement._id p)
        /\ Placement.studentId p = userId (sessionUser req)
        /\ Placement.isOriginal p = false)
  /\ List.length (placements w) <= S (List.length (placements w')).
Proof.
  cbv zeta.
  destruct (deletePlacement_run id req w) as [->|(oid & Hrole & Hc & ->)].
  - repeat split; try tauto; try lia.
  - cbn [students placements setPlacements].
    destruct (removeFirst_spec
                (fun p => Placement_byId oid p
                          && String.eqb (Placement.studentId p) (userId (sessionUser req))
                          && negb (Placement.isOriginal p)) (placements w))
      as [[-> _]|(x & l1 & l2 & -> & Hl & Hx & _)]; cbn [snd].
    + repeat split; try tauto; try lia.
    + rewrite Hl. split; [reflexivity|]. split; [|split].
      * intros p Hp. apply in_app_or in Hp. apply in_or_app. simpl. tauto.
      * intros p Hp Hnot. apply in_app_or in Hp as [Hp|[<-|Hp]].
        -- exfalso. apply Hnot, in_or_app. auto.
        -- apply andb_true_iff in Hx as [Hx Ho]. apply andb_true_iff in Hx as [Hi Hs].
           apply Nat.eqb_eq in Hi. apply String.eqb_eq in Hs.
           apply negb_true_iff in Ho. subst oid. auto.
        -- exfalso. apply Hnot, in_or_app. auto.
      * rewrite !length_app. simpl. lia.
Qed.

Lemma deleteStudent_run id req w :
  hasRole req "admin" = true ->
  plainId id = true ->
  deleteStudent id req w
  = (inr (session req, Json 200 Success),
     mkWorld (snd (removeFirst (fun s => idMatches id (Student.id s)) (students w)))
       (List.filter (fun p => negb (idMatches id (Placement.studentId p))) (placements w))
       (companies w) (notifications w)
       (activityLogs w ++ [logEntry req "DELETE_STUDENT" ("Deleted student: " ++ id)])%list
       (outbox w ++ [(deletionMail id, gmailSend (deletionMail id))])%list
       (nextId w)).
Proof.
  intros Hrole Hplain. unfold deleteStudent, requireAdmin. rewrite Hrole.
  unfold catch500, tryCatch. rewrite bind_run, (idRegExp_plain _ Hplain).
  cbn [orThrow ret]. rewrite bind_run. unfold Student_findOneAndDelete.
  destruct (removeFirst _ (students w)) as [o l]. reflexivity.
Qed.

(** X11.  DELETE /api/students/:id by an admin, for an id made of letters
    and digits (the id goes unescaped into the pattern of the filters),
    answers success and hands one deletion notice to the mailer in every
    case, also when no Student record has that id (then the Student
    collection is left as it was).  It removes at most one Student record,
    and exactly the Placements whose [studentId] is the id up to case. *)
Theorem deleteStudent_cascades (id : string) (req : Request) (w : World) :
  hasRole req "admin" = true ->
  plainId id = true ->
  let out := deleteStudent id req w in
  fst out = inr (session req, Json 200 Success)
  /\ (forall p, In p (placements (snd out))
                <-> In p (placements w) /\ idMatches id (Placement.studentId p) = false)
  /\ (forall s, In s (students (snd out)) -> In s (students w))
  /\ List.length (students w) <= S (List.length (students (snd out)))
  /\ (List.find (fun s => idMatches id (Student.id s)) (students w) = None ->
      students (snd out) = students w)
  /\ outbox (snd out) = (outbox w ++ [(deletionMail id, gmailSend (deletionMail id))])%list.
Proof.
  intros Hrole Hplain. cbv zeta. rewrite (deleteStudent_run id req w Hrole Hplain).
  cbn [fst snd students placements outbox].
  split; [reflexivity|]. split; [|split; [|split; [|split]]].
  - intros p. rewrite filter_In, negb_true_iff. tauto.
  - intros s. apply In_removeFirst.
  - destruct (removeFirst_spec (fun s => idMatches id (Student.id s)) (students w))
      as [[-> _]|(x & l1 & l2 & -> & -> & _)]; cbn [snd]; [lia|].
    rewrite !length_app. simpl. lia.
  - intros Hnone.
    destruct (removeFirst_spec (fun s => idMatches id (Student.id s)) (students w))
      as [[-> _]|(x & l1 & l2 & _ & Hl & Hx & Hl1)]; [reflexivity|].
    rewrite Hl in Hnone. exfalso. clear Hl.
    induction l1 as [|y r IH]; simpl in *.
    + rewrite Hx in Hnone. discriminate.
    + destruct (idMatches id (Student.id y)); [discriminate|]. auto.
  - reflexivity.
Qed.

(** ** Logging in *)

Lemma logActivity_run req action details w :
  logActivity req action details w
  = (inr tt, setActivityLogs (fun l => (l ++ [logEntry req action details])%list) w).
Proof. reflexivity. Qed.

Lemma find_In {A} (p : A -> bool) l x : List.find p l = Some x -> In x l.
Proof. intros Hf. apply List.find_some in Hf. tauto. Qed.

Lemma find_same {A} (p q : A -> bool) l :
  (forall x, p x = q x) -> List.find p l = List.find q l.
Proof.
  intros Hpq. induction l as [|y r IH]; simpl; [reflexivity|].
  rewrite Hpq, IH. reflexivity.
Qed.

(** X12.  POST /api/login writes nothing but the activity log, and it
    answers [{ success: true, role }] only to the administrator's name
    with the administrator's password, or when the pattern made of the
    upper-cased name selects a Student record and bcrypt accepts the
    password for the hash stored in that record; the session then holds
    that record's id.  For a name made of letters and digits the record
    selected is one whose id is the name up to case; any other name is
    read as a pattern and may select the record of another id. *)
Theorem login_checks_credentials (req : Request) (w : World) :
  let out := postLogin req w in
  students (snd out) = students w
  /\ placements (snd out) = placements w
  /\ notifications (snd out) = notifications w
  /\ outbox (snd out) = outbox w
  /\ forall u role,
       fst out = inr (u, Json 200 (SuccessRole role)) ->
       exists name,
         body req "username" = JStr name
         /\ ((role = "admin"
              /\ JS.toUpperCase name = "ADMIN001"
              /\ body req "password" = JStr ADMIN_PLAIN
              /\ u = Some (mkUser "ADMIN001" (Some "Administrator") "admin" false None))
             \/ (role = "student"
                 /\ exists s re,
                      idRegExp (JS.toUpperCase name) = Some re
                      /\ List.find (fun s => re (Student.id s)) (students w) = Some s
                      /\ bcryptCompare (body req "password") (Student.password s) = Some true
                      /\ u = Some (mkUser (Student.id s) (Student.name s) "student"
                                     (Student.passwordChanged s) None)
                      /\ (plainId (JS.toUpperCase name) = true ->
                          idMatches (JS.toUpperCase name) (Student.id s) = true))).
Proof.
  cbv zeta. unfold postLogin, catch500, tryCatch. cbv zeta.
  destruct (body req "username") as [| |b|n|name|] eqn:Hname;
    try (cbn; repeat split; intros u role [=]).
  destruct (String.eqb (JS.toUpperCase name) "ADMIN001" && isStr (body req "password") ADMIN_PLAIN)
    eqn:Hadmin.
  - rewrite bind_run, logActivity_run. cbn [fst snd ret students placements notifications outbox setActivityLogs].
    repeat split. intros u role [= <- <-]. exists name. split; [reflexivity|]. left.
    apply andb_true_iff in Hadmin as [Hu Hp]. apply String.eqb_eq in Hu.
    apply isStr_true in Hp. auto.
  - rewrite bind_run.
    destruct (idRegExp (JS.toUpperCase name)) as [re|] eqn:Hre; cbn [orThrow ret throw];
      [|cbn; repeat split; intros u role [=]].
    rewrite bind_run. unfold Student_findOne.
    destruct (List.find _ (students w)) as [s|] eqn:Hs.
    + rewrite bind_run.
      destruct (bcryptCompare (body req "password") (Student.password s)) as [[|]|] eqn:Hc;
        cbn [orThrow ret throw].
      * rewrite bind_run, logActivity_run.
        cbn [fst snd ret students placements notifications outbox setActivityLogs].
        repeat split. intros u role [= <- <-]. exists name. split; [reflexivity|]. right.
        split; [reflexivity|]. exists s, re. split; [exact Hre|].
        split; [exact Hs|]. split; [exact Hc|]. split; [reflexivity|].
        intros Hplain. rewrite (idRegExp_plain _ Hplain) in Hre. injection Hre as <-.
        exact (find_true _ _ _ Hs).
      * rewrite bind_run, logActivity_run. unfold send.
        cbn [fst snd ret students placements notifications outbox setActivityLogs].
        repeat split. intros u role [=].
      * cbn. repeat split. intros u role [=].
    + rewrite bind_run, logActivity_run. unfold send.
      cbn [fst snd ret students placements notifications outbox setActivityLogs].
      repeat split. intros u role [=].
Qed.

Lemma lower_upper_char c : JS.lowerChar (JS.upperChar c) = JS.lowerChar c.
Proof. destruct c as [[] [] [] [] [] [] [] []]; reflexivity. Qed.

Lemma toLowerCase_toUpperCase s : JS.toLowerCase (JS.toUpperCase s) = JS.toLowerCase s.
Proof.
  unfold JS.toLowerCase, JS.toUpperCase.
  induction s as [|c r IH]; simpl; [reflexivity|]. rewrite lower_upper_char, IH. reflexivity.
Qed.

Lemma alnum_of_lower c : JS.isAlnumI (JS.lowerChar c) = JS.isAlnumI c.
Proof. destruct c as [[] [] [] [] [] [] [] []]; reflexivity. Qed.

Lemma lettersAndDigits_drop c y :
  JS.isAlnumI c = false -> lettersAndDigits (String c y) = lettersAndDigits y.
Proof.
  intros Hc. unfold lettersAndDigits, JS.removeAll, JS.toLowerCase. simpl.
  rewrite alnum_of_lower, Hc. reflexivity.
Qed.

(** X1.  Punctuation, spacing and capitals do not count for the key of a
    name of ASCII characters: a character that is neither a letter nor a
    digit can be taken out of the name, wherever it stands, and the name
    can be written in capitals, without changing the key. *)
Theorem normalize_ignores_case_and_punctuation (x y : string) (c : ascii) :
  JS.isAscii (x ++ String c y) = true ->
  JS.isAlnumI c = false ->
  normalizeCompanyName (Some (x ++ String c y)) = normalizeCompanyName (Some (x ++ y))
  /\ normalizeCompanyName (Some (JS.toUpperCase (x ++ String c y)))
     = normalizeCompanyName (Some (x ++ String c y)).
Proof.
  intros _ Hc. rewrite !normalize_as_filter. split.
  - rewrite !lettersAndDigits_app, (lettersAndDigits_drop c y Hc). reflexivity.
  - unfold lettersAndDigits. rewrite toLowerCase_toUpperCase. reflexivity.
Qed.

Lemma idMatches_upper a b : idMatches (JS.toUpperCase a) b = idMatches a b.
Proof. unfold idMatches. rewrite toLowerCase_toUpperCase. reflexivity. Qed.

Lemma idMatches_same a b c : idMatches a b = true -> idMatches a c = idMatches b c.
Proof. unfold idMatches. intros Hab. apply String.eqb_eq in Hab. rewrite Hab. reflexivity. Qed.

Lemma alnum_lower_char c : JS.isAlnumI c = JS.isLowerAlnum (JS.lowerChar c).
Proof. destruct c as [[] [] [] [] [] [] [] []]; reflexivity. Qed.

Lemma alnum_upper_char c : JS.isAlnumI (JS.upperChar c) = JS.isAlnumI c.
Proof. destruct c as [[] [] [] [] [] [] [] []]; reflexivity. Qed.

Lemma plainId_lower s : plainId s = JS.every JS.isLowerAlnum (JS.toLowerCase s).
Proof.
  unfold plainId, JS.toLowerCase. induction s as [|c r IH]; simpl; [reflexivity|].
  rewrite alnum_lower_char, IH. reflexivity.
Qed.

Lemma plainId_upper s : plainId (JS.toUpperCase s) = plainId s.
Proof.
  unfold plainId, JS.toUpperCase. induction s as [|c r IH]; simpl; [reflexivity|].
  rewrite alnum_upper_char, IH. reflexivity.
Qed.

(** A name that is a plain id up to case is a plain id. *)
Lemma plainId_match a b : idMatches a b = true -> plainId b = true -> plainId a = true.
Proof.
  unfold idMatches. intros Hab Hb. apply String.eqb_eq in Hab.
  rewrite plainId_lower, Hab, <- plainId_lower. exact Hb.
Qed.

Lemma idRegExp_upper a b :
  idMatches a b = true -> plainId b = true ->
  idRegExp (JS.toUpperCase a) = Some (idMatches (JS.toUpperCase a)).
Proof.
  intros Hab Hb. apply idRegExp_plain. rewrite plainId_upper.
  exact (plainId_match a b Hab Hb).
Qed.

Lemma postChangePassword_run req w u pw :
  session req = Some u ->
  userRole u = "student" ->
  plainId (userId u) = true ->
  body req "newPassword" = JStr pw ->
  6 <= String.length pw ->
  postChangePassword req w
  = (inr (Some (mkUser (userId u) (userName u) (userRole u) true (userPhoto u)),
          Json 200 Success),
     setActivityLogs
       (fun l => (l ++ [logEntry req "PASSWORD_CHANGE" "Student changed password"])%list)
       (setStudents
          (fun _ => snd (updateFirst (fun s => idMatches (userId u) (Student.id s))
                           (Student_withPassword (bcryptHash pw) true) (students w))) w)).
Proof.
  intros Hs Hrole Hplain Hpw Hlen. unfold postChangePassword, requireStudent.
  assert (Hhas : hasRole req "student" = true).
  { unfold hasRole. rewrite Hs, Hrole. reflexivity. }
  rewrite Hhas. unfold catch500, tryCatch. cbv zeta. rewrite Hpw.
  assert (Htruthy : valueTruthy (JStr pw : value) = true).
  { simpl. destruct pw; [simpl in Hlen; lia|reflexivity]. }
  rewrite Htruthy. cbn [negb].
  assert (Hlt : (String.length pw <? 6)%nat = false) by (apply Nat.ltb_ge; lia).
  rewrite Hlt. unfold sessionUser. rewrite Hs.
  rewrite bind_run, (idRegExp_plain _ Hplain). cbn [orThrow ret].
  rewrite bind_run. unfold Student_findOneAndUpdate.
  destruct (updateFirst _ _ (students w)) as [o l]. reflexivity.
Qed.

(** X13.  After a student whose id is made of letters and digits (the id
    goes unescaped into the patterns of both routes) has changed the
    password with POST /api/change-password (six characters or more), POST
    /api/login with the student's id in any case and the new password
    succeeds with role 'student', and the session records that the
    password was changed.  This relies on bcrypt accepting a password for
    its own hash. *)
Theorem changed_password_logs_in (req login : Request) (w : World) (u : SessionUser)
    (s : Student.t) (pw name : string) :
  session req = Some u ->
  userRole u = "student" ->
  plainId (userId u) = true ->
  List.find (fun s => idMatches (userId u) (Student.id s)) (students w) = Some s ->
  body req "newPassword" = JStr pw ->
  6 <= String.length pw ->
  bcryptCompare (JStr pw) (bcryptHash pw) = Some true ->
  body login "username" = JStr name ->
  body login "password" = JStr pw ->
  idMatches name (userId u) = true ->
  JS.toUpperCase name <> "ADMIN001" ->
  let changed := postChangePassword req w in
  fst changed
  = inr (Some (mkUser (userId u) (userName u) (userRole u) true (userPhoto u)),
         Json 200 Success)
  /\ fst (postLogin login (snd changed))
     = inr (Some (mkUser (Student.id s) (Student.name s) "student" true None),
            Json 200 (SuccessRole "student")).
Proof.
  intros Hs Hrole Hplain Hfind Hpw Hlen Hbcrypt Hname Hpass Hid Hnot. cbv zeta.
  rewrite (postChangePassword_run req w u pw Hs Hrole Hplain Hpw Hlen). cbn [fst snd].
  split; [reflexivity|].
  unfold postLogin, catch500, tryCatch. cbv zeta. rewrite Hname, Hpass.
  apply String.eqb_neq in Hnot. rewrite Hnot. cbn [andb].
  rewrite bind_run, (idRegExp_upper name (userId u) Hid Hplain). cbn [orThrow ret].
  rewrite bind_run. unfold Student_findOne.
  cbn [students setActivityLogs setStudents].
  rewrite (find_same _ (fun s => idMatches (userId u) (Student.id s))).
  2:{ intros x. rewrite idMatches_upper. apply idMatches_same, Hid. }
  rewrite (find_updated _ (Student_withPassword (bcryptHash pw) true) _ s Hfind).
  2:{ exact (find_true _ _ _ Hfind). }
  rewrite bind_run. cbn [Student.password Student_withPassword]. rewrite Hbcrypt.
  cbn [orThrow ret]. rewrite bind_run, logActivity_run. reflexivity.
Qed.

(** ** The startup passes *)

Lemma startup_students w :
  step Startup w
  = setStudents
      (updateAll photoMissing (Student_withStatus pending))
      (setStudents
         (updateAll
            (fun s => negb (String.eqb (Student.password s) "")
                      && (String.length (Student.password s) <? 50)%nat)
            (fun s => Student_withPassword (bcryptHash (Student.password s))
                        (Student.passwordChanged s) s)) w).
Proof. reflexivity. Qed.

Lemma updateAll_twice {A} (p : A -> bool) (f : A -> A) l :
  (forall x, p x = true -> p (f x) = true -> f (f x) = f x) ->
  updateAll p f (updateAll p f l) = updateAll p f l.
Proof.
  intros Hf. unfold updateAll. rewrite map_map. apply map_ext. intros x.
  destruct (p x) eqn:Hx; [|rewrite Hx; reflexivity].
  destruct (p (f x)) eqn:Hfx; [|reflexivity]. apply Hf; assumption.
Qed.

(** X14.  When the hashes of the platform are at least 50 characters long
    (bcrypt's are 60), running the startup passes a second time changes
    nothing: a migrated password is not hashed again and the sweep of
    records without a photo is idempotent. *)
Theorem startup_idempotent (w : World) :
  (forall s, 50 <= String.length (bcryptHash s)) ->
  step Startup (step Startup w) = step Startup w.
Proof.
  intros Hlong. rewrite !startup_students.
  set (short := fun s : Student.t => negb (String.eqb (Student.password s) "")
                      && (String.length (Student.password s) <? 50)%nat).
  set (hash := fun s : Student.t => Student_withPassword (bcryptHash (Student.password s))
                        (Student.passwordChanged s) s).
  unfold setStudents. cbn [students placements companies notifications activityLogs outbox nextId].
  f_equal.
  assert (Hswap : forall l, updateAll short hash (updateAll photoMissing (Student_withStatus pending) l)
                            = updateAll photoMissing (Student_withStatus pending) (updateAll short hash l)).
  { intros l. unfold updateAll. rewrite !map_map. apply map_ext. intros x.
    destruct (photoMissing x) eqn:Hp, (short x) eqn:Hsx; cbn; rewrite ?Hp, ?Hsx; try reflexivity.
    - replace (short (Student_withStatus pending x)) with (short x) by reflexivity.
      replace (photoMissing (hash x)) with (photoMissing x) by reflexivity.
      rewrite Hp, Hsx. reflexivity.
    - replace (short (Student_withStatus pending x)) with (short x) by reflexivity.
      rewrite Hsx. reflexivity.
    - replace (photoMissing (hash x)) with (photoMissing x) by reflexivity.
      rewrite Hp. reflexivity. }
  rewrite Hswap, updateAll_twice, updateAll_twice; [reflexivity| |].
  - intros x Hx Hhx. exfalso. unfold short, hash in Hhx. cbn in Hhx.
    apply andb_true_iff in Hhx as [_ Hlt]. apply Nat.leb_le in Hlt.
    specialize (Hlong (Student.password x)). lia.
  - intros x _ _. reflexivity.
Qed.

(** ** Reminders *)

Lemma sendReminders_run ps n w :
  exists mails,
    sendReminders ps n w
    = (inr (n + List.length mails),
       mkWorld (students w) (placements w) (companies w) (notifications w)
         (activityLogs w) (outbox w ++ mails)%list (nextId w))
    /\ List.length mails
       = List.length
           (List.filter (fun p => existsb (Student_idIs (Placement.studentId p)) (students w)) ps)
    /\ Forall (fun m => exists s p, In s (students w) /\ In p ps
                                    /\ Student.id s = Placement.studentId p
                                    /\ m = (reminderMail s p, gmailSend (reminderMail s p)))
         mails.
Proof.
  revert n w. induction ps as [|p r IH]; intros n w.
  - exists []. simpl. rewrite app_nil_r, Nat.add_0_r. destruct w. auto.
  - cbn [sendReminders]. rewrite bind_run. unfold Student_findOne.
    destruct (List.find (Student_idIs (Placement.studentId p)) (students w)) as [s|] eqn:Hs.
    + rewrite bind_run. unfold sendEmail.
      set (e := mkEmail _ _ _).
      destruct (IH (S n) (setOutbox (fun l => (l ++ [(e, gmailSend e)])%list) w))
        as (mails & Hrun & Hlen & Hall).
      exists ((e, gmailSend e) :: mails). rewrite Hrun.
      cbn [students placements companies notifications activityLogs outbox nextId setOutbox].
      rewrite <- app_assoc. cbn [List.length List.app]. split; [f_equal; f_equal; lia|].
      split.
      * cbn [List.filter].
        assert (Hex : existsb (Student_idIs (Placement.studentId p)) (students w) = true).
        { apply existsb_exists. exists s. split; [exact (find_In _ _ _ Hs)|].
          exact (find_true _ _ _ Hs). }
        rewrite Hex. cbn [List.length]. f_equal. exact Hlen.
      * constructor.
        -- exists s, p. split; [exact (find_In _ _ _ Hs)|]. split; [left; reflexivity|].
           split; [|reflexivity].
           apply find_true in Hs. unfold Student_idIs in Hs. apply String.eqb_eq, Hs.
        -- eapply Forall_impl; [exact Hall|]. cbn.
           intros m (s' & p' & Hs' & Hp' & Hid & Hm). exists s', p'. auto.
    + destruct (IH n w) as (mails & Hrun & Hlen & Hall). exists mails. rewrite Hrun.
      split; [reflexivity|]. split.
      * cbn [List.filter].
        assert (Hex : existsb (Student_idIs (Placement.studentId p)) (students w) = false).
        { destruct (existsb _ (students w)) eqn:Hex; [|reflexivity].
          apply existsb_exists in Hex as (x & Hx & Hpx).
          pose proof (List.find_none _ _ Hs x Hx) as Hno. congruence. }
        rewrite Hex. exact Hlen.
      * eapply Forall_impl; [exact Hall|]. cbn.
        intros m (s' & p' & Hs' & Hp' & Hid & Hm). exists s', p'. auto.
Qed.

(** X15.  POST /api/admin/send-pending-reminders by an admin changes no
    record.  It hands one reminder to the mailer for every pending,
    non-original Placement whose [studentId] is exactly the id of a Student
    record, addressed to that student, and none for the others; the
    [count] of the answer is the number of mails handed over, whether or
    not the Gmail call succeeded, and [total] the number of such
    placements.  With no such placement nothing at all is written, not
    even an activity-log entry. *)
Theorem reminders_only_send_mail (req : Request) (w : World) :
  hasRole req "admin" = true ->
  let waiting := List.filter awaitingVerification (placements w) in
  let out := postSendPendingReminders req w in
  exists mails,
    students (snd out) = students w
    /\ placements (snd out) = placements w
    /\ companies (snd out) = companies w
    /\ notifications (snd out) = notifications w
    /\ outbox (snd out) = (outbox w ++ mails)%list
    /\ List.length mails
       = List.length
           (List.filter (fun p => existsb (Student_idIs (Placement.studentId p)) (students w))
              waiting)
    /\ Forall (fun m => exists s p, In s (students w) /\ In p waiting
                                    /\ Student.id s = Placement.studentId p
                                    /\ m = (reminderMail s p, gmailSend (reminderMail s p)))
         mails
    /\ fst out
       = inr (session req,
              Json 200 (SuccessCount (List.length mails) (List.length waiting)
                          (match waiting with
                           | [] => Some "No pending placements found"
                           | _ => None
                           end)))
    /\ (waiting = [] -> snd out = w).
Proof.
  intros Hrole. cbv zeta. unfold postSendPendingReminders, requireAdmin. rewrite Hrole.
  unfold catch500, tryCatch. rewrite bind_run. cbn [get]. cbv zeta.
  change (List.filter _ (placements w)) with (List.filter awaitingVerification (placements w)).
  destruct (List.filter awaitingVerification (placements w)) as [|p0 r0] eqn:Hwait.
  - exists []. cbn. rewrite app_nil_r. repeat split; constructor.
  - rewrite bind_run.
    destruct (sendReminders_run (p0 :: r0) 0 w) as (mails & Hrun & Hlen & Hall).
    rewrite Hrun. exists mails. rewrite bind_run, logActivity_run. unfold send.
    cbn [fst snd ret students placements companies notifications outbox setActivityLogs
         Nat.add].
    repeat split; try assumption. discriminate.
Qed.

(** ** Marking every notification as read *)

Lemma postNotificationsRead_all req w u :
  session req = Some u ->
  valueTruthy (body req "id") = false ->
  postNotificationsRead req w
  = (inr (session req, Json 200 Success),
     setNotifications
       (updateAll (fun n => String.eqb (Notification.recipient n) (recipientOf u)
                            && negb (Notification.read n))
          (Notification_withRead true)) w).
Proof.
  intros Hs Hid. unfold postNotificationsRead, catch500, tryCatch.
  rewrite Hs. cbv zeta. rewrite Hid. rewrite bind_run. unfold send. rewrite Hs.
  reflexivity.
Qed.

Lemma filter_updateAll_untouched {A} (p q : A -> bool) (f : A -> A) l :
  (forall x, q x = true -> p x = false) ->
  (forall x, p x = true -> q (f x) = false) ->
  List.filter q (updateAll p f l) = List.filter q l.
Proof.
  intros Hq Hf. induction l as [|x r IH]; [reflexivity|].
  unfold updateAll in *. simpl. destruct (p x) eqn:Hp.
  - rewrite (Hf x Hp). destruct (q x) eqn:Hqx; [|exact IH].
    rewrite (Hq x Hqx) in Hp. discriminate.
  - rewrite IH. reflexivity.
Qed.

(** X16.  POST /api/notifications/read without an id marks everything of
    the caller as read: the caller's unread count, as GET
    /api/notifications computes it, becomes 0; no notification is added
    or removed, and those addressed to anyone else are left exactly as
    they were, so nobody else's unread count moves. *)
Theorem mark_all_read (req : Request) (w : World) (u : SessionUser) :
  session req = Some u ->
  valueTruthy (body req "id") = false ->
  let out := postNotificationsRead req w in
  fst out = inr (session req, Json 200 Success)
  /\ unreadCount (recipientOf u) (snd out) = 0
  /\ map Notification._id (notifications (snd out)) = map Notification._id (notifications w)
  /\ (forall r, r <> recipientOf u ->
        List.filter (fun n => String.eqb (Notification.recipient n) r) (notifications (snd out))
        = List.filter (fun n => String.eqb (Notification.recipient n) r) (notifications w))
  /\ (forall r, r <> recipientOf u -> unreadCount r (snd out) = unreadCount r w).
Proof.
  intros Hs Hid. cbv zeta. rewrite (postNotificationsRead_all req w u Hs Hid).
  cbn [fst snd]. unfold unreadCount. cbn [notifications setNotifications].
  set (mine := fun n => String.eqb (Notification.recipient n) (recipientOf u)
                        && negb (Notification.read n)).
  split; [reflexivity|]. split; [|split; [|split]].
  - assert (Hm : forall n, mine (Notification_withRead true n) = false).
    { intros n. unfold mine. cbn. apply andb_false_r. }
    induction (notifications w) as [|n r IH]; [reflexivity|].
    cbn [updateAll map List.filter] in *.
    destruct (mine n) eqn:Hn.
    + rewrite Hm. exact IH.
    + rewrite Hn. exact IH.
  - unfold updateAll. rewrite map_map. apply map_ext. intros n.
    destruct (mine n); reflexivity.
  - intros r Hr. apply filter_updateAll_untouched; intros n Hn.
    + unfold mine.
      destruct (String.eqb_spec (Notification.recipient n) (recipientOf u)) as [He|_];
        [|reflexivity].
      apply String.eqb_eq in Hn. congruence.
    + apply andb_true_iff in Hn as [Hn _]. apply String.eqb_eq in Hn.
      apply String.eqb_neq. cbn. congruence.
  - intros r Hr. f_equal. apply filter_updateAll_untouched; intros n Hn.
    + apply andb_true_iff in Hn as [Hn _]. unfold mine.
      destruct (String.eqb_spec (Notification.recipient n) (recipientOf u)) as [He|_];
        [|reflexivity].
      apply String.eqb_eq in Hn. congruence.
    + cbn. apply andb_false_r.
Qed.

(** ** Creating a student *)

Lemma idMatches_refl_upper sid : idMatches sid (JS.toUpperCase sid) = true.
Proof. unfold idMatches. rewrite toLowerCase_toUpperCase. apply String.eqb_refl. Qed.

Lemma postStudentsCreate_run req w sid nm :
  hasRole req "admin" = true ->
  body req "id" = JStr sid ->
  sid <> "" ->
  plainId sid = true ->
  List.find (fun s => idMatches sid (Student.id s)) (students w) = None ->
  (if valueTruthy (body req "name") then castString (body req "name")
   else Some (Some "Student")) = Some nm ->
  postStudentsCreate req w
  = (inr (session req, Json 200 Success),
     mkWorld (students w ++ [createdStudent w sid nm])%list (placements w) (companies w)
       (notifications w)
       (activityLogs w ++ [createdEntry req sid (toStr (body req "name"))])%list
       (outbox w
          ++ [(welcomeMail sid (toStr (body req "name")),
               gmailSend (welcomeMail sid (toStr (body req "name"))))])%list
       (S (nextId w))).
Proof.
  intros Hrole Hid Hne Hplain Hnone Hnm. unfold postStudentsCreate, requireAdmin. rewrite Hrole.
  unfold catch500, tryCatch. cbv zeta. rewrite Hid.
  assert (Htruthy : valueTruthy (JStr sid : value) = true).
  { simpl. apply negb_true_iff, String.eqb_neq, Hne. }
  rewrite Htruthy. cbn [negb toStr].
  rewrite bind_run, (idRegExp_plain _ Hplain). cbn [orThrow ret].
  rewrite bind_run. unfold Student_findOne.
  rewrite Hnone. rewrite bind_run. unfold Student_saveNew. rewrite Hnm.
  rewrite bind_run. cbn [orThrow ret]. rewrite bind_run. cbn [get].
  assert (Hnew : existsb (Student_idIs (JS.toUpperCase sid)) (students w) = false).
  { destruct (existsb _ (students w)) eqn:Hex; [|reflexivity].
    apply existsb_exists in Hex as (x & Hx & Hpx). unfold Student_idIs in Hpx.
    apply String.eqb_eq in Hpx. pose proof (List.find_none _ _ Hnone x Hx) as Hno.
    cbv beta in Hno. rewrite Hpx, idMatches_refl_upper in Hno. discriminate. }
  rewrite Hnew. reflexivity.
Qed.

(** X25.  A student created by an admin with POST /api/students/create
    (an id made of letters and digits that no record has, in any case;
    the id goes unescaped into the patterns of the routes) is stored with the id in upper
    case, the hash of the default password and status [verified], though
    the record has no photo.  The student can then log in with the id in
    any case and the default password; and the next run of the startup
    passes makes the record pending, as it has no photo. *)
Theorem created_student_logs_in (req login : Request) (w : World) (sid name : string)
    (nm : option string) :
  hasRole req "admin" = true ->
  body req "id" = JStr sid ->
  sid <> "" ->
  plainId sid = true ->
  List.find (fun s => idMatches sid (Student.id s)) (students w) = None ->
  (if valueTruthy (body req "name") then castString (body req "name")
   else Some (Some "Student")) = Some nm ->
  bcryptCompare (JStr "Welcome@123") (bcryptHash "Welcome@123") = Some true ->
  body login "username" = JStr name ->
  body login "password" = JStr "Welcome@123" ->
  idMatches name sid = true ->
  JS.toUpperCase name <> "ADMIN001" ->
  let created := postStudentsCreate req w in
  fst created = inr (session req, Json 200 Success)
  /\ students (snd created) = (students w ++ [createdStudent w sid nm])%list
  /\ Student.verificationStatus (createdStudent w sid nm) = verified
  /\ fst (postLogin login (snd created))
     = inr (Some (mkUser (JS.toUpperCase sid) nm "student" false None),
            Json 200 (SuccessRole "student"))
  /\ (forall s', In s' (students (step Startup (snd created))) ->
                 Student.id s' = JS.toUpperCase sid ->
                 Student.verificationStatus s' = pending).
Proof.
  intros Hrole Hid Hne Hplain Hnone Hnm Hbcrypt Hname Hpass Hmatch Hnot. cbv zeta.
  rewrite (postStudentsCreate_run req w sid nm Hrole Hid Hne Hplain Hnone Hnm).
  cbn [fst snd students]. split; [reflexivity|]. split; [reflexivity|].
  split; [reflexivity|]. split.
  - unfold postLogin, catch500, tryCatch. cbv zeta. rewrite Hname, Hpass.
    apply String.eqb_neq in Hnot. rewrite Hnot. cbn [andb].
    rewrite bind_run, (idRegExp_upper name sid Hmatch Hplain). cbn [orThrow ret].
    rewrite bind_run. unfold Student_findOne. cbn [students].
    rewrite (find_same _ (fun s => idMatches sid (Student.id s))).
    2:{ intros x. rewrite idMatches_upper. apply idMatches_same, Hmatch. }
    rewrite find_app_none by (intros x Hx; exact (List.find_none _ _ Hnone x Hx)).
    cbn [List.find createdStudent Student.id]. rewrite idMatches_refl_upper.
    rewrite bind_run. cbn [Student.password createdStudent]. rewrite Hbcrypt.
    cbn [orThrow ret]. rewrite bind_run, logActivity_run. reflexivity.
  - intros s' Hs' Hsid. rewrite startup_students in Hs'. cbn [students setStudents] in Hs'.
    unfold updateAll in Hs'. rewrite map_map in Hs'.
    apply in_map_iff in Hs' as (y & Hy & Hin).
    assert (Hidy : Student.id s' = Student.id y).
    { subst s'. destruct (_ && _); destruct (photoMissing _); reflexivity. }
    apply in_app_or in Hin as [Hin|[<-|[]]].
    + exfalso. pose proof (List.find_none _ _ Hnone y Hin) as Hno. cbv beta in Hno.
      rewrite <- Hidy, Hsid, idMatches_refl_upper in Hno. discriminate.
    + subst s'. destruct (_ && _); reflexivity.
Qed.

(** ** Relations kept by every computation of the server *)

Section Respects.
Context (R : World -> World -> Prop) (HR : PreOrder R).

Lemma respects_ret {A} (a : A) : respects R (ret a).
Proof. intros w. reflexivity. Qed.

Lemma respects_throw {A} e : respects R (@throw _ A e).
Proof. intros w. reflexivity. Qed.

Lemma respects_get : respects R get.
Proof. intros w. reflexivity. Qed.

Lemma respects_orThrow {A} e (o : option A) : respects R (orThrow e o).
Proof. destruct o; intros w; reflexivity. Qed.

Lemma respects_send req r : respects R (send req r).
Proof. intros w. reflexivity. Qed.

Lemma respects_Student_findOne p : respects R (Student_findOne p).
Proof. intros w. reflexivity. Qed.

Lemma respects_bind {A B} (m : M A) (k : A -> M B) :
  respects R m -> (forall a, respects R (k a)) -> respects R (bind m k).
Proof.
  intros Hm Hk w. unfold bind. specialize (Hm w).
  destruct (m w) as [[e|a] w']; simpl in *; [exact Hm|].
  etransitivity; [exact Hm|apply Hk].
Qed.

Lemma respects_tryCatch {A} (m : M A) (h : exn -> M A) :
  respects R m -> (forall e, respects R (h e)) -> respects R (tryCatch m h).
Proof.
  intros Hm Hh w. unfold tryCatch. specialize (Hm w).
  destruct (m w) as [[e|a] w']; simpl in *; [|exact Hm].
  etransitivity; [exact Hm|apply Hh].
Qed.

Lemma respects_catch500 req (m : M Outcome) : respects R m -> respects R (catch500 req m).
Proof. intros Hm. apply respects_tryCatch; [exact Hm|]. intros e. apply respects_send. Qed.

Lemma respects_sendReminders ps n :
  (forall to subject html, respects R (sendEmail to subject html)) ->
  respects R (sendReminders ps n).
Proof.
  intros Hmail. revert n. induction ps as [|p r IH]; intros n; simpl; [apply respects_ret|].
  apply respects_bind; [apply respects_Student_findOne|]. intros [s|]; [|apply IH].
  apply respects_bind; [apply Hmail|]. intros _. apply IH.
Qed.

Lemma respects_dispatch req ls :
  Forall (fun l => match l with
                   | Route m pat h =>
                       forall ps, methodMatches m (method req) = true ->
                                  matchPath pat (path req) = Some ps ->
                                  respects R (h ps req)
                   | Static _ => True
                   end) ls ->
  forall m, dispatch ls req = Some m -> respects R m.
Proof.
  induction 1 as [|l ls Hl Hls IH]; simpl; [discriminate|].
  intros m. destruct l as [rm pat h|mount].
  - destruct (methodMatches rm (method req)) eqn:Hm; [|apply IH].
    destruct (matchPath pat (path req)) as [ps|] eqn:Hp; [|apply IH].
    intros [= <-]. exact (Hl ps eq_refl eq_refl).
  - destruct (path req) as [|x sub]; [apply IH|].
    destruct (_ && _); [|apply IH]. intros [= <-]. apply respects_send.
Qed.

Lemma respects_serve req :
  Forall (fun l => match l with
                   | Route m pat h =>
                       forall ps, methodMatches m (method req) = true ->
                                  matchPath pat (path req) = Some ps ->
                                  respects R (h ps req)
                   | Static _ => True
                   end) layers ->
  respects R (serve req).
Proof.
  intros Hl. unfold serve. destruct (bool_decide _); [apply respects_send|].
  destruct (dispatch layers req) as [m|] eqn:Hd.
  - exact (respects_dispatch req layers Hl m Hd).
  - apply respects_send.
Qed.

Lemma respects_run (ok : event -> bool) es w :
  (forall e w, ok e = true -> R w (step e w)) ->
  Forall (fun e => ok e = true) es -> R w (run es w).
Proof.
  intros Hstep Hes. revert w. induction Hes as [|e es He Hes IH]; intros w; [reflexivity|].
  unfold run. simpl. etransitivity; [exact (Hstep e w He)|]. apply IH.
Qed.

End Respects.

(** The structure of a handler is walked; [leaf] closes what is left. *)
Ltac walk leaf :=
  cbv zeta;
  lazymatch goal with
  | |- respects ?R (bind _ _) =>
      apply (respects_bind R _); [walk leaf|intros ?; walk leaf]
  | |- respects ?R (tryCatch _ _) =>
      apply (respects_tryCatch R _); [walk leaf|intros ?; walk leaf]
  | |- respects ?R (catch500 _ _) => apply (respects_catch500 R _); walk leaf
  | |- respects ?R (ret _) => apply (respects_ret R _)
  | |- respects ?R (throw _) => apply (respects_throw R _)
  | |- respects ?R get => apply (respects_get R _)
  | |- respects ?R (orThrow _ _) => apply (respects_orThrow R _)
  | |- respects ?R (send _ _) => apply (respects_send R _)
  | |- respects ?R (Student_findOne _) => apply (respects_Student_findOne R _)
  | |- respects _ (Placement_create _ _ _ _ _ _ _ _) => unfold Placement_create; walk leaf
  | |- respects _ (Student_findByIdAndUpdate _ _) =>
      unfold Student_findByIdAndUpdate; walk leaf
  | |- respects _ (Student_saveNew _ _ _) => unfold Student_saveNew; walk leaf
  | |- respects _ (Placement_findByIdAndUpdate _ _) =>
      unfold Placement_findByIdAndUpdate; walk leaf
  | |- respects _ (if ?b then _ else _) => destruct b; walk leaf
  | |- respects _ (match ?x with _ => _ end) => destruct x; walk leaf
  | |- _ => leaf
  end.

Ltac open_route ps :=
  unfold plain, withId; cbv beta;
  lazymatch goal with
  | |- context [match ps with _ => _ end] => destruct ps
  | |- _ => idtac
  end.

Ltac unfold_handlers :=
  unfold getHealthz, readOnly, getTestEmail, getNotifications,
    postNotificationsRead, getFavicon, getRoot, getLogin, postLogin,
    postChangePassword, getLogout, postPlacements, deletePlacement, postUploadPhoto,
    postStudentsCreate, putStudent, deleteStudent, postAdminVerify,
    postSendPendingReminders, postCompanies, deleteCompany,
    requireAdmin, requireLogin, requireStudent.

(** ** The logs, the mails and the notifications only grow *)

Lemma readLater_refl l : Forall2 readLater l l.
Proof. induction l; constructor; [left; reflexivity|assumption]. Qed.

Lemma readLater_trans l1 l2 l3 :
  Forall2 readLater l1 l2 -> Forall2 readLater l2 l3 -> Forall2 readLater l1 l3.
Proof.
  intros H12. revert l3. induction H12 as [|a b r1 r2 Hab _ IH]; intros l3 H23.
  - inversion H23. constructor.
  - inversion H23 as [|b' c r2' r3 Hbc Hr]; subst. constructor; [|apply IH, Hr].
    destruct Hab as [-> | ->], Hbc as [-> | ->]; [left|right|right|right]; reflexivity.
Qed.

Lemma grows_preorder : PreOrder grows.
Proof.
  split.
  - intros w. split; [|split].
    + exists []. rewrite app_nil_r. reflexivity.
    + exists []. rewrite app_nil_r. reflexivity.
    + exists (notifications w), []. rewrite app_nil_r. split; [reflexivity|apply readLater_refl].
  - intros w1 w2 w3 ((l12 & Hl12) & (o12 & Ho12) & (old & new & Hn12 & Hf12))
                     ((l23 & Hl23) & (o23 & Ho23) & (old' & new' & Hn23 & Hf23)).
    split; [|split].
    + exists (l12 ++ l23)%list. rewrite Hl23, Hl12, app_assoc. reflexivity.
    + exists (o12 ++ o23)%list. rewrite Ho23, Ho12, app_assoc. reflexivity.
    + rewrite Hn12 in Hf23. apply Forall2_app_inv_l in Hf23 as (o1 & o2 & Ho1 & Ho2 & ->).
      exists o1, (o2 ++ new')%list. rewrite Hn23, app_assoc. split; [reflexivity|].
      exact (readLater_trans _ _ _ Hf12 Ho1).
Qed.

#[local] Existing Instance grows_preorder.

Lemma grows_same w w' :
  activityLogs w' = activityLogs w -> outbox w' = outbox w ->
  notifications w' = notifications w -> grows w w'.
Proof.
  intros Hl Ho Hn. split; [|split].
  - exists []. rewrite app_nil_r. exact Hl.
  - exists []. rewrite app_nil_r. exact Ho.
  - exists (notifications w), []. rewrite app_nil_r. split; [exact Hn|apply readLater_refl].
Qed.

Lemma grows_notifications w l :
  Forall2 readLater (notifications w) l -> grows w (setNotifications (fun _ => l) w).
Proof.
  intros Hl. split; [|split].
  - exists []. rewrite app_nil_r. reflexivity.
  - exists []. rewrite app_nil_r. reflexivity.
  - exists l, []. rewrite app_nil_r. split; [reflexivity|exact Hl].
Qed.

Lemma readLater_updateFirst p l :
  Forall2 readLater l (snd (updateFirst p (Notification_withRead true) l)).
Proof.
  induction l as [|n r IH]; simpl; [constructor|].
  destruct (p n).
  - simpl. constructor; [right; reflexivity|apply readLater_refl].
  - destruct (updateFirst p _ r) as [o r']. simpl in *. constructor; [left; reflexivity|exact IH].
Qed.

Lemma readLater_updateAll p l :
  Forall2 readLater l (updateAll p (Notification_withRead true) l).
Proof.
  induction l as [|n r IH]; simpl; [constructor|].
  constructor; [|exact IH]. destruct (p n); [right|left]; reflexivity.
Qed.

Lemma grows_sendEmail to subject html : respects grows (sendEmail to subject html).
Proof.
  intros w. split; [|split]; simpl.
  - exists []. rewrite app_nil_r. reflexivity.
  - eexists. reflexivity.
  - exists (notifications w), []. rewrite app_nil_r. split; [reflexivity|apply readLater_refl].
Qed.

Lemma grows_logActivity req action details : respects grows (logActivity req action details).
Proof.
  intros w. split; [|split]; simpl.
  - eexists. reflexivity.
  - exists []. rewrite app_nil_r. reflexivity.
  - exists (notifications w), []. rewrite app_nil_r. split; [reflexivity|apply readLater_refl].
Qed.

Lemma grows_createNotification recipient title message type :
  respects grows (createNotification recipient title message type).
Proof.
  intros w. rewrite createNotification_run. split; [|split]; simpl.
  - exists []. rewrite app_nil_r. reflexivity.
  - exists []. rewrite app_nil_r. reflexivity.
  - eexists _, _. split; [reflexivity|apply readLater_refl].
Qed.

Lemma grows_Notification_findByIdAndUpdate id :
  respects grows (Notification_findByIdAndUpdate id (Notification_withRead true)).
Proof.
  unfold Notification_findByIdAndUpdate.
  apply (respects_bind grows _); [apply (respects_orThrow grows _)|].
  intros oid w.
  pose proof (readLater_updateFirst (Notification_byId oid) (notifications w)) as Hl.
  destruct (updateFirst _ _ (notifications w)) as [o l]. simpl in *.
  apply grows_notifications, Hl.
Qed.

Lemma grows_Notification_updateMany p :
  respects grows (Notification_updateMany p (Notification_withRead true)).
Proof.
  intros w. simpl.
  change (setNotifications _ w)
    with (setNotifications (fun _ => updateAll p (Notification_withRead true) (notifications w)) w).
  apply grows_notifications, readLater_updateAll.
Qed.

(** What is left writes neither the log, nor the mails, nor the
    notifications. *)
Ltac grows_quiet :=
  let w := fresh "w" in
  intros w;
  unfold Student_findOneAndUpdate, Student_findOneAndDelete, Student_updateMany,
    Student_saveNew, Placement_findByIdAndUpdate, Placement_deleteOne,
    Placement_deleteMany, freshId, modify, bind, orThrow, get, ret, throw;
  repeat match goal with
         | |- context [match ?x with _ => _ end] => destruct x
         | |- context [if ?b then _ else _] => destruct b
         end;
  apply grows_same; reflexivity.

Ltac grows_leaf :=
  first
    [ apply grows_sendEmail
    | apply grows_logActivity
    | apply grows_createNotification
    | apply grows_Notification_findByIdAndUpdate
    | apply grows_Notification_updateMany
    | apply (respects_sendReminders grows _); intros; apply grows_sendEmail
    | grows_quiet ].

Lemma grows_layers req :
  Forall (fun l => match l with
                   | Route m pat h =>
                       forall ps, methodMatches m (method req) = true ->
                                  matchPath pat (path req) = Some ps ->
                                  respects grows (h ps req)
                   | Static _ => True
                   end) layers.
Proof.
  unfold layers.
  repeat (apply Forall_cons; split;
          [ first [ exact I
                  | intros ps _ _; open_route ps; unfold_handlers; walk grows_leaf ]
          | ]).
  constructor.
Qed.

Lemma grows_startup : respects grows (migratePasswords ;; checkStudentVerification).
Proof. unfold migratePasswords, checkStudentVerification. walk grows_leaf. Qed.

(** X17.  Over any sequence of requests and restarts, the activity log and
    the list of mails handed to the mailer are only extended at the end,
    and no notification is removed, reordered or rewritten: the ones that
    were there stay in place, changed at most by [read] being set, and new
    ones come after them. *)
Theorem run_only_appends (es : list event) (w : World) : grows w (run es w).
Proof.
  apply (respects_run grows _ (fun _ => true)); [|apply Forall_forall; reflexivity].
  intros [req|] w0 _.
  - exact (respects_serve grows _ req (grows_layers req) w0).
  - exact (grows_startup w0).
Qed.

(** ** Verification needs the admin role *)

Lemma sameOrPending_refl l : Forall2 sameOrPending l l.
Proof. induction l; constructor; [repeat split; left; reflexivity|assumption]. Qed.

Lemma sameOrPending_trans l1 l2 l3 :
  Forall2 sameOrPending l1 l2 -> Forall2 sameOrPending l2 l3 -> Forall2 sameOrPending l1 l3.
Proof.
  intros H12. revert l3. induction H12 as [|a b r1 r2 Hab _ IH]; intros l3 H23.
  - inversion H23. constructor.
  - inversion H23 as [|b' c r2' r3 Hbc Hr]; subst. constructor; [|apply IH, Hr].
    destruct Hab as (Ha1 & Ha2 & Ha3), Hbc as (Hb1 & Hb2 & Hb3).
    split; [congruence|]. split; [congruence|].
    destruct Hb3 as [Hb3|Hb3]; [|right; exact Hb3].
    destruct Ha3 as [Ha3|Ha3]; [left|right]; congruence.
Qed.

Lemma statusKept_preorder : PreOrder statusKept.
Proof.
  split.
  - intros w. split; [apply sameOrPending_refl|]. intros p Hp. left. exact Hp.
  - intros w1 w2 w3 [Hs12 Hp12] [Hs23 Hp23]. split.
    + exact (sameOrPending_trans _ _ _ Hs12 Hs23).
    + intros p Hp. destruct (Hp23 p Hp) as [Hin|Hpen]; [apply Hp12, Hin|right; exact Hpen].
Qed.

#[local] Existing Instance statusKept_preorder.

Lemma statusKept_same w w' :
  students w' = students w -> placements w' = placements w -> statusKept w w'.
Proof.
  intros Hs Hp. split; [rewrite Hs; apply sameOrPending_refl|].
  rewrite Hp. intros p Hin. left. exact Hin.
Qed.

Lemma sameOrPending_updateFirst p f l :
  (forall s, sameOrPending s (f s)) ->
  Forall2 sameOrPending l (snd (updateFirst p f l)).
Proof.
  intros Hf. induction l as [|s r IH]; simpl; [constructor|].
  destruct (p s).
  - simpl. constructor; [apply Hf|apply sameOrPending_refl].
  - destruct (updateFirst p f r) as [o r']. simpl in *.
    constructor; [repeat split; left; reflexivity|exact IH].
Qed.

Lemma sameOrPending_updateAll p f l :
  (forall s, sameOrPending s (f s)) ->
  Forall2 sameOrPending l (updateAll p f l).
Proof.
  intros Hf. induction l as [|s r IH]; simpl; [constructor|].
  constructor; [|exact IH]. destruct (p s); [apply Hf|repeat split; left; reflexivity].
Qed.

Lemma statusKept_Student_findOneAndUpdate p f :
  (forall s, sameOrPending s (f s)) ->
  respects statusKept (Student_findOneAndUpdate p f).
Proof.
  intros Hf w. unfold Student_findOneAndUpdate.
  pose proof (sameOrPending_updateFirst p f (students w) Hf) as Hl.
  destruct (updateFirst p f (students w)) as [o l]. simpl in *.
  split; [exact Hl|]. intros q Hq. left. exact Hq.
Qed.

Lemma statusKept_Student_updateMany p f :
  (forall s, sameOrPending s (f s)) ->
  respects statusKept (Student_updateMany p f).
Proof.
  intros Hf w. simpl. split; [apply sameOrPending_updateAll, Hf|].
  intros q Hq. left. exact Hq.
Qed.

Lemma statusKept_addPlacement q :
  Placement.verificationStatus q = pending ->
  respects statusKept (modify (setPlacements (fun l => (l ++ [q])%list))).
Proof.
  intros Hq w. simpl. split; [apply sameOrPending_refl|].
  intros p Hp. apply in_app_or in Hp as [Hp|[<-|[]]]; [left; exact Hp|right; exact Hq].
Qed.

Lemma statusKept_Placement_deleteOne p : respects statusKept (Placement_deleteOne p).
Proof.
  intros w. unfold Placement_deleteOne.
  pose proof (In_removeFirst p (placements w)) as Hl.
  destruct (removeFirst p (placements w)) as [o l]. simpl in *.
  split; [apply sameOrPending_refl|]. intros q Hq. left. apply Hl, Hq.
Qed.

Lemma statusKept_Notification_findByIdAndUpdate id f :
  respects statusKept (Notification_findByIdAndUpdate id f).
Proof.
  unfold Notification_findByIdAndUpdate.
  apply (respects_bind statusKept _); [apply (respects_orThrow statusKept _)|].
  intros oid w. destruct (updateFirst _ _ (notifications w)) as [o l].
  apply statusKept_same; reflexivity.
Qed.

Ltac status_quiet :=
  let w := fresh "w" in
  intros w;
  unfold Notification_findByIdAndUpdate, Notification_updateMany, createNotification,
    Notification_create, logActivity, ActivityLog_create, sendEmail, tryCatch,
    freshId, modify, bind, orThrow, get, ret, throw;
  repeat match goal with
         | |- context [match ?x with _ => _ end] => destruct x
         | |- context [if ?b then _ else _] => destruct b
         end;
  apply statusKept_same; reflexivity.

Ltac status_leaf :=
  first
    [ apply statusKept_Student_findOneAndUpdate; intros ?; repeat split; auto
    | apply statusKept_Student_updateMany; intros ?; repeat split; auto
    | apply statusKept_addPlacement; reflexivity
    | apply statusKept_Placement_deleteOne
    | apply statusKept_Notification_findByIdAndUpdate
    | apply (respects_sendReminders statusKept _); intros; status_quiet
    | status_quiet ].

Lemma statusKept_layers req :
  hasRole req "admin" = false ->
  Forall (fun l => match l with
                   | Route m pat h =>
                       forall ps, methodMatches m (method req) = true ->
                                  matchPath pat (path req) = Some ps ->
                                  respects statusKept (h ps req)
                   | Static _ => True
                   end) layers.
Proof.
  intros Hna. unfold layers.
  repeat (apply Forall_cons; split;
          [ first [ exact I
                  | intros ps _ _; open_route ps; unfold_handlers; rewrite ?Hna;
                    walk status_leaf ]
          | ]).
  constructor.
Qed.

Lemma statusKept_startup : respects statusKept (migratePasswords ;; checkStudentVerification).
Proof. unfold migratePasswords, checkStudentVerification. walk status_leaf. Qed.

(** X18.  Verification needs the admin role.  Over any sequence of
    restarts and of requests whose session does not have the admin role
    (students, and callers who are not logged in), no Student record is
    added or removed, every Student record keeps its id and has the
    status it had or [pending], and every Placement is one that was there,
    unchanged, or is pending: nothing becomes verified or rejected. *)
Theorem status_moves_need_admin (es : list event) (w : World) :
  Forall (fun e => notByAdmin e = true) es ->
  statusKept w (run es w).
Proof.
  apply (respects_run statusKept _ notByAdmin).
  intros [req|] w0 Hok.
  - apply negb_true_iff in Hok.
    exact (respects_serve statusKept _ req (statusKept_layers req Hok) w0).
  - exact (statusKept_startup w0).
Qed.

(** ** Student ids stay unique *)

Lemma keepsUnique_preorder : PreOrder keepsUnique.
Proof. split; [intros w Hw; exact Hw|intros w1 w2 w3 H12 H23 Hw; auto]. Qed.

#[local] Existing Instance keepsUnique_preorder.

Lemma keepsUnique_same w w' : students w' = students w -> keepsUnique w w'.
Proof. intros Hs Hw. unfold uniqueIds. rewrite Hs. exact Hw. Qed.

Lemma ids_updateFirst p (f : Student.t -> Student.t) l :
  (forall s, Student.id (f s) = Student.id s) ->
  map (fun s => JS.toLowerCase (Student.id s)) (snd (updateFirst p f l))
  = map (fun s => JS.toLowerCase (Student.id s)) l.
Proof.
  intros Hf. induction l as [|s r IH]; simpl; [reflexivity|].
  destruct (p s).
  - simpl. rewrite Hf. reflexivity.
  - destruct (updateFirst p f r) as [o r']. simpl in *. rewrite IH. reflexivity.
Qed.

Lemma ids_updateAll p (f : Student.t -> Student.t) l :
  (forall s, Student.id (f s) = Student.id s) ->
  map (fun s => JS.toLowerCase (Student.id s)) (updateAll p f l)
  = map (fun s => JS.toLowerCase (Student.id s)) l.
Proof.
  intros Hf. unfold updateAll. rewrite map_map. apply map_ext. intros s.
  destruct (p s); [rewrite Hf|]; reflexivity.
Qed.

Lemma keepsUnique_Student_findOneAndUpdate p f :
  (forall s, Student.id (f s) = Student.id s) ->
  respects keepsUnique (Student_findOneAndUpdate p f).
Proof.
  intros Hf w Hw. unfold Student_findOneAndUpdate, uniqueIds in *.
  pose proof (ids_updateFirst p f (students w) Hf) as Hl.
  destruct (updateFirst p f (students w)) as [o l]. simpl in *. rewrite Hl. exact Hw.
Qed.

Lemma keepsUnique_Student_updateMany p f :
  (forall s, Student.id (f s) = Student.id s) ->
  respects keepsUnique (Student_updateMany p f).
Proof.
  intros Hf w Hw. unfold uniqueIds in *. simpl. rewrite ids_updateAll by exact Hf. exact Hw.
Qed.

Lemma NoDup_removeFirst {A B} (g : A -> B) (p : A -> bool) l :
  NoDup (map g l) -> NoDup (map g (snd (removeFirst p l))).
Proof.
  induction l as [|x r IH]; simpl; [auto|].
  intros Hnd. apply NoDup_cons in Hnd as [Hx Hr].
  destruct (p x); [exact Hr|].
  pose proof (In_removeFirst p r) as Hsub.
  destruct (removeFirst p r) as [o r']. simpl in *.
  apply NoDup_cons. split; [|exact (IH Hr)].
  intros Hin. apply Hx. apply list_elem_of_In in Hin. apply list_elem_of_In.
  apply in_map_iff in Hin as (y & Hy & Hin). apply in_map_iff. exists y. auto.
Qed.

Lemma keepsUnique_Student_findOneAndDelete p :
  respects keepsUnique (Student_findOneAndDelete p).
Proof.
  intros w Hw. unfold Student_findOneAndDelete, uniqueIds in *.
  pose proof (NoDup_removeFirst (fun s => JS.toLowerCase (Student.id s)) p (students w) Hw) as Hl.
  destruct (removeFirst p (students w)) as [o l]. simpl in *. exact Hl.
Qed.

Lemma keepsUnique_Notification_findByIdAndUpdate id f :
  respects keepsUnique (Notification_findByIdAndUpdate id f).
Proof.
  unfold Notification_findByIdAndUpdate.
  apply (respects_bind keepsUnique _); [apply (respects_orThrow keepsUnique _)|].
  intros oid w. destruct (updateFirst _ _ (notifications w)) as [o l].
  apply keepsUnique_same; reflexivity.
Qed.

Lemma keepsUnique_Placement_deleteOne p : respects keepsUnique (Placement_deleteOne p).
Proof.
  intros w. unfold Placement_deleteOne. destruct (removeFirst p (placements w)) as [o l].
  apply keepsUnique_same; reflexivity.
Qed.

Ltac unique_quiet :=
  let w := fresh "w" in
  intros w;
  unfold Notification_findByIdAndUpdate, Notification_updateMany, createNotification,
    Notification_create, logActivity, ActivityLog_create, sendEmail, tryCatch,
    Placement_deleteOne, Placement_deleteMany,
    freshId, modify, bind, orThrow, get, ret, throw;
  repeat match goal with
         | |- context [match ?x with _ => _ end] => destruct x
         | |- context [if ?b then _ else _] => destruct b
         end;
  apply keepsUnique_same; reflexivity.

Ltac unique_leaf :=
  first
    [ apply keepsUnique_Student_findOneAndUpdate; intros ?; reflexivity
    | apply keepsUnique_Student_updateMany; intros ?; reflexivity
    | apply keepsUnique_Student_findOneAndDelete
    | apply keepsUnique_Notification_findByIdAndUpdate
    | apply keepsUnique_Placement_deleteOne
    | apply (respects_sendReminders keepsUnique _); intros; unique_quiet
    | unique_quiet ].

(** A new record gets an id that no record has, up to case. *)
Lemma saveNew_unique sid name password w :
  List.find (fun s => idMatches sid (Student.id s)) (students w) = None ->
  keepsUnique w (snd (Student_saveNew (JS.toUpperCase sid) name password w)).
Proof.
  intros Hnone Hw. unfold Student_saveNew, bind, orThrow.
  destruct name as [nm|]; simpl; [|exact Hw].
  destruct (existsb _ (students w)); simpl; [exact Hw|].
  unfold uniqueIds in *. simpl. rewrite map_app. apply NoDup_app.
  split; [exact Hw|]. split; [|simpl; apply NoDup_singleton].
  intros k Hk Hnew. simpl in Hnew. apply list_elem_of_In in Hnew as [<-|[]].
  apply list_elem_of_In, in_map_iff in Hk as (s & Hs & Hin).
  pose proof (List.find_none _ _ Hnone s Hin) as Hno. cbv beta in Hno.
  unfold idMatches in Hno. rewrite toLowerCase_toUpperCase in Hs.
  rewrite Hs, String.eqb_refl in Hno. discriminate.
Qed.

Lemma keepsUnique_postStudentsCreate req :
  hasRole req "admin" = false \/ plainId (toStr (body req "id")) = true ->
  respects keepsUnique (postStudentsCreate req).
Proof.
  intros Hok. unfold postStudentsCreate, requireAdmin.
  destruct (hasRole req "admin"); [|walk unique_leaf].
  destruct Hok as [Hok|Hplain]; [discriminate Hok|].
  apply (respects_catch500 keepsUnique _). cbv zeta.
  destruct (negb (valueTruthy (body req "id"))); [apply (respects_send keepsUnique _)|].
  intros w. rewrite bind_run, (idRegExp_plain _ Hplain). cbn [orThrow ret].
  rewrite bind_run. unfold Student_findOne.
  destruct (List.find _ (students w)) as [s|] eqn:Hfind; [intros Hw; exact Hw|].
  destruct (body req "id") as [| |b|n|sid|]; try (intros Hw; exact Hw).
  cbn [toStr] in Hfind. rewrite bind_run.
  pose proof (saveNew_unique sid
                (if valueTruthy (body req "name") then castString (body req "name")
                 else Some (Some "Student"))
                (bcryptHash "Welcome@123") w Hfind) as Hsave.
  destruct (Student_saveNew _ _ _ w) as [[e|a] w']; cbn [snd] in *; [exact Hsave|].
  etransitivity; [exact Hsave|].
  assert (Hrest : respects keepsUnique
                    (logActivity req "CREATE_STUDENT"
                       ("Created student: " ++ sid ++ " (" ++ toStr (body req "name") ++ ")") ;;
                     sendEmail (Some (JS.toLowerCase sid ++ "@gniindia.org"))
                       "🌟 Exclusive Access: GNITC Special Batch Portal"
                       (WelcomeHtml (toStr (body req "name")) sid) ;;
                     send req (Json 200 Success))) by walk unique_leaf.
  exact (Hrest w').
Qed.

Lemma keepsUnique_layers req :
  implb (isCreation req) (plainId (toStr (body req "id"))) = true ->
  Forall (fun l => match l with
                   | Route m pat h =>
                       forall ps, methodMatches m (method req) = true ->
                                  matchPath pat (path req) = Some ps ->
                                  respects keepsUnique (h ps req)
                   | Static _ => True
                   end) layers.
Proof.
  intros Hok. unfold layers.
  repeat (apply Forall_cons; split;
          [ first [ exact I
                  | intros ps Hm Hp; unfold plain;
                    lazymatch goal with
                    | |- respects _ (postStudentsCreate _) => idtac
                    end
                  | intros ps _ _; open_route ps; unfold_handlers; walk unique_leaf ]
          | ]).
  2: constructor.
  apply keepsUnique_postStudentsCreate. unfold isCreation in Hok.
  rewrite Hm, Hp in Hok.
  rewrite (bool_decide_eq_true_2 (is_Some (Some ps))) in Hok by (exists ps; reflexivity).
  destruct (hasRole req "admin"); [right; exact Hok|left; reflexivity].
Qed.

Lemma keepsUnique_startup : respects keepsUnique (migratePasswords ;; checkStudentVerification).
Proof. unfold migratePasswords, checkStudentVerification. walk unique_leaf. Qed.

(** X19.  The id of a Student record is unique up to case, and stays so:
    if no two records have the same id up to case, then this still holds
    after any sequence of restarts and of requests in which students are
    created under ids made of letters and digits only.  The only place
    that adds a record, POST /api/students/create, stores the id in upper
    case after it has found no record matching the pattern made of the
    id, which for letters and digits is the id in any case; an id with
    other characters goes unescaped into that pattern and is left out
    here. *)
Theorem student_ids_stay_unique (es : list event) (w : World) :
  Forall (fun e => createsPlainId e = true) es ->
  uniqueIds w -> uniqueIds (run es w).
Proof.
  intros Hes. revert Hes. apply (respects_run keepsUnique _ createsPlainId).
  intros [req|] w0 Hok.
  - exact (respects_serve keepsUnique _ req (keepsUnique_layers req Hok) w0).
  - exact (keepsUnique_startup w0).
Qed.

(** ** Photo addresses *)

(** X20.  The address shown for a photo: nothing for a missing or empty
    value, otherwise an address that starts with 'http' (the stored one
    when it is remote, the API's photo route for a stored file name);
    resolving a resolved address changes nothing. *)
Theorem getPhotoUrl_is_remote (photo : option string) :
  (JS.truthy photo = false -> getPhotoUrl photo = "")
  /\ (JS.truthy photo = true -> JS.startsWith (getPhotoUrl photo) "http" = true)
  /\ getPhotoUrl (Some (getPhotoUrl photo)) = getPhotoUrl photo.
Proof.
  destruct photo as [[|c r]|]; try (repeat split; cbn; congruence).
  set (p := String c r).
  assert (Hcases : getPhotoUrl (Some p) = p /\ JS.startsWith p "http" = true
                   \/ getPhotoUrl (Some p) = "https://sb-cse-gnitc-api.onrender.com/api/photo/" ++ p).
  { unfold getPhotoUrl, p. destruct (JS.startsWith (String c r) "http") eqn:Hs; auto. }
  split; [discriminate|]. split.
  - intros _. destruct Hcases as [[-> Hs]| ->]; [exact Hs|reflexivity].
  - destruct Hcases as [[-> Hs]| ->]; [|reflexivity].
    unfold getPhotoUrl, p in *. rewrite Hs. reflexivity.
Qed.

(** ** An admin's edit of a student *)

Lemma sameButDetails_refl l : Forall2 sameButDetails l l.
Proof. induction l as [|s r IH]; constructor; [destruct s; reflexivity|exact IH]. Qed.

Lemma sameButDetails_trans l1 l2 l3 :
  Forall2 sameButDetails l1 l2 -> Forall2 sameButDetails l2 l3 -> Forall2 sameButDetails l1 l3.
Proof.
  intros H12. revert l3. induction H12 as [|a b r1 r2 Hab _ IH]; intros l3 H23.
  - inversion H23. constructor.
  - inversion H23 as [|b' c r2' r3 Hbc Hr]; subst. constructor; [|apply IH, Hr].
    unfold sameButDetails in *. rewrite <- Hab at 4. rewrite <- Hbc. reflexivity.
Qed.

Lemma detailsOnly_preorder : PreOrder detailsOnly.
Proof.
  split.
  - intros w. split; [reflexivity|apply sameButDetails_refl].
  - intros w1 w2 w3 [Hp12 Hs12] [Hp23 Hs23]. split; [congruence|].
    exact (sameButDetails_trans _ _ _ Hs12 Hs23).
Qed.

#[local] Existing Instance detailsOnly_preorder.

Lemma detailsOnly_same w w' :
  students w' = students w -> placements w' = placements w -> detailsOnly w w'.
Proof. intros Hs Hp. split; [exact Hp|]. rewrite Hs. apply sameButDetails_refl. Qed.

Lemma detailsOnly_Student_findOneAndUpdate p nm co sal :
  respects detailsOnly
    (Student_findOneAndUpdate p (fun s => Student_withDetails (nm s) (co s) sal s)).
Proof.
  intros w. unfold Student_findOneAndUpdate.
  assert (Hl : Forall2 sameButDetails (students w)
                 (snd (updateFirst p (fun s => Student_withDetails (nm s) (co s) sal s)
                         (students w)))).
  { induction (students w) as [|s r IH]; simpl; [constructor|].
    destruct (p s).
    - simpl. constructor; [destruct s; reflexivity|apply sameButDetails_refl].
    - destruct (updateFirst p _ r) as [o r']. simpl in *.
      constructor; [destruct s; reflexivity|exact IH]. }
  destruct (updateFirst p _ (students w)) as [o l]. simpl in *. split; [reflexivity|exact Hl].
Qed.

Ltac details_quiet :=
  let w := fresh "w" in
  intros w;
  unfold logActivity, ActivityLog_create, tryCatch, modify, bind, orThrow, get, ret, throw;
  apply detailsOnly_same; reflexivity.

(** X24.  PUT /api/students/:id writes nothing but the name, the company
    and the salary of Student records: every record keeps its [_id], id,
    photo, logo, password and verification status (an admin's edit does
    not reset the status), no record is added or removed, and the
    Placements are left as they were. *)
Theorem putStudent_edits_details_only (id : string) (req : Request) (w : World) :
  detailsOnly w (snd (putStudent id req w)).
Proof.
  revert w. change (respects detailsOnly (putStudent id req)).
  unfold putStudent, requireAdmin.
  walk ltac:(first
    [ match goal with
      | |- respects _ (Student_findOneAndUpdate _
                         (fun s => Student_withDetails (?nm _) (?co _) ?sal s)) =>
          apply (detailsOnly_Student_findOneAndUpdate _
                   (fun s => nm (Student.name s)) (fun s => co (Student.company s)) sal)
      end
    | details_quiet ]).
Qed.

(** ** The dashboard's table *)

Section Grouping.
Variable gt : number -> number -> bool.

Lemma updateFirst_keyed (id : string) (f : GroupedStudent.t -> GroupedStudent.t) (l : Groups) :
  NoDup (map fst l) ->
  snd (updateFirst (hasKey id) (fun kv => (fst kv, f (snd kv))) l)
  = map (fun kv => if hasKey id kv then (fst kv, f (snd kv)) else kv) l.
Proof.
  induction l as [|kv r IH]; simpl; [reflexivity|].
  intros Hnd. apply NoDup_cons in Hnd as [Hk Hr].
  destruct (hasKey id kv) eqn:Hkv.
  - simpl. f_equal. rewrite <- (map_id r) at 1. apply map_ext_in.
    intros kv' Hin. destruct (hasKey id kv') eqn:Hkv'; [|reflexivity].
    exfalso. apply Hk. unfold hasKey in *.
    apply String.eqb_eq in Hkv, Hkv'. rewrite Hkv, <- Hkv'.
    apply list_elem_of_In, in_map, Hin.
  - destruct (updateFirst _ _ r) as [o r'] eqn:Hu. simpl in *. rewrite (IH Hr). reflexivity.
Qed.

Lemma addRow_studentId p g :
  GroupedStudent.studentId (addRow gt p g) = GroupedStudent.studentId g.
Proof. unfold addRow. destruct (JS.truthy (ClientRow.company p)); reflexivity. Qed.

Lemma addRow_placements p g :
  GroupedStudent.placements (addRow gt p g)
  = (GroupedStudent.placements g
     ++ if JS.truthy (ClientRow.company p)
        then [groupedPlacement (optStr (ClientRow.company p)) p] else [])%list.
Proof.
  unfold addRow. destruct (JS.truthy (ClientRow.company p)); simpl;
    [reflexivity|rewrite app_nil_r; reflexivity].
Qed.

Lemma addRow_hasPending p g :
  GroupedStudent.hasPending (addRow gt p g)
  = GroupedStudent.hasPending g || (JS.truthy (ClientRow.company p) && isPending p).
Proof.
  unfold addRow, isPending. destruct (JS.truthy (ClientRow.company p)); simpl.
  - destruct (decide (ClientRow.verificationStatus p = pending)) as [Hp|Hp].
    + rewrite bool_decide_eq_true_2 by exact Hp. rewrite orb_true_r. reflexivity.
    + rewrite bool_decide_eq_false_2 by exact Hp. rewrite orb_false_r. reflexivity.
  - rewrite orb_false_r. reflexivity.
Qed.

Lemma existsb_hasKey id (G : Groups) :
  existsb (hasKey id) G = true <-> In id (map fst G).
Proof.
  rewrite existsb_exists, in_map_iff. unfold hasKey.
  split; intros (kv & H1 & H2).
  - apply String.eqb_eq in H2. eauto.
  - exists kv. split; [exact H2|]. apply String.eqb_eq, H1.
Qed.

Lemma fold_left_snoc {A B} (f : A -> B -> A) l x a :
  fold_left f (l ++ [x])%list a = f (fold_left f l a) x.
Proof. rewrite fold_left_app. reflexivity. Qed.

(** What the map of [groupPlacements] holds after the rows [ps]. *)
Lemma fold_groupRow (ps : list ClientRow.t) :
  let G := fold_left (groupRow gt) ps [] in
  NoDup (map fst G)
  /\ (forall id, In id (map fst G)
                 <-> exists p, In p ps /\ JS.toUpperCase (ClientRow.studentId p) = id)
  /\ (forall id g, In (id, g) G ->
        GroupedStudent.studentId g = id
        /\ GroupedStudent.placements g
           = map (fun p => groupedPlacement (optStr (ClientRow.company p)) p)
               (List.filter (counted id) ps)
        /\ GroupedStudent.hasPending g
           = existsb isPending (List.filter (counted id) ps)).
Proof.
  induction ps as [|p ps IH] using rev_ind; cbv zeta.
  - simpl. split; [constructor|]. split; [|contradiction].
    intros id. split; [contradiction|]. intros (p & [] & _).
  - rewrite fold_left_snoc. set (G := fold_left (groupRow gt) ps []) in *.
    destruct IH as (Hnd & Hkeys & Hgroups).
    set (id0 := JS.toUpperCase (ClientRow.studentId p)).
    set (G1 := if existsb (hasKey id0) G then G else (G ++ [(id0, newGroup id0 p)])%list).
    assert (Hnd1 : NoDup (map fst G1)).
    { unfold G1. destruct (existsb (hasKey id0) G) eqn:Hex; [exact Hnd|].
      rewrite map_app. apply NoDup_app. split; [exact Hnd|]. split; [|apply NoDup_singleton].
      intros k Hk Hnew. simpl in Hnew. apply list_elem_of_In in Hnew as [<-|[]].
      apply list_elem_of_In, existsb_hasKey in Hk. congruence. }
    assert (Hkeys1 : forall id, In id (map fst G1)
                       <-> exists q, In q (ps ++ [p])%list
                                     /\ JS.toUpperCase (ClientRow.studentId q) = id).
    { intros id. unfold G1. destruct (existsb (hasKey id0) G) eqn:Hex.
      - rewrite Hkeys. split.
        + intros (q & Hq & Hid). exists q. split; [apply in_or_app; auto|exact Hid].
        + intros (q & Hq & Hid). apply in_app_or in Hq as [Hq|[<-|[]]]; [eauto|].
          apply Hkeys. rewrite <- Hid. apply existsb_hasKey, Hex.
      - rewrite map_app, in_app_iff, Hkeys. simpl. split.
        + intros [(q & Hq & Hid)|[<-|[]]].
          * exists q. split; [apply in_or_app; auto|exact Hid].
          * exists p. split; [apply in_or_app; simpl; auto|reflexivity].
        + intros (q & Hq & Hid). apply in_app_or in Hq as [Hq|[<-|[]]]; [left; eauto|].
          right. left. exact Hid. }
    assert (Hgroups1 : forall id g, In (id, g) G1 ->
              GroupedStudent.studentId g = id
              /\ GroupedStudent.placements g
                 = map (fun p => groupedPlacement (optStr (ClientRow.company p)) p)
                     (List.filter (counted id) ps)
              /\ GroupedStudent.hasPending g
                 = existsb isPending (List.filter (counted id) ps)).
    { intros id g Hin. unfold G1 in Hin.
      destruct (existsb (hasKey id0) G) eqn:Hex; [apply Hgroups, Hin|].
      apply in_app_or in Hin as [Hin|[[= <- <-]|[]]]; [apply Hgroups, Hin|].
      assert (Hnone : List.filter (counted id0) ps = []).
      { destruct (List.filter (counted id0) ps) as [|q r] eqn:Hf; [reflexivity|].
        assert (Hq : In q (List.filter (counted id0) ps)) by (rewrite Hf; left; reflexivity).
        apply filter_In in Hq as [Hq Hc]. unfold counted in Hc.
        apply andb_true_iff in Hc as [Hc _]. apply String.eqb_eq in Hc.
        assert (Hk : In id0 (map fst G)) by (apply Hkeys; eauto).
        apply existsb_hasKey in Hk. congruence. }
      rewrite Hnone. repeat split. }
    unfold groupRow. fold id0. fold G1. cbv zeta.
    rewrite (updateFirst_keyed id0 (addRow gt p) G1 Hnd1).
    set (h := fun kv : string * GroupedStudent.t =>
                if hasKey id0 kv then (fst kv, addRow gt p (snd kv)) else kv).
    assert (Hfst : map fst (map h G1) = map fst G1).
    { rewrite map_map. apply map_ext. intros kv. unfold h. destruct (hasKey id0 kv); reflexivity. }
    rewrite Hfst. split; [exact Hnd1|]. split; [exact Hkeys1|].
    intros id g Hin. apply in_map_iff in Hin as ([k g0] & Hh & Hin0).
    destruct (Hgroups1 k g0 Hin0) as (Hsid & Hpl & Hpen).
    rewrite !List.filter_app. unfold h in Hh. simpl in Hh. unfold hasKey in Hh. simpl in Hh.
    destruct (String.eqb_spec k id0) as [Hk|Hk].
    + injection Hh as <- <-.
      assert (Hc : counted k p = JS.truthy (ClientRow.company p)).
      { unfold counted. fold id0. rewrite Hk, String.eqb_refl. reflexivity. }
      rewrite addRow_studentId, addRow_placements, addRow_hasPending, Hpl, Hpen.
      split; [exact Hsid|]. cbn [List.filter]. rewrite Hc, map_app, existsb_app.
      destruct (JS.truthy (ClientRow.company p)); simpl; rewrite ?orb_false_r; auto.
    + injection Hh as <- <-.
      assert (Hc : counted k p = false).
      { unfold counted. fold id0. apply andb_false_iff. left.
        apply String.eqb_neq. congruence. }
      split; [exact Hsid|]. cbn [List.filter]. rewrite Hc, !app_nil_r. auto.
Qed.

Lemma groupPlacements_ids ps :
  map GroupedStudent.studentId (groupPlacements gt ps)
  = map fst (fold_left (groupRow gt) ps []).
Proof.
  unfold groupPlacements. rewrite map_map. apply map_ext_in.
  intros [id g] Hin. destruct (fold_groupRow ps) as (_ & _ & Hg).
  destruct (Hg id g Hin) as (Hid & _). exact Hid.
Qed.

(** X21.  [groupPlacements] makes one group per student: the ids of the
    groups are pairwise distinct, they are the upper-case forms of the
    [studentId]s of the rows, and every row has its group (also a row
    without a company, which adds no placement to it). *)
Theorem groupPlacements_one_group_per_student (ps : list ClientRow.t) :
  NoDup (map GroupedStudent.studentId (groupPlacements gt ps))
  /\ forall id, In id (map GroupedStudent.studentId (groupPlacements gt ps))
                <-> exists p, In p ps /\ JS.toUpperCase (ClientRow.studentId p) = id.
Proof.
  rewrite groupPlacements_ids. destruct (fold_groupRow ps) as (Hnd & Hkeys & _).
  split; assumption.
Qed.

(** X22.  The placements of a group are the rows of that student (up to
    the case of the id) that have a company, in the order of the rows, and
    the group is flagged [hasPending] exactly when one of these rows is
    pending. *)
Theorem groupPlacements_collects (ps : list ClientRow.t) (g : GroupedStudent.t) :
  In g (groupPlacements gt ps) ->
  let mine := List.filter (counted (GroupedStudent.studentId g)) ps in
  GroupedStudent.placements g
  = map (fun p => groupedPlacement (optStr (ClientRow.company p)) p) mine
  /\ GroupedStudent.hasPending g = existsb isPending mine.
Proof.
  unfold groupPlacements. intros Hin. apply in_map_iff in Hin as ([id g0] & <- & Hin).
  destruct (fold_groupRow ps) as (_ & _ & Hg).
  destruct (Hg id g0 Hin) as (Hid & Hpl & Hpen). simpl. rewrite Hid. auto.
Qed.

(** X23.  [getVerifiedCount] counts the students without a pending
    placement, not the students with a verified one: when no row is
    pending, every student of the table is counted, whatever the status of
    the rows (rejected ones included). *)
Theorem getVerifiedCount_counts_not_pending (ps : list ClientRow.t) :
  (forall p, In p ps -> ClientRow.verificationStatus p <> pending) ->
  getVerifiedCount (groupPlacements gt ps) = List.length (groupPlacements gt ps).
Proof.
  intros Hnone. unfold getVerifiedCount. f_equal.
  apply forallb_filter_id. apply forallb_forall. intros g Hg.
  unfold groupPlacements in Hg. apply in_map_iff in Hg as ([id g0] & <- & Hg).
  destruct (fold_groupRow ps) as (_ & _ & Hall).
  destruct (Hall id g0 Hg) as (_ & _ & Hpen). simpl. rewrite Hpen.
  apply negb_true_iff. apply not_true_is_false. intros Hex.
  apply existsb_exists in Hex as (p & Hp & Hpend).
  apply filter_In in Hp as [Hp _]. unfold isPending in Hpend.
  apply bool_decide_eq_true_1 in Hpend. exact (Hnone p Hp Hpend).
Qed.

End Grouping.

End Properties.

(** * The claims on sample data *)

Section OnSamples.
#[local] Existing Instance samplePlatform.

(** C1: the edit request of the student client, sent for the verified
    placement 10, is answered by the 404 handler and the placement is
    still verified. *)
Lemma edit_request_witness :
  method editRequest = PUT
  /\ path editRequest = ["api"; "placements"; "10"]
  /\ serve editRequest sampleWorld
     = (inr (Some ashaUser, Json 404 RouteNotFound), sampleWorld)
  /\ option_map Placement.verificationStatus
       (List.find (Placement_byId 10) (placements (snd (serve editRequest sampleWorld))))
     = Some verified.
Proof.
  pose proof (edit_request_not_routed editRequest sampleWorld "10" eq_refl eq_refl) as E.
  split; [reflexivity|]. split; [reflexivity|]. split; [exact E|].
  rewrite E. reflexivity.
Defined.

(** C2 fails as stated: an approval of the placement id 404, which names
    no record, is answered with [{ success: true }]. *)
Lemma verify_missing_id_reports_success :
  let req := verifyRequest (JStr "placement") (JStr "404") (JStr "approve") in
  resolves req sampleWorld = false
  /\ fst (serve req sampleWorld) = inr (Some adminUser, Json 200 Success).
Proof. split; vm_compute; reflexivity. Qed.

(** C2, as amended, on a rejection of the Student id 404. *)
Lemma verify_unresolved_id_witness :
  let req := verifyRequest (JStr "original") (JStr "404") (JStr "reject") in
  hasRole req "admin" = true
  /\ (body req "type" = JStr "placement" \/ body req "type" = JStr "original")
  /\ resolves req sampleWorld = false
  /\ postAdminVerify req sampleWorld
     = (inr (Some adminUser, Json 200 Success),
        setActivityLogs (fun l => (l ++ [verifyEntry req])%list) sampleWorld).
Proof.
  intros req.
  destruct (verify_unresolved_id req sampleWorld eq_refl (or_intror eq_refl) eq_refl)
    as (_ & _ & _ & _ & Hout).
  split; [reflexivity|]. split; [right; reflexivity|]. split; [reflexivity|].
  exact Hout.
Defined.

(** C3 fails as stated: placement 12 is pending and its [studentId] names
    no Student record; the approval succeeds and verifies it, and no
    Notification is created. *)
Lemma approve_without_student_record :
  let req := verifyRequest (JStr "placement") (JStr "12") (JStr "approve") in
  let out := serve req sampleWorld in
  List.find (Placement_byId 12) (placements sampleWorld) = Some orphanPlacement
  /\ Placement.verificationStatus orphanPlacement = pending
  /\ fst out = inr (Some adminUser, Json 200 Success)
  /\ List.find (Placement_byId 12) (placements (snd out))
     = Some (Placement_withStatus verified orphanPlacement)
  /\ option_map Placement.verificationStatus
       (List.find (Placement_byId 12) (placements (snd out))) = Some verified
  /\ notifications (snd out) = notifications sampleWorld
  /\ outbox (snd out) = [].
Proof. repeat split; vm_compute; reflexivity. Qed.

(** C3, as amended, on the approval of placement 11 of S001, with the
    Gmail call failing. *)
Lemma approve_pending_placement_witness :
  let req := verifyRequest (JStr "placement") (JStr "11") (JStr "approve") in
  let out := postAdminVerify req sampleWorld in
  hasRole req "admin" = true
  /\ body req "type" = JStr "placement"
  /\ body req "action" = JStr "approve"
  /\ castObjectId (body req "id") = Some 11
  /\ List.find (Placement_byId 11) (placements sampleWorld) = Some ashaInfosys
  /\ Placement.verificationStatus ashaInfosys = pending
  /\ fst out = inr (Some adminUser, Json 200 Success)
  /\ List.find (Placement_byId 11) (placements (snd out))
     = Some (Placement.mk 11 "S001" (Some "Asha") (Some "Infosys") (Some 7%Z)
               (Some ashaPhoto) (Some "") false verified)
  /\ exists n e,
       notifications (snd out) = [welcomeNote; n]
       /\ Notification.recipient n = "S001"
       /\ Notification.type n = "success"
       /\ outbox (snd out) = [(e, false)]
       /\ mailTo e = Some "s001@gniindia.org".
Proof.
  intros req out.
  destruct (approve_pending_placement req sampleWorld 11 ashaInfosys
              eq_refl eq_refl eq_refl eq_refl eq_refl eq_refl)
    as (Hr & (p' & Hp & _ & ->) & n & e & Hn & Hrec & _ & Hty & _ & Ho & Hto).
  do 6 (split; [reflexivity|]). split; [exact Hr|]. split; [exact Hp|].
  exists n, e. repeat split; assumption.
Defined.

(** C4, on the code: the suffix pattern of server.js is anchored at the
    end of the name, so only the last token is removed: "Google Ltd" gets
    the key of "Google", but "Google Pvt Ltd" keeps its "pvt", misses the
    registry entry "Google" and the row gets no logo.  The normalizer of
    the repair script removes every token and gives both names the key
    "google". *)
Lemma google_pvt_ltd_not_resolved :
  normalizeCompanyName (Some "Google Pvt Ltd") = "googlepvt"
  /\ normalizeCompanyName (Some "Google") = "google"
  /\ normalizeCompanyName (Some "Google Ltd") = "google"
  /\ repairNormalizeCompanyName (Some "Google Pvt Ltd") = "google"
  /\ repairNormalizeCompanyName (Some "Google") = "google"
  /\ companyLogoMap [google] !! "google" = Some (Some googleLogo)
  /\ Placement.company ashaGoogle = Some "Google Pvt Ltd"
  /\ resolveLogoUrl (companyLogoMap [google]) (rowOfPlacement ashaGoogle) = inr "".
Proof. repeat split; vm_compute; reflexivity. Qed.

(** C5 fails as stated: the dispatcher hands no mail to [sendEmail], and
    the verification of a Student record, which notifies through it,
    ends with a new Notification and an empty outbox. *)
Lemma dispatcher_sends_no_mail :
  outbox (snd (createNotification "S001" "Profile Status Update"
                 "Your profile verification status is now: VERIFIED" "info" sampleWorld))
  = []
  /\ let out := serve (verifyRequest (JStr "original") (JStr "1") (JStr "approve"))
                  sampleWorld in
     List.length (notifications (snd out)) = 2 /\ outbox (snd out) = [].
Proof. repeat split; vm_compute; reflexivity. Qed.

(** C6 fails as stated: a stored logo that is a fully-qualified remote
    URL is not used when it does not contain 'cloudinary.com', and a
    stored value that contains it is used although it is no URL. *)
Lemma stored_remote_logo_not_used :
  let m := companyLogoMap [google] in
  let remote := mkRow (Some "Acme Corp") (Some "https://example.com/acme.png") in
  let bare := mkRow (Some "Acme Corp") (Some "cloudinary.com/acme.png") in
  (isRemoteUrl "https://example.com/acme.png" = true
   /\ resolveLogoUrl m remote = inr ""
   /\ logoAsSpecified m remote = "https://example.com/acme.png")
  /\ (isRemoteUrl "cloudinary.com/acme.png" = false
      /\ resolveLogoUrl m bare = inr "cloudinary.com/acme.png"
      /\ logoAsSpecified m bare = "").
Proof. repeat split; vm_compute; reflexivity. Qed.

(** C6, as amended, on a row of the company "Google" with a local file
    name as its own logo. *)
Lemma logo_resolution_witness :
  let s := mkRow (Some "Google") (Some "logo.png") in
  (normalizeCompanyName (rowCompany s) = "constructor" ->
   is_Some (companyLogoMap [google] !! "constructor"))
  /\ resolveLogoUrl (companyLogoMap [google]) s = inr googleLogo.
Proof.
  intros s.
  assert (Hk : normalizeCompanyName (rowCompany s) = "constructor" ->
               is_Some (companyLogoMap [google] !! "constructor")).
  { intros E. vm_compute in E. discriminate E. }
  split; [exact Hk|].
  rewrite (logo_resolution [google] s Hk). vm_compute. reflexivity.
Defined.

(** A company whose key is [constructor], without a registry entry,
    makes the export fail. *)
Example constructor_row_fails :
  resolveLogoUrl (companyLogoMap [google]) (mkRow (Some "Constructor Ltd") None)
  = inl TypeError.
Proof. vm_compute. reflexivity. Qed.


(** The same submission by S001, who has a photo, creates a pending
    placement. *)
Example submission_with_photo :
  option_map Placement.verificationStatus
    (last (placements (snd (serve (submitRequest ashaUser) sampleWorld))))
  = Some pending
  /\ List.length (placements (snd (serve (submitRequest ashaUser) sampleWorld))) = 4.
Proof. split; vm_compute; reflexivity. Qed.

(** C9 on notification 30, marked twice by S001. *)
Lemma markAsRead_idempotent_witness :
  let req := readRequest (JStr "30") in
  let first := postNotificationsRead req sampleWorld in
  let second := postNotificationsRead req (snd first) in
  session req = Some ashaUser
  /\ valueTruthy (body req "id") = true
  /\ castObjectId (body req "id") = Some 30
  /\ List.find (Notification_byId 30) (notifications sampleWorld) = Some welcomeNote
  /\ fst first = inr (Some ashaUser, Json 200 Success)
  /\ fst second = inr (Some ashaUser, Json 200 Success)
  /\ option_map Notification.read
       (List.find (Notification_byId 30) (notifications (snd second))) = Some true.
Proof.
  intros req first second.
  destruct (markAsRead_idempotent req sampleWorld ashaUser 30 welcomeNote
              eq_refl eq_refl eq_refl eq_refl) as (H1 & H2 & _ & H4 & _ & _).
  do 4 (split; [reflexivity|]). split; [exact H1|]. split; [exact H2|].
  subst second first. rewrite H4. reflexivity.
Defined.

(** C10 on a request whose action is the number 7. *)
Lemma verify_action_witness :
  let req := verifyRequest (JStr "placement") (JStr "11") (JNum 7%Z) in
  hasRole req "admin" = true
  /\ castObjectId (body req "id") = Some 11
  /\ fst (postAdminVerify req sampleWorld) = inr (Some adminUser, Json 200 Success)
  /\ List.find (Placement_byId 11) (placements (snd (postAdminVerify req sampleWorld)))
     = Some (Placement.mk 11 "S001" (Some "Asha") (Some "Infosys") (Some 7%Z)
               (Some ashaPhoto) (Some "") false rejected).
Proof.
  intros req.
  destruct (verify_action_decides_status req sampleWorld 11 eq_refl eq_refl)
    as (_ & _ & Hr & Hp & _).
  split; [reflexivity|]. split; [reflexivity|]. split; [exact Hr|].
  destruct (Hp ashaInfosys eq_refl eq_refl) as (p' & Hfind & _ & ->). exact Hfind.
Defined.


(** The scenario evaluated: S002 is pending after the sweep, after the
    upload and after the run; the admin's approval then verifies the
    record, and a rejection would reject it. *)
Example scenario_S002 :
  let w1 := snd (checkStudentVerification sampleWorld) in
  let w2 := snd (serve (uploadRequest raviUser) w1) in
  let w3 := run afterUpload w2 in
  let status_of w := option_map Student.verificationStatus
                       (List.find (Student_byId 2) (students w)) in
  status_of sampleWorld = Some verified
  /\ status_of w1 = Some pending
  /\ status_of w2 = Some pending
  /\ status_of w3 = Some pending
  /\ status_of (snd (serve (verifyRequest (JStr "original") (JStr "2") (JStr "approve")) w3))
     = Some verified
  /\ status_of (snd (serve (verifyRequest (JStr "original") (JStr "2") (JStr "reject")) w3))
     = Some rejected.
Proof. repeat split; vm_compute; reflexivity. Qed.

End OnSamples.

(** * Further properties on sample data *)

Lemma padTo_length n s : String.length (padTo n s) = n.
Proof.
  revert s. induction n as [|n IH]; intros s; [reflexivity|].
  destruct s; simpl; rewrite IH; reflexivity.
Qed.

Section ExtrasOnSamples.
#[local] Existing Instance samplePlatform.

(** X1: the hyphen of "Tata-Consultancy" does not count, nor do capitals. *)
Lemma normalize_ignores_case_and_punctuation_witness :
  JS.isAscii ("Tata" ++ String "-" "Consultancy") = true
  /\ JS.isAlnumI "-" = false
  /\ normalizeCompanyName (Some "Tata-Consultancy") = "tataconsultancy"
  /\ normalizeCompanyName (Some "TataConsultancy") = "tataconsultancy"
  /\ normalizeCompanyName (Some "TATA-CONSULTANCY") = "tataconsultancy".
Proof.
  assert (Ha : JS.isAscii ("Tata" ++ String "-" "Consultancy") = true)
    by (vm_compute; reflexivity).
  assert (Hc : JS.isAlnumI "-" = false) by (vm_compute; reflexivity).
  destruct (normalize_ignores_case_and_punctuation "Tata" "Consultancy" "-" Ha Hc)
    as [Hdrop Hcase].
  assert (Hkey : normalizeCompanyName (Some "TataConsultancy") = "tataconsultancy")
    by (vm_compute; reflexivity).
  split; [exact Ha|]. split; [exact Hc|].
  split; [exact (eq_trans Hdrop Hkey)|]. split; [exact Hkey|].
  exact (eq_trans Hcase (eq_trans Hdrop Hkey)).
Defined.

(** X2: of "Google Pvt ltd" only the last token goes. *)
Lemma normalize_strips_last_token_only_witness :
  In "ltd" suffixTokens
  /\ normalizeCompanyName (Some ("Google Pvt" ++ " " ++ "ltd")) = "googlepvt".
Proof.
  assert (Hin : In "ltd" suffixTokens).
  { unfold suffixTokens. simpl. tauto. }
  split; [exact Hin|].
  rewrite (normalize_strips_last_token_only "Google Pvt" "ltd" Hin). reflexivity.
Defined.

(** X5 on a row of "Google" without a logo of its own. *)
Lemma resolved_logo_provenance_witness :
  let s := mkRow (Some "Google") None in
  resolveLogoUrl (companyLogoMap [google]) s = inr googleLogo
  /\ googleLogo <> ""
  /\ ((exists c, In c [google]
                 /\ normalizeCompanyName (Some (Company.name c))
                    = normalizeCompanyName (rowCompany s)
                 /\ Company.logo c = Some googleLogo)
      \/ (rowLogo s = Some googleLogo /\ JS.includes googleLogo "cloudinary.com" = true)).
Proof.
  intros s.
  assert (Hres : resolveLogoUrl (companyLogoMap [google]) s = inr googleLogo)
    by (vm_compute; reflexivity).
  assert (Hne : googleLogo <> "") by discriminate.
  split; [exact Hres|]. split; [exact Hne|].
  exact (resolved_logo_provenance [google] s googleLogo Hres Hne).
Defined.

(** X8: the dashboard finds the logo of "Google" for "Google Pvt Ltd",
    by containment of the keys. *)
Lemma getCompanyLogo_provenance_witness :
  getCompanyLogo [google] "Google Pvt Ltd" = Some googleLogo
  /\ "Google Pvt Ltd" <> ""
  /\ exists c,
       In c [google]
       /\ Company.logo c = Some googleLogo
       /\ JS.includes googleLogo "cloudinary.com" = true
       /\ (JS.includes (dashboardNormalize (Company.name c))
             (dashboardNormalize "Google Pvt Ltd") = true
           \/ JS.includes (dashboardNormalize "Google Pvt Ltd")
                (dashboardNormalize (Company.name c)) = true).
Proof.
  assert (Hres : getCompanyLogo [google] "Google Pvt Ltd" = Some googleLogo)
    by (vm_compute; reflexivity).
  split; [exact Hres|].
  exact (getCompanyLogo_provenance [google] "Google Pvt Ltd" googleLogo Hres).
Defined.

(** X9: the name "Ltd." has the empty key and gets the logo of the first
    company of the registry. *)
Lemma getCompanyLogo_empty_key_witness :
  "Ltd." <> ""
  /\ dashboardNormalize "Ltd." = ""
  /\ (forall c', In c' [google] -> dashboardNormalize (Company.name c') <> "")
  /\ getCompanyLogo [google] "Ltd." = Some googleLogo.
Proof.
  assert (Hne : "Ltd." <> "") by discriminate.
  assert (Hkey : dashboardNormalize "Ltd." = "") by reflexivity.
  assert (Hall : forall c', In c' [google] -> dashboardNormalize (Company.name c') <> "").
  { intros c' [<-|[]]. vm_compute. discriminate. }
  split; [exact Hne|]. split; [exact Hkey|]. split; [exact Hall|].
  rewrite (getCompanyLogo_empty_key google [] "Ltd." Hne Hkey Hall). reflexivity.
Defined.

(** X11: the admin deletes "s404", an id without a Student record: the
    orphan placement of S404 goes and a notice is mailed. *)
Lemma deleteStudent_cascades_witness :
  let req := deleteStudentRequest "s404" in
  let out := deleteStudent "s404" req sampleWorld in
  hasRole req "admin" = true
  /\ plainId "s404" = true
  /\ fst out = inr (session req, Json 200 Success)
  /\ placements (snd out) = [ashaGoogle; ashaInfosys]
  /\ students (snd out) = students sampleWorld
  /\ outbox (snd out) = [(deletionMail "s404", gmailSend (deletionMail "s404"))].
Proof.
  intros req out.
  destruct (deleteStudent_cascades "s404" req sampleWorld eq_refl eq_refl)
    as (Hres & _ & _ & _ & Hsame & Hmail).
  split; [reflexivity|]. split; [reflexivity|]. split; [exact Hres|].
  split; [vm_compute; reflexivity|].
  split; [exact (Hsame eq_refl)|]. exact Hmail.
Defined.

(** X12 on the login of S001 with the initial password. *)
Lemma login_checks_credentials_witness :
  let req := loginRequest "s001" "Welcome@123" in
  fst (postLogin req sampleWorld)
  = inr (Some (mkUser "S001" (Some "Asha") "student" false None),
         Json 200 (SuccessRole "student"))
  /\ exists name,
       body req "username" = JStr name
       /\ (("student" = "admin"
            /\ JS.toUpperCase name = "ADMIN001"
            /\ body req "password" = JStr ADMIN_PLAIN
            /\ Some (mkUser "S001" (Some "Asha") "student" false None)
               = Some (mkUser "ADMIN001" (Some "Administrator") "admin" false None))
           \/ ("student" = "student"
               /\ exists s re,
                    idRegExp (JS.toUpperCase name) = Some re
                    /\ List.find (fun s => re (Student.id s)) (students sampleWorld) = Some s
                    /\ bcryptCompare (body req "password") (Student.password s) = Some true
                    /\ Some (mkUser "S001" (Some "Asha") "student" false None)
                       = Some (mkUser (Student.id s) (Student.name s) "student"
                                 (Student.passwordChanged s) None)
                    /\ (plainId (JS.toUpperCase name) = true ->
                        idMatches (JS.toUpperCase name) (Student.id s) = true))).
Proof.
  intros req.
  assert (Hout : fst (postLogin req sampleWorld)
                 = inr (Some (mkUser "S001" (Some "Asha") "student" false None),
                        Json 200 (SuccessRole "student")))
    by (vm_compute; reflexivity).
  split; [exact Hout|].
  destruct (login_checks_credentials req sampleWorld) as (_ & _ & _ & _ & Hsound).
  exact (Hsound _ _ Hout).
Defined.

(** X13: S001 changes the password and logs in with it, the id typed in
    lower case. *)
Lemma changed_password_logs_in_witness :
  let req := changePasswordRequest ashaUser "s3cret!!" in
  let login := loginRequest "s001" "s3cret!!" in
  let changed := postChangePassword req sampleWorld in
  session req = Some ashaUser
  /\ userRole ashaUser = "student"
  /\ plainId (userId ashaUser) = true
  /\ List.find (fun s => idMatches (userId ashaUser) (Student.id s)) (students sampleWorld)
     = Some asha
  /\ body req "newPassword" = JStr "s3cret!!"
  /\ 6 <= String.length "s3cret!!"
  /\ bcryptCompare (JStr "s3cret!!") (bcryptHash "s3cret!!") = Some true
  /\ body login "username" = JStr "s001"
  /\ body login "password" = JStr "s3cret!!"
  /\ idMatches "s001" (userId ashaUser) = true
  /\ JS.toUpperCase "s001" <> "ADMIN001"
  /\ fst changed
     = inr (Some (mkUser "S001" (Some "Asha") "student" true None), Json 200 Success)
  /\ fst (postLogin login (snd changed))
     = inr (Some (mkUser "S001" (Some "Asha") "student" true None),
            Json 200 (SuccessRole "student")).
Proof.
  intros req login changed.
  assert (Hlen : 6 <= String.length "s3cret!!") by (simpl; lia).
  assert (Hne : JS.toUpperCase "s001" <> "ADMIN001") by discriminate.
  destruct (changed_password_logs_in req login sampleWorld ashaUser asha "s3cret!!" "s001"
              eq_refl eq_refl eq_refl eq_refl eq_refl Hlen eq_refl eq_refl eq_refl eq_refl Hne)
    as [Hchanged Hlogin].
  do 11 (split; [first [exact Hlen | exact Hne | reflexivity]|]).
  split; [exact Hchanged|exact Hlogin].
Defined.

(** X15: of the two pending placements, the one of S404 has no Student
    record; one reminder is handed over and counted, though the Gmail call
    of the sample platform fails. *)
Lemma reminders_only_send_mail_witness :
  let out := postSendPendingReminders remindersRequest sampleWorld in
  hasRole remindersRequest "admin" = true
  /\ fst out = inr (Some adminUser, Json 200 (SuccessCount 1 2 None))
  /\ outbox (snd out) = [(reminderMail asha ashaInfosys, false)]
  /\ exists mails,
       students (snd out) = students sampleWorld
       /\ placements (snd out) = placements sampleWorld
       /\ companies (snd out) = companies sampleWorld
       /\ notifications (snd out) = notifications sampleWorld
       /\ outbox (snd out) = (outbox sampleWorld ++ mails)%list
       /\ List.length mails = 1.
Proof.
  intros out.
  destruct (reminders_only_send_mail remindersRequest sampleWorld eq_refl)
    as (mails & Hs & Hp & Hc & Hn & Ho & Hlen & _).
  split; [reflexivity|]. split; [vm_compute; reflexivity|].
  split; [vm_compute; reflexivity|].
  exists mails. repeat (split; [assumption|]). exact Hlen.
Defined.

(** X16: S001 marks everything as read. *)
Lemma mark_all_read_witness :
  let req := readRequest JUndefined in
  let out := postNotificationsRead req sampleWorld in
  session req = Some ashaUser
  /\ valueTruthy (body req "id") = false
  /\ unreadCount "S001" sampleWorld = 1
  /\ fst out = inr (session req, Json 200 Success)
  /\ unreadCount (recipientOf ashaUser) (snd out) = 0.
Proof.
  intros req out.
  destruct (mark_all_read req sampleWorld ashaUser eq_refl eq_refl) as (Hres & Hzero & _).
  split; [reflexivity|]. split; [reflexivity|]. split; [reflexivity|].
  split; [exact Hres|exact Hzero].
Defined.

(** X18 on requests of students, one of them an attempt to approve, and a
    restart. *)
Lemma status_moves_need_admin_witness :
  Forall (fun e => notByAdmin e = true) studentEvents
  /\ statusKept sampleWorld (run studentEvents sampleWorld).
Proof.
  assert (Hes : Forall (fun e => notByAdmin e = true) studentEvents).
  { unfold studentEvents. repeat (constructor; [reflexivity|]). constructor. }
  split; [exact Hes|]. exact (status_moves_need_admin studentEvents sampleWorld Hes).
Defined.

(** X19 on the creation of S003 asked twice. *)
Lemma student_ids_stay_unique_witness :
  Forall (fun e => createsPlainId e = true) adminEvents
  /\ uniqueIds sampleWorld
  /\ uniqueIds (run adminEvents sampleWorld)
  /\ map Student.id (students (run adminEvents sampleWorld)) = ["S001"; "S003"].
Proof.
  assert (Hu : uniqueIds sampleWorld).
  { unfold uniqueIds. cbn. apply NoDup_cons. split; [|apply NoDup_singleton].
    intros Hin. apply list_elem_of_In in Hin as [E|[]]. discriminate E. }
  assert (Hes : Forall (fun e => createsPlainId e = true) adminEvents).
  { unfold adminEvents. repeat (constructor; [vm_compute; reflexivity|]). constructor. }
  split; [exact Hes|]. split; [exact Hu|].
  split; [exact (student_ids_stay_unique adminEvents sampleWorld Hes Hu)|].
  vm_compute. reflexivity.
Defined.

(** X22 on the group of S001, whose rows spell the id in two cases. *)
Lemma groupPlacements_collects_witness :
  In ashaGroup (groupPlacements Z.gtb tableRows)
  /\ GroupedStudent.hasPending ashaGroup
     = existsb isPending (List.filter (counted "S001") tableRows)
  /\ List.length (GroupedStudent.placements ashaGroup) = 2.
Proof.
  assert (Hin : In ashaGroup (groupPlacements Z.gtb tableRows)).
  { vm_compute. left. reflexivity. }
  destruct (@groupPlacements_collects samplePlatform Z.gtb tableRows ashaGroup Hin) as [_ Hpen].
  split; [exact Hin|]. split; [exact Hpen|reflexivity].
Defined.

(** X23: a student whose only placement is rejected is counted. *)
Lemma getVerifiedCount_counts_not_pending_witness :
  (forall p, In p settledRows -> ClientRow.verificationStatus p <> pending)
  /\ getVerifiedCount (groupPlacements Z.gtb settledRows) = 2.
Proof.
  assert (Hnone : forall p, In p settledRows -> ClientRow.verificationStatus p <> pending).
  { intros p [<-|[<-|[]]]; discriminate. }
  split; [exact Hnone|].
  rewrite (@getVerifiedCount_counts_not_pending samplePlatform Z.gtb settledRows Hnone). reflexivity.
Defined.

(** X25: the admin creates "s003"; S003 logs in with the default password
    and is pending after the next restart. *)
Lemma created_student_logs_in_witness :
  let req := createStudentRequest "s003" "Meera" in
  let login := loginRequest "S003" "Welcome@123" in
  let created := postStudentsCreate req sampleWorld in
  hasRole req "admin" = true
  /\ body req "id" = JStr "s003"
  /\ "s003" <> ""
  /\ plainId "s003" = true
  /\ List.find (fun s => idMatches "s003" (Student.id s)) (students sampleWorld) = None
  /\ (if valueTruthy (body req "name") then castString (body req "name")
      else Some (Some "Student")) = Some (Some "Meera")
  /\ bcryptCompare (JStr "Welcome@123") (bcryptHash "Welcome@123") = Some true
  /\ body login "username" = JStr "S003"
  /\ body login "password" = JStr "Welcome@123"
  /\ idMatches "S003" "s003" = true
  /\ JS.toUpperCase "S003" <> "ADMIN001"
  /\ fst created = inr (Some adminUser, Json 200 Success)
  /\ fst (postLogin login (snd created))
     = inr (Some (mkUser "S003" (Some "Meera") "student" false None),
            Json 200 (SuccessRole "student"))
  /\ option_map Student.verificationStatus
       (List.find (Student_idIs "S003") (students (step Startup (snd created))))
     = Some pending.
Proof.
  intros req login created.
  assert (Hne : "s003" <> "") by discriminate.
  assert (Hnot : JS.toUpperCase "S003" <> "ADMIN001") by discriminate.
  destruct (created_student_logs_in req login sampleWorld "s003" "S003" (Some "Meera")
              eq_refl eq_refl Hne eq_refl eq_refl eq_refl eq_refl eq_refl eq_refl eq_refl Hnot)
    as (Hcreated & _ & _ & Hlogin & _).
  do 11 (split; [first [exact Hne | exact Hnot | vm_compute; reflexivity]|]).
  split; [exact Hcreated|]. split; [exact Hlogin|]. vm_compute. reflexivity.
Defined.

(** An id that holds a dot is read as a pattern: DELETE
    /api/students/S00. removes the record of S001, the first that the
    pattern matches, and the placements of S001; a login under the name
    "s00." with the password of S001 opens the session of S001; and a
    name that the pattern language refuses is answered with status 500,
    nothing being written. *)
Example ids_are_read_as_patterns :
  plainId "S00." = false
  /\ map Student.id (students (snd (serve (deleteStudentRequest "S00.") sampleWorld)))
     = ["S002"]
  /\ map Placement._id (placements (snd (serve (deleteStudentRequest "S00.") sampleWorld)))
     = [12]
  /\ fst (serve (loginRequest "s00." "Welcome@123") sampleWorld)
     = inr (Some (mkUser "S001" (Some "Asha") "student" false None),
            Json 200 (SuccessRole "student"))
  /\ serve (deleteStudentRequest "S001(") sampleWorld
     = (inr (Some adminUser, Json 500 (ErrorOf SyntaxError)), sampleWorld).
Proof. repeat split; vm_compute; reflexivity. Qed.

End ExtrasOnSamples.

Section ExtrasOnLegacy.
#[local] Existing Instance bcryptLikePlatform.

(** X14 on a record imported with its password in clear. *)
Lemma startup_idempotent_witness :
  (forall s, 50 <= String.length (bcryptHash s))
  /\ step Startup (step Startup legacyWorld) = step Startup legacyWorld
  /\ step Startup legacyWorld <> legacyWorld.
Proof.
  assert (Hlong : forall s, 50 <= String.length (bcryptHash s)).
  { intros s. change (50 <= String.length ("$2a$10$" ++ padTo 53 s)).
    rewrite length_app_string, padTo_length. simpl. lia. }
  split; [exact Hlong|]. split; [exact (startup_idempotent legacyWorld Hlong)|].
  intros E. apply (f_equal students) in E. vm_compute in E. discriminate E.
Defined.

End ExtrasOnLegacy.
